(** * mcp-devops-velocity: the request executor and the gate provisioner

    A shallow embedding of [src/lib/velocity.js]: the helper
    [executeGraphQL], its transport [attemptGraphQLRequest], and the tool
    handlers [add_pipeline_gate], [get_release_events] and
    [get_pipelines_by_tenant].

    JavaScript values are a first-order datatype, exceptions are an error
    result, and the network is an explicit state: the remote service is a
    state machine answering each [fetch], and every request handed to
    [fetch] is appended to a log. *)

From Stdlib Require Import String Ascii List ZArith Lia Bool.
From Stdlib Require Import DecimalString DecimalZ DecimalPos DecimalNat.
Import ListNotations.
Open Scope string_scope.
Set Warnings "-register-all".

(** ** Strings

    A JavaScript string is modelled by a Rocq [string]; each character
    stands for one code unit below 256. *)

Module JSString.

(** [String.prototype.includes]: [t] occurs somewhere in [s]. *)
Fixpoint includes (s t : string) : bool :=
  prefix t s ||
  match s with
  | EmptyString => false
  | String _ s' => includes s' t
  end.

(** WhiteSpace and LineTerminator code units below 256: TAB, LF, VT, FF,
    CR, SP and NBSP. *)
Definition is_white_space (c : ascii) : bool :=
  let n := nat_of_ascii c in
  ((9 <=? n) && (n <=? 13) || (n =? 32) || (n =? 160))%nat.

Fixpoint trimStart (s : string) : string :=
  match s with
  | EmptyString => EmptyString
  | String c s' => if is_white_space c then trimStart s' else s
  end.

Fixpoint trimEnd (s : string) : string :=
  match s with
  | EmptyString => EmptyString
  | String c s' =>
      match trimEnd s' with
      | EmptyString => if is_white_space c then EmptyString else String c EmptyString
      | r => String c r
      end
  end.

(** [String.prototype.trim]. *)
Definition trim (s : string) : string := trimEnd (trimStart s).

(** The decimal rendering of an integer inside a template literal. *)
Definition of_Z (z : Z) : string := NilZero.string_of_int (Z.to_int z).

Definition of_nat (n : nat) : string := NilZero.string_of_uint (Nat.to_uint n).

(** [Array.prototype.join]. *)
Definition join (sep : string) (l : list string) : string := String.concat sep l.

(** The code unit U+0022, the quotation mark. *)
Definition quotation_mark : ascii := ascii_of_nat 34.

Definition hex_digit (n : nat) : ascii :=
  if (n <? 10)%nat then ascii_of_nat (48 + n) else ascii_of_nat (87 + n).

(** QuoteJSONString, ECMA-262 25.5.2.3, on one code unit: the two-character
    escapes, [\u00xx] for the other control characters, the unit itself
    otherwise. *)
Definition quote_code_unit (c : ascii) : string :=
  let n := nat_of_ascii c in
  let bs := String (ascii_of_nat 92) EmptyString in
  if (n =? 8)%nat then bs ++ "b"
  else if (n =? 9)%nat then bs ++ "t"
  else if (n =? 10)%nat then bs ++ "n"
  else if (n =? 12)%nat then bs ++ "f"
  else if (n =? 13)%nat then bs ++ "r"
  else if (n =? 34)%nat then bs ++ String quotation_mark EmptyString
  else if (n =? 92)%nat then bs ++ bs
  else if (n <? 32)%nat then
    bs ++ "u00" ++ String (hex_digit (n / 16)) (String (hex_digit (n mod 16)) EmptyString)
  else String c EmptyString.

Fixpoint quote_body (s : string) : string :=
  match s with
  | EmptyString => EmptyString
  | String c s' => quote_code_unit c ++ quote_body s'
  end.

Definition QuoteJSONString (s : string) : string :=
  String quotation_mark (quote_body s ++ String quotation_mark EmptyString).

(** [n] copies of the space character. *)
Fixpoint spaces (n : nat) : string :=
  match n with
  | O => EmptyString
  | S k => String " " (spaces k)
  end.

(** The value of a lower-case hexadecimal digit. *)
Definition unhex (c : ascii) : option nat :=
  let n := nat_of_ascii c in
  if ((48 <=? n) && (n <=? 57))%nat then Some (n - 48)
  else if ((97 <=? n) && (n <=? 102))%nat then Some (n - 87)
  else None.

(** The inverse of [quote_code_unit]: the code unit that the head of a
    quoted text stands for, and what follows it.  The code never parses
    JSON text; this reader only serves to show that quoting loses nothing. *)
Definition unquote_code_unit (s : string) : option (ascii * string) :=
  match s with
  | EmptyString => None
  | String c rest =>
      if Ascii.eqb c (ascii_of_nat 92) then
        match rest with
        | String e rest' =>
            if Ascii.eqb e "b" then Some (ascii_of_nat 8, rest')
            else if Ascii.eqb e "t" then Some (ascii_of_nat 9, rest')
            else if Ascii.eqb e "n" then Some (ascii_of_nat 10, rest')
            else if Ascii.eqb e "f" then Some (ascii_of_nat 12, rest')
            else if Ascii.eqb e "r" then Some (ascii_of_nat 13, rest')
            else if Ascii.eqb e quotation_mark then Some (quotation_mark, rest')
            else if Ascii.eqb e (ascii_of_nat 92) then Some (ascii_of_nat 92, rest')
            else if Ascii.eqb e "u" then
              match rest' with
              | String "0" (String "0" (String h (String l rest''))) =>
                  match unhex h, unhex l with
                  | Some a, Some b => Some (ascii_of_nat (16 * a + b), rest'')
                  | _, _ => None
                  end
              | _ => None
              end
            else None
        | EmptyString => None
        end
      else if Ascii.eqb c quotation_mark then None
      else Some (c, rest)
  end.

(** The characters of a JSON number: digits, signs, the point and the
    exponent mark. *)
Definition number_char (c : ascii) : bool :=
  let n := nat_of_ascii c in
  ((48 <=? n) && (n <=? 57))%nat
  || Ascii.eqb c "-" || Ascii.eqb c "+" || Ascii.eqb c "." || Ascii.eqb c "e" || Ascii.eqb c "E".

Fixpoint every (p : ascii -> bool) (s : string) : bool :=
  match s with
  | EmptyString => true
  | String c s' => p c && every p s'
  end.

(** A text that cannot continue a number: it is empty or starts with a
    character that no number holds. *)
Definition delimited (r : string) : Prop :=
  match r with
  | EmptyString => True
  | String c _ => number_char c = false
  end.

(** What follows the first item of a comma-separated sequence: the other
    items, each after a comma, then the closing bracket and the rest. *)
Fixpoint continuation (closing : ascii) (items : list string) (r : string) : string :=
  match items with
  | [] => String closing r
  | t :: items' => "," ++ t ++ continuation closing items' r
  end.

Definition sequence (closing : ascii) (items : list string) (r : string) : string :=
  match items with
  | [] => String closing r
  | t :: items' => t ++ continuation closing items' r
  end.

(** A text that starts with the text of [a1] starts with the text of no
    item but the ones that [same] relates to [a1], whatever delimited text
    follows. *)
Definition decodes {A : Type} (same : A -> A -> Prop) (text : A -> string) (ok : A -> bool)
           (a1 : A) : Prop :=
  forall a2 r1 r2, ok a2 = true -> delimited r1 -> delimited r2 ->
                   text a1 ++ r1 = text a2 ++ r2 -> same a1 a2 /\ r1 = r2.

(** [String.prototype.split] with a separator of one code unit: the pieces
    between the occurrences of the separator, at least one piece. *)
Fixpoint split (separator : ascii) (s : string) : list string :=
  match s with
  | EmptyString => [EmptyString]
  | String c rest =>
      if Ascii.eqb c separator then EmptyString :: split separator rest
      else match split separator rest with
           | piece :: pieces => String c piece :: pieces
           | [] => [String c EmptyString]
           end
  end.

End JSString.

Import JSString.

(** ** extractSessionCookies (lines 137-150)

    The helper takes the text of a [Set-Cookie] header and returns the
    session cookies it holds, or [null], here [None]. *)

(** The test of the loop body: the cookie names one of the two sessions. *)
Definition is_session_cookie (cookie : string) : bool :=
  includes cookie "VelocitySession=" || includes cookie "SecurityApiSession=".

(** The loop over [cookieStrings], pushing onto [cookies]. *)
Fixpoint collect_cookies (cookieStrings : list string) (cookies : list string) : list string :=
  match cookieStrings with
  | [] => cookies
  | cookieString :: rest =>
      let cookie := hd EmptyString (split ";" (trim cookieString)) in
      if is_session_cookie cookie
      then collect_cookies rest (cookies ++ [cookie])
      else collect_cookies rest cookies
  end.

Definition extractSessionCookies (setCookieHeader : string) : option string :=
  let cookies := collect_cookies (split "," setCookieHeader) [] in
  if (0 <? List.length cookies)%nat then Some (join "; " cookies) else None.




(** ** Exceptions and requests

    A thrown [Error] object is its [name] and [message]; the handlers
    only ever read [message]. *)

Record exn : Type := { name : string; message : string }.

Definition Error (m : string) : exn := {| name := "Error"; message := m |}.
Definition TypeError (m : string) : exn := {| name := "TypeError"; message := m |}.

Inductive completion (A : Type) : Type :=
| Return (a : A)
| Throw (e : exn).
Arguments Return {A} a.
Arguments Throw {A} e.

(** The second argument of [fetch]. *)
Record RequestInit : Type :=
  { method : string; headers : list (string * string); body : option string }.

(** The process-wide configuration that [getConfig] returns at startup
    (line 65). *)
Class Config : Type :=
  { graphqlUrl : string; accessToken : string; tenantId : string }.

(** *** getConfig (lines 17-62)

    [args] is [process.argv.slice(2)] and [env] reads [process.env]; a
    missing entry is [None], the value [undefined]. *)

Record CommandLine : Type :=
  { cli_url : option string; cli_token : option string; cli_tenantId : option string }.

(** The [switch] of the loop body. *)
Definition set_option (key : string) (value : option string) (config : CommandLine)
  : CommandLine :=
  if String.eqb key "--url" then
    {| cli_url := value; cli_token := cli_token config; cli_tenantId := cli_tenantId config |}
  else if String.eqb key "--token" then
    {| cli_url := cli_url config; cli_token := value; cli_tenantId := cli_tenantId config |}
  else if String.eqb key "--tenant-id" then
    {| cli_url := cli_url config; cli_token := cli_token config; cli_tenantId := value |}
  else config.

(** The loop over [args], two entries at a time. *)
Fixpoint parse_args (args : list string) (config : CommandLine) : CommandLine :=
  match args with
  | [] => config
  | [key] => set_option key None config
  | key :: value :: rest => parse_args rest (set_option key (Some value) config)
  end.

(** [a || b] on strings that may be [undefined]; the empty string is falsy. *)
Definition or_string (a b : option string) : option string :=
  match a with
  | Some EmptyString | None => b
  | Some _ => a
  end.

Definition getConfig (args : list string) (env : string -> option string)
  : completion Config :=
  let config := parse_args args {| cli_url := None; cli_token := None; cli_tenantId := None |} in
  let graphqlUrl := or_string (cli_url config) (env "VELOCITY_GRAPHQL_URL") in
  let accessToken := or_string (cli_token config) (env "VELOCITY_ACCESS_TOKEN") in
  let tenantId := or_string (cli_tenantId config) (env "VELOCITY_TENANT_ID") in
  match graphqlUrl with
  | Some EmptyString | None =>
      Throw (Error "GraphQL URL is required. Set VELOCITY_GRAPHQL_URL environment variable or use --url argument.")
  | Some graphqlUrl =>
      match accessToken with
      | Some EmptyString | None =>
          Throw (Error "Access token is required. Set VELOCITY_ACCESS_TOKEN environment variable or use --token argument.")
      | Some accessToken =>
          match tenantId with
          | Some EmptyString | None =>
              Throw (Error "Tenant ID is required. Set VELOCITY_TENANT_ID environment variable or use --tenant-id argument.")
          | Some tenantId =>
              Return {| graphqlUrl := graphqlUrl; accessToken := accessToken; tenantId := tenantId |}
          end
      end
  end.

(** A command line made of flag-value pairs, and the tables the statements
    about [getConfig] use: the setting a flag stands for, in the parsed
    command line and in the configuration, and the environment variable
    that stands in for it. *)
Fixpoint flags (pairs : list (string * string)) : list string :=
  match pairs with
  | [] => []
  | (flag, value) :: rest => flag :: value :: flags rest
  end.

(** The entries that the loop reads as keys: the ones at the even
    positions, counted from zero. *)
Fixpoint keys (args : list string) : list string :=
  match args with
  | [] => []
  | [key] => [key]
  | key :: _ :: rest => key :: keys rest
  end.

Definition cli_option (flag : string) (config : CommandLine) : option string :=
  if String.eqb flag "--url" then cli_url config
  else if String.eqb flag "--token" then cli_token config
  else if String.eqb flag "--tenant-id" then cli_tenantId config
  else None.

Definition setting (flag : string) (config : Config) : string :=
  if String.eqb flag "--url" then @graphqlUrl config
  else if String.eqb flag "--token" then @accessToken config
  else @tenantId config.

Definition variable_of (flag : string) : string :=
  if String.eqb flag "--url" then "VELOCITY_GRAPHQL_URL"
  else if String.eqb flag "--token" then "VELOCITY_ACCESS_TOKEN"
  else "VELOCITY_TENANT_ID".

Definition known_flags : list string := ["--url"; "--token"; "--tenant-id"].

(** What a setting resolves to before [getConfig] validates it, and what
    the validation takes for missing: [undefined] and the empty string. *)
Definition resolved (flag : string) (args : list string) (env : string -> option string)
  : option string :=
  or_string (cli_option flag
               (parse_args args {| cli_url := None; cli_token := None;
                                   cli_tenantId := None |}))
            (env (variable_of flag)).

Definition unset (o : option string) : Prop := o = None \/ o = Some EmptyString.

(** ** JavaScript values

    The Number type is kept abstract: the code never computes with a
    number, it only tests one for truthiness, serializes it, or reads the
    length of an array or string.  [number_truthy] is ToBoolean on a Number
    (false for [+0], [-0] and [NaN]); [number_toJSON] is its JSON text (the
    decimal form, [null] when not finite). *)
Class JSNumber : Type :=
  { number : Type;
    number_truthy : number -> bool;
    number_toJSON : number -> string;
    number_of_nat : nat -> number }.

Section Velocity.

Context {JSN : JSNumber}.

(** [VObj] lists the own enumerable properties in enumeration order; a
    property set to [undefined] is listed with [VUndefined]. *)
Inductive value : Type :=
| VUndefined
| VNull
| VBool (b : bool)
| VNum (n : number)
| VStr (s : string)
| VArr (elements : list value)
| VObj (properties : list (string * value)).

(** ToBoolean. *)
Definition truthy (v : value) : bool :=
  match v with
  | VUndefined | VNull => false
  | VBool b => b
  | VNum n => number_truthy n
  | VStr s => negb (String.eqb s EmptyString)
  | VArr _ | VObj _ => true
  end.

Definition typeof (v : value) : string :=
  match v with
  | VUndefined => "undefined"
  | VNull => "object"
  | VBool _ => "boolean"
  | VNum _ => "number"
  | VStr _ => "string"
  | VArr _ | VObj _ => "object"
  end.

Definition Array_isArray (v : value) : bool :=
  match v with VArr _ => true | _ => false end.

(** [v === s] for a string literal [s]. *)
Definition strict_equals_string (v : value) (s : string) : bool :=
  match v with VStr t => String.eqb t s | _ => false end.

(** [a || b]: the left operand when it is truthy, else the right one. *)
Definition logical_or (a b : value) : value := if truthy a then a else b.

Fixpoint lookup (k : string) (properties : list (string * value)) : option value :=
  match properties with
  | [] => None
  | (k', v) :: rest => if String.eqb k' k then Some v else lookup k rest
  end.

(** The array index a property name denotes, when it is the canonical
    decimal form of one. *)
Definition array_index (k : string) : option nat :=
  match NilZero.uint_of_string k with
  | Some d => let n := Nat.of_uint d in
              if String.eqb (of_nat n) k then Some n else None
  | None => None
  end.

(** [v.k] on a value that is neither [undefined] nor [null]: own
    properties, array and string elements and [length].  Properties
    inherited from a prototype are not modelled; none of the names the
    code below reads ([data], [errors], [_id], [type], ...) is one. *)
Definition own_property (v : value) (k : string) : value :=
  match v with
  | VObj properties =>
      match lookup k properties with Some x => x | None => VUndefined end
  | VArr elements =>
      if String.eqb k "length" then VNum (number_of_nat (List.length elements))
      else match array_index k with
           | Some i => nth i elements VUndefined
           | None => VUndefined
           end
  | VStr s =>
      if String.eqb k "length" then VNum (number_of_nat (String.length s))
      else match array_index k with
           | Some i => match String.get i s with
                       | Some c => VStr (String c EmptyString)
                       | None => VUndefined
                       end
           | None => VUndefined
           end
  | _ => VUndefined
  end.

(** [v.length === n] on a value that is neither [undefined] nor [null]. *)
Definition length_is (v : value) (n : nat) : bool :=
  match v with
  | VArr elements => Nat.eqb (List.length elements) n
  | VStr s => Nat.eqb (String.length s) n
  | _ => false
  end.

(** *** JSON.stringify

    SerializeJSONProperty of ECMA-262 25.5.2, on values without cycles,
    functions or [toJSON] methods: [None] is the result [undefined].
    [gap] is the indentation unit and [indent] the current indentation. *)

Definition wrap_partial (opening closing gap indent stepback : string)
           (partial : list string) : string :=
  match partial with
  | [] => opening ++ closing
  | _ =>
      if String.eqb gap EmptyString then opening ++ join "," partial ++ closing
      else
        let nl := String (ascii_of_nat 10) EmptyString in
        opening ++ nl ++ indent ++ join ("," ++ nl ++ indent) partial
                ++ nl ++ stepback ++ closing
  end.

Definition member_text (gap key text : string) : string :=
  QuoteJSONString key ++ ":" ++ (if String.eqb gap EmptyString then EmptyString else " ") ++ text.

Fixpoint SerializeJSONProperty (gap indent : string) (v : value) {struct v} : option string :=
  match v with
  | VUndefined => None
  | VNull => Some "null"
  | VBool true => Some "true"
  | VBool false => Some "false"
  | VNum n => Some (number_toJSON n)
  | VStr s => Some (QuoteJSONString s)
  | VArr elements =>
      let stepback := indent in
      let indent := indent ++ gap in
      let partial :=
        (fix each (l : list value) : list string :=
           match l with
           | [] => []
           | x :: rest =>
               match SerializeJSONProperty gap indent x with
               | Some s => s
               | None => "null"
               end :: each rest
           end) elements in
      Some (wrap_partial "[" "]" gap indent stepback partial)
  | VObj properties =>
      let stepback := indent in
      let indent := indent ++ gap in
      let partial :=
        (fix each (l : list (string * value)) : list string :=
           match l with
           | [] => []
           | (k, x) :: rest =>
               match SerializeJSONProperty gap indent x with
               | Some s => member_text gap k s :: each rest
               | None => each rest
               end
           end) properties in
      Some (wrap_partial "{" "}" gap indent stepback partial)
  end.

(** [JSON.stringify(v, null, space)]; [JSON.stringify(v)] is [space = 0]. *)
Definition JSON_stringify (v : value) (space : nat) : option string :=
  SerializeJSONProperty (spaces (Nat.min space 10)) EmptyString v.

(** A string-or-undefined spliced into a template literal. *)
Definition interpolate (o : option string) : string :=
  match o with Some s => s | None => "undefined" end.


(** ** The network *)

(** What the code reads of a fetch [Response]: [status], the body as
    [text()] gives it, and the outcome of [json()], which throws when the
    body is not valid JSON. *)
Record Response : Type :=
  { status : Z; text : string; json : completion value }.

(** [response.ok]: the status is in the range 200-299. *)
Definition ok (r : Response) : bool := ((200 <=? status r) && (status r <=? 299))%Z.

(** The remote service and the network in front of it: a state machine
    that answers a request with a response, or makes [fetch] reject. *)
Class Service : Type :=
  { remote : Type;
    serve : remote -> string -> RequestInit -> completion Response * remote }.

Context {Svc : Service} {Cfg : Config}.

Record world : Type :=
  { service : remote; sent : list (string * RequestInit) }.

(** An [async] computation: it runs in a world, completes normally or
    throws, and leaves a world. *)
Definition M (A : Type) : Type := world -> completion A * world.

Definition ret {A} (a : A) : M A := fun w => (Return a, w).

Definition throw {A} (e : exn) : M A := fun w => (Throw e, w).

Definition bind {A B} (m : M A) (k : A -> M B) : M B :=
  fun w =>
    match m w with
    | (Return a, w') => k a w'
    | (Throw e, w') => (Throw e, w')
    end.

(** [try { m } catch (error) { handler error }]. *)
Definition try_catch {A} (m : M A) (handler : exn -> M A) : M A :=
  fun w =>
    match m w with
    | (Return a, w') => (Return a, w')
    | (Throw e, w') => handler e w'
    end.

(** Awaiting a value that is already settled. *)
Definition lift {A} (c : completion A) : M A := fun w => (c, w).

Notation "x <- m ;; k" := (bind m (fun x => k))
  (at level 61, m at next level, right associativity).
Notation "m ;;; k" := (bind m (fun _ => k))
  (at level 61, right associativity).

(** [await fetch(url, init)]: the request is logged and the service
    answers it. *)
Definition fetch (url : string) (init : RequestInit) : M Response :=
  fun w =>
    let (r, s) := serve (service w) url init in
    (r, {| service := s; sent := sent w ++ [(url, init)] |}).

(** [v.k]: a TypeError on [undefined] and [null]. *)
Definition get (v : value) (k : string) : M value :=
  match v with
  | VUndefined =>
      throw (TypeError ("Cannot read properties of undefined (reading '" ++ k ++ "')"))
  | VNull =>
      throw (TypeError ("Cannot read properties of null (reading '" ++ k ++ "')"))
  | _ => ret (own_property v k)
  end.

(** [Object.keys(v)]. *)
Definition Object_keys (v : value) : M (list string) :=
  match v with
  | VUndefined | VNull => throw (TypeError "Cannot convert undefined or null to object")
  | VObj properties => ret (map fst properties)
  | VArr elements => ret (map of_nat (seq 0 (List.length elements)))
  | VStr s => ret (map of_nat (seq 0 (String.length s)))
  | _ => ret []
  end.

(** ** The request executor (lines 73-135) *)

Definition attemptGraphQLRequest (query : string) (variables : value)
           (headers : list (string * string)) : M Response :=
  fetch graphqlUrl
        {| method := "POST";
           headers := headers;
           body := JSON_stringify (VObj [("query", VStr query); ("variables", variables)]) 0 |}.

Definition isSessionCookie : bool :=
  includes accessToken "VelocitySession=" || includes accessToken "SecurityApiSession=".

(** The [console.log] lines are left out, except that the one of line 109
    calls [Object.keys(data)], which throws on [null]. *)
Definition executeGraphQL (query : string) (variables : value) : M value :=
  let variables := match variables with VUndefined => VObj [] | _ => variables end in
  try_catch
    (response <-
       (if isSessionCookie then
          attemptGraphQLRequest query variables
            [("Content-Type", "application/json");
             ("Accept", "*/*");
             ("User-Agent", "MCP-Velocity-Client/1.0.0");
             ("Cookie", accessToken)]
        else
          attemptGraphQLRequest query variables
            [("Content-Type", "application/json");
             ("Accept", "*/*");
             ("User-Agent", "MCP-Velocity-Client/1.0.0");
             ("Authorization", "UserAccessKey " ++ accessToken)]) ;;
     if negb (ok response) then
       let errorText := text response in
       throw (Error ("HTTP " ++ of_Z (status response) ++ ": " ++ errorText))
     else
       data <- lift (json response) ;;
       Object_keys data ;;;
       errors <- get data "errors" ;;
       if truthy errors then
         throw (Error ("GraphQL errors: " ++ interpolate (JSON_stringify errors 0)))
       else
         get data "data")
    (fun error => throw error).

(** ** Tool handlers

    A handler takes the fields of its argument object, each a value that
    is [VUndefined] when the caller left it out, and resolves to the object
    [{ content: [{ type: 'text', text }] }]. *)

Definition text_content (t : string) : value :=
  VObj [("content", VArr [VObj [("type", VStr "text"); ("text", VStr t)]])].

(** [v.trim() === s] on a string [v]. *)
Definition trim_equals (v : value) (s : string) : bool :=
  match v with VStr t => String.eqb (trim t) s | _ => false end.

(** [elements.filter(p)] with a callback that may throw. *)
Fixpoint Array_filter (p : value -> M bool) (elements : list value) : M (list value) :=
  match elements with
  | [] => ret []
  | x :: rest =>
      keep <- p x ;;
      kept <- Array_filter p rest ;;
      ret (if keep then x :: kept else kept)
  end.

(** *** add_pipeline_gate (lines 1284-1438) *)

Record GateArgs : Type :=
  { pipelineId : value;
    stageId : value;
    gateType : value;
    gateName : value;
    manualApprovers : value;
    metricRule : value;
    complianceRule : value;
    statusRule : value;
    manualGateNotification : value }.

(** The [mutation] document of the manual branch. *)
Definition AddManualVersionSignOffRule_mutation : string := "
                    mutation AddManualVersionSignOffRule($input: ManualVersionSignOffIn!) {
                        addManualVersionSignOffRule(input: $input) { _id name pipelineId approvers { _id name type } }
                    }
                ".

(** The [mutation] document of the metric branch. *)
Definition AddAutomatedMetricRule_mutation : string := "
                    mutation AddAutomatedMetricRule($input: AutomatedMetricCriterionIn!) {
                        addAutomatedMetricRule(input: $input) { _id name pipelineId }
                    }
                ".

(** The [mutation] document of the compliance branch. *)
Definition AddComplianceRule_mutation : string := "
                    mutation AddComplianceRule($input: ComplianceRuleIn!) {
                        addComplianceRule(input: $input) { _id name pipelineId }
                    }
                ".

(** The [mutation] document of the status branch. *)
Definition AddStatusRule_mutation : string := "
                    mutation AddStatusRule($input: StatusRuleIn!) {
                        addStatusRule(input: $input) { _id name pipelineId }
                    }
                ".

(** The document that attaches rules to a stage as its gate. *)
Definition upsertMutation : string := "
                mutation UpsertPipelineGate($pipelineId: ID!, $stageId: ID!, $ruleIds: [ID!]!, $manualGateNotification: Boolean!) {
                    upsertPipelineGate(pipelineId: $pipelineId, stageId: $stageId, ruleIds: $ruleIds, manualGateNotification: $manualGateNotification) {
                        _id pipelineId stageId rules { ruleType { ... on ManualVersionSignOff { _id name } ... on AutomatedMetricCriterion { _id name } ... on ComplianceRule { _id name } ... on StatusRule { _id name } } } manualGateNotification
                    }
                }
            ".

(** Step 1 of the [try] block, "Create the rule based on gateType": the
    value assigned to [ruleId].  In a condition [!x || !x.f] the property
    is read only when [x] is truthy, so the read cannot throw. *)
Definition create_rule (a : GateArgs) : M value :=
  if strict_equals_string (gateType a) "manual" then
    if negb (truthy (gateName a))
       || negb (String.eqb (typeof (gateName a)) "string")
       || trim_equals (gateName a) EmptyString
    then
      throw (Error "gateName (rule name) is required for manual gate and must be a non-empty string")
    else if negb (truthy (manualApprovers a))
            || negb (Array_isArray (manualApprovers a))
            || length_is (manualApprovers a) 0
    then
      throw (Error "manualApprovers (at least one user) is required for manual gate")
    else
      match manualApprovers a with
      | VArr elements =>
          userApprovers <-
            Array_filter
              (fun a => type <- get a "type" ;; ret (strict_equals_string type "user"))
              elements ;;
          if Nat.eqb (List.length userApprovers) 0 then
            throw (Error "At least one manual approver of type 'user' is required for manual gate")
          else
            let variables :=
              VObj [("input",
                     VObj [("name", gateName a);
                           ("pipelineId", pipelineId a);
                           ("approvers", VArr userApprovers)])] in
            result <- executeGraphQL AddManualVersionSignOffRule_mutation variables ;;
            rule <- get result "addManualVersionSignOffRule" ;;
            get rule "_id"
      | _ => throw (TypeError "manualApprovers.filter is not a function")
      end
  else if strict_equals_string (gateType a) "metric" then
    if negb (truthy (metricRule a))
       || negb (truthy (own_property (metricRule a) "metricDefinition"))
       || negb (truthy (own_property (metricRule a) "dql"))
    then
      throw (Error "metricRule.metricDefinition and metricRule.dql are required for metric gate")
    else
      let variables :=
        VObj [("input",
               VObj [("pipelineId", pipelineId a);
                     ("name", gateName a);
                     ("description", own_property (metricRule a) "description");
                     ("metricDefinition", own_property (metricRule a) "metricDefinition");
                     ("dql", own_property (metricRule a) "dql");
                     ("dataSet", own_property (metricRule a) "dataSet");
                     ("timeRange", own_property (metricRule a) "timeRange")])] in
      result <- executeGraphQL AddAutomatedMetricRule_mutation variables ;;
      rule <- get result "addAutomatedMetricRule" ;;
      get rule "_id"
  else if strict_equals_string (gateType a) "compliance" then
    if negb (truthy (complianceRule a))
       || negb (truthy (own_property (complianceRule a) "resource"))
       || negb (truthy (own_property (complianceRule a) "dql"))
    then
      throw (Error "complianceRule.resource and complianceRule.dql are required for compliance gate")
    else
      let variables :=
        VObj [("input",
               VObj [("pipelineId", pipelineId a);
                     ("name", gateName a);
                     ("description", own_property (complianceRule a) "description");
                     ("resource", own_property (complianceRule a) "resource");
                     ("dql", own_property (complianceRule a) "dql")])] in
      result <- executeGraphQL AddComplianceRule_mutation variables ;;
      rule <- get result "addComplianceRule" ;;
      get rule "_id"
  else if strict_equals_string (gateType a) "status" then
    if negb (truthy (statusRule a))
       || negb (truthy (own_property (statusRule a) "status"))
    then
      throw (Error "statusRule.status is required for status gate")
    else
      let variables :=
        VObj [("input",
               VObj [("pipelineId", pipelineId a);
                     ("name", gateName a);
                     ("status", own_property (statusRule a) "status");
                     ("description", own_property (statusRule a) "description")])] in
      result <- executeGraphQL AddStatusRule_mutation variables ;;
      rule <- get result "addStatusRule" ;;
      get rule "_id"
  else
    throw (Error "Unsupported gateType").

(** Step 2 of the [try] block, "Attach the rule as a gate to the stage". *)
Definition attach_gate (a : GateArgs) (ruleId : value) : M value :=
  let upsertVars :=
    VObj [("pipelineId", pipelineId a);
          ("stageId", stageId a);
          ("ruleIds", VArr [ruleId]);
          ("manualGateNotification", manualGateNotification a)] in
  upsertResult <- executeGraphQL upsertMutation upsertVars ;;
  gate <- get upsertResult "upsertPipelineGate" ;;
  ret (text_content ("Gate added to pipeline stage: " ++ interpolate (JSON_stringify gate 2))).

(** The [try] block of the handler. *)
Definition add_pipeline_gate_try (a : GateArgs) : M value :=
  ruleId <- create_rule a ;;
  attach_gate a ruleId.

Definition add_pipeline_gate (a : GateArgs) : M value :=
  try_catch (add_pipeline_gate_try a)
            (fun error => ret (text_content ("Error adding gate: " ++ message error))).

(** *** get_release_events (lines 162-243) *)

(** The [query] document of [get_release_events]. *)
Definition GetReleaseEvents_query : string := "
                query GetReleaseEvents($first: Int, $dateRange: dateRangeInput, $status: ReleaseStatus, $state: ReleaseState) {
                    releaseEventsSearch(
                        first: $first
                        dateRange: $dateRange
                        status: $status
                        state: $state
                    ) {
                        nodes {
                            _id
                            name
                            description
                            start
                            end
                            status
                            state
                            team {
                                id
                                name
                            }
                            tags {
                                _id
                                name
                            }
                            planStats {
                                planCount
                                appCount
                                teamCount
                                taskCount
                                completedTaskCount
                            }
                        }
                        pageInfo {
                            endCursor {
                                key
                                id
                            }
                        }
                    }
                }
            ".

(** The [try] block of the handler. *)
Definition get_release_events_try (first dateRange status state : value) : M value :=
  let variables :=
    VObj [("first", first); ("dateRange", dateRange); ("status", status); ("state", state)] in
  result <- executeGraphQL GetReleaseEvents_query variables ;;
  events <- get result "releaseEventsSearch" ;;
  ret (text_content ("Release events retrieved: " ++ interpolate (JSON_stringify events 2))).

Definition get_release_events (first dateRange status state : value) : M value :=
  try_catch (get_release_events_try first dateRange status state)
            (fun error => ret (text_content ("Error retrieving release events: " ++ message error))).

(** *** get_pipelines_by_tenant (lines 334-396) *)

(** The [query] document of [get_pipelines_by_tenant]. *)
Definition GetPipelinesByTenant_query : string := "
                query GetPipelinesByTenant($tenantId: ID!) {
                    pipelinesByTenantId(tenantId: $tenantId) {
                        _id
                        name
                        description
                        tenant_id
                        synchronize
                        team {
                            id
                            name
                        }
                        stages {
                            _id
                            name
                            type
                            description
                        }
                        applications {
                            _id
                            name
                            type
                            description
                        }
                        stats {
                            leadTime
                        }
                        created
                    }
                }
            ".

(** The [try] block of the handler. *)
Definition get_pipelines_by_tenant_try (providedTenantId : value) : M value :=
  let variables :=
    VObj [("tenantId", logical_or providedTenantId (VStr tenantId))] in
  result <- executeGraphQL GetPipelinesByTenant_query variables ;;
  pipelines <- get result "pipelinesByTenantId" ;;
  ret (text_content ("Pipelines retrieved: " ++ interpolate (JSON_stringify pipelines 2))).

Definition get_pipelines_by_tenant (providedTenantId : value) : M value :=
  try_catch (get_pipelines_by_tenant_try providedTenantId)
            (fun error => ret (text_content ("Error retrieving pipelines: " ++ message error))).

(** *** get_workflows_for_tenant (lines 472-549) *)

(** The [query] document of [get_workflows_for_tenant]. *)
Definition GetWorkflowsForTenant_query : string := "
                query GetWorkflowsForTenant($tenantId: ID!) {
                    workflowsForTenant(tenantId: $tenantId) {
                        _id
                        pipelineId
                        name
                        description
                        query
                        phases {
                            name
                            description
                            stages {
                                name
                                description
                                query
                                wipLimit
                                showAlerts
                                showSpeed
                            }
                        }
                        integrations
                        integrationsCount
                        leadTime {
                            start
                            end
                            median
                            firstQuartile
                            thirdQuartile
                        }
                        cycleTime {
                            start
                            end
                            median
                            firstQuartile
                            thirdQuartile
                        }
                        team {
                            id
                            name
                        }
                        created
                        lastUpdate
                    }
                }
            ".

(** The [try] block of the handler. *)
Definition get_workflows_for_tenant_try (providedTenantId : value) : M value :=
  let variables :=
    VObj [("tenantId", logical_or providedTenantId (VStr tenantId))] in
  result <- executeGraphQL GetWorkflowsForTenant_query variables ;;
  workflows <- get result "workflowsForTenant" ;;
  ret (text_content ("Workflows retrieved: " ++ interpolate (JSON_stringify workflows 2))).

Definition get_workflows_for_tenant (providedTenantId : value) : M value :=
  try_catch (get_workflows_for_tenant_try providedTenantId)
            (fun error => ret (text_content ("Error retrieving workflows: " ++ message error))).

(** *** get_issues (lines 650-735) *)

(** The [query] document of [get_issues]. *)
Definition GetIssues_query : string := "
                query GetIssues($filter: IssuesFilter) {
                    issues(filter: $filter) {
                        _id
                        type
                        trackerId
                        tenantId
                        issue {
                            _id
                            id
                            name
                            description
                            status
                            url
                            creator
                            owner
                            created
                            lastUpdate
                            type
                            normalizedType
                            priority
                            storyPoints
                            labels
                            sprints {
                                id
                                name
                                active
                                startTime
                                endTime
                            }
                            releases {
                                id
                                name
                                releaseDate
                                released
                            }
                            project {
                                id
                                key
                                name
                            }
                        }
                    }
                }
            ".

(** The [try] block of the handler. *)
Definition get_issues_try (providedTenantId internalIds skip limit : value) : M value :=
  let variables :=
    VObj [("filter",
           VObj [("tenantId", logical_or providedTenantId (VStr tenantId));
                 ("internalIds", internalIds);
                 ("skip", logical_or skip (VNum (number_of_nat 0)));
                 ("limit", logical_or limit (VNum (number_of_nat 100)))])] in
  result <- executeGraphQL GetIssues_query variables ;;
  issues <- get result "issues" ;;
  ret (text_content ("Issues retrieved: " ++ interpolate (JSON_stringify issues 2))).

Definition get_issues (providedTenantId internalIds skip limit : value) : M value :=
  try_catch (get_issues_try providedTenantId internalIds skip limit)
            (fun error => ret (text_content ("Error retrieving issues: " ++ message error))).

(** *** get_teams_by_tenant (lines 976-1018) *)

(** The [query] document of [get_teams_by_tenant]. *)
Definition GetTeamsByTenant_query : string := "
                query GetTeamsByTenant($tenantId: ID!, $roleIds: [String]) {
                    teamsByTenantId(tenantId: $tenantId, roleIds: $roleIds) {
                        _id
                        tenantId
                        name
                    }
                }
            ".

(** The [try] block of the handler. *)
Definition get_teams_by_tenant_try (providedTenantId roleIds : value) : M value :=
  let variables :=
    VObj [("tenantId", logical_or providedTenantId (VStr tenantId)); ("roleIds", roleIds)] in
  result <- executeGraphQL GetTeamsByTenant_query variables ;;
  teams <- get result "teamsByTenantId" ;;
  ret (text_content ("Teams retrieved: " ++ interpolate (JSON_stringify teams 2))).

Definition get_teams_by_tenant (providedTenantId roleIds : value) : M value :=
  try_catch (get_teams_by_tenant_try providedTenantId roleIds)
            (fun error => ret (text_content ("Error retrieving teams: " ++ message error))).

(** *** create_team (lines 1020-1065) *)

(** The [mutation] document of [create_team]. *)
Definition AddNewTeam_mutation : string := "
                mutation AddNewTeam($name: String!, $tenantId: ID!) {
                    addNewTeam(name: $name, tenantId: $tenantId) {
                        _id
                        name
                        tenantId
                        origin
                    }
                }
            ".

(** The [try] block of the handler. *)
Definition create_team_try (name providedTenantId : value) : M value :=
  let variables :=
    VObj [("name", name); ("tenantId", logical_or providedTenantId (VStr tenantId))] in
  result <- executeGraphQL AddNewTeam_mutation variables ;;
  team <- get result "addNewTeam" ;;
  ret (text_content ("Team created: " ++ interpolate (JSON_stringify team 2))).

Definition create_team (name providedTenantId : value) : M value :=
  try_catch (create_team_try name providedTenantId)
            (fun error => ret (text_content ("Error creating team: " ++ message error))).

(** *** get_integrations_by_tenant (lines 1139-1201) *)

(** The [query] document of [get_integrations_by_tenant]. *)
Definition GetIntegrationsByTenant_query : string := "
                query GetIntegrationsByTenant($tenantId: ID!) {
                    integrationsByTenantId(tenantId: $tenantId) {
                        _id
                        type
                        tenant_id
                        name
                        loggingLevel
                        displayName
                        showHidden
                        last_run_successful
                        last_run_completion_time
                        last_successful_execution_time
                        disabled
                        status
                        upgradeAvailable
                        image
                        properties
                        startTime
                        pluginId
                        plugin {
                            _id
                            pluginId
                            displayName
                            description
                            image
                            version
                        }
                    }
                }
            ".

(** The [try] block of the handler. *)
Definition get_integrations_by_tenant_try (providedTenantId : value) : M value :=
  let variables :=
    VObj [("tenantId", logical_or providedTenantId (VStr tenantId))] in
  result <- executeGraphQL GetIntegrationsByTenant_query variables ;;
  integrations <- get result "integrationsByTenantId" ;;
  ret (text_content ("Integrations retrieved: " ++ interpolate (JSON_stringify integrations 2))).

Definition get_integrations_by_tenant (providedTenantId : value) : M value :=
  try_catch (get_integrations_by_tenant_try providedTenantId)
            (fun error => ret (text_content ("Error retrieving integrations: " ++ message error))).

(** ** The other tool handlers

    The handlers below complete the catalogue of the file.  A few more
    operations of the language come first. *)

(** [v !== undefined]. *)
Definition strict_not_undefined (v : value) : bool :=
  match v with VUndefined => false | _ => true end.

(** The own enumerable properties that an object spread [{...v}] copies:
    those of an object, the elements of an array and the code units of a
    string under their indices, none for the other values. *)
Definition own_enumerable (v : value) : list (string * value) :=
  match v with
  | VObj properties => properties
  | VArr elements => combine (map of_nat (seq 0 (List.length elements))) elements
  | VStr s =>
      combine (map of_nat (seq 0 (String.length s)))
              (map (fun c => VStr (String c EmptyString)) (list_ascii_of_string s))
  | _ => []
  end.

(** Defining property [k] with value [x] on an object: in place when the
    object has the name, after the other properties otherwise. *)
Fixpoint define_property (k : string) (x : value) (properties : list (string * value))
  : list (string * value) :=
  match properties with
  | [] => [(k, x)]
  | (k', y) :: rest =>
      if String.eqb k' k then (k, x) :: rest else (k', y) :: define_property k x rest
  end.

(** The text of a number inside a template literal, Number::toString. *)
Class JSNumberText : Type := { number_toString : number -> string }.

Context {NT : JSNumberText}.

(** ToString, as a template literal applies it.  An object that has a
    property named [toString] of its own, which in JSON data is never a
    function, has no primitive value: ToString throws. *)
Fixpoint ToString (v : value) : completion string :=
  match v with
  | VUndefined => Return "undefined"
  | VNull => Return "null"
  | VBool true => Return "true"
  | VBool false => Return "false"
  | VNum n => Return (number_toString n)
  | VStr s => Return s
  | VArr elements =>
      (fix each (l : list value) (done : list string) : completion string :=
         match l with
         | [] => Return (join "," (rev done))
         | x :: rest =>
             match x with
             | VUndefined | VNull => each rest (EmptyString :: done)
             | _ => match ToString x with
                    | Return t => each rest (t :: done)
                    | Throw e => Throw e
                    end
             end
         end) elements []
  | VObj properties =>
      match lookup "toString" properties with
      | Some _ => Throw (TypeError "Cannot convert object to primitive value")
      | None => Return "[object Object]"
      end
  end.

(** *** create_release_event (lines 247-330) *)

(** The [mutation] document of [create_release_event]. *)
Definition AddReleaseEvent_mutation : string := "
                mutation AddReleaseEvent(
                    $name: String!
                    $team: teamInput!
                    $start: Date!
                    $end: Date!
                    $description: String
                    $tags: [ID]
                    $isEvent: Boolean
                    $summary: String
                ) {
                    addReleaseEvent(
                        name: $name
                        team: $team
                        start: $start
                        end: $end
                        description: $description
                        tags: $tags
                        isEvent: $isEvent
                        summary: $summary
                    ) {
                        _id
                        name
                        description
                        start
                        end
                        status
                        team {
                            id
                            name
                        }
                    }
                }
            ".

(** The [try] block of the handler. *)
Definition create_release_event_try (name teamId teamName start end_ description tags isEvent summary : value) : M value :=
  let variables :=
    VObj [("name", name);
          ("team", VObj [("id", teamId); ("name", teamName); ("tenantId", VStr tenantId)]);
          ("start", start);
          ("end", end_);
          ("description", description);
          ("tags", tags);
          ("isEvent", isEvent);
          ("summary", summary)] in
  result <- executeGraphQL AddReleaseEvent_mutation variables ;;
  event <- get result "addReleaseEvent" ;;
  ret (text_content ("Release event created: " ++ interpolate (JSON_stringify event 2))).

Definition create_release_event (name teamId teamName start end_ description tags isEvent summary : value) : M value :=
  try_catch (create_release_event_try name teamId teamName start end_ description tags isEvent summary)
            (fun error => ret (text_content ("Error creating release event: " ++ message error))).

(** *** create_pipeline (lines 399-468) *)

(** The [mutation] document of [create_pipeline]. *)
Definition ComposeNewPipeline_mutation : string := "
                mutation ComposeNewPipeline(
                    $pipelineId: ID
                    $pipelineName: String!
                    $pipelineDesc: String!
                    $organizationId: ID!
                    $team: TeamInput!
                    $defaultEnvironments: Boolean
                ) {
                    composeNewPipeline(
                        pipelineId: $pipelineId
                        pipelineName: $pipelineName
                        pipelineDesc: $pipelineDesc
                        organizationId: $organizationId
                        team: $team
                        defaultEnvironments: $defaultEnvironments
                    ) {
                        _id
                        name
                        description
                        team {
                            id
                            name
                        }
                    }
                }
            ".

(** The [try] block of the handler. *)
Definition create_pipeline_try (pipelineName pipelineDesc teamId teamName defaultEnvironments : value) : M value :=
  let variables :=
    VObj [("pipelineId", VNull);
          ("pipelineName", pipelineName);
          ("pipelineDesc", logical_or pipelineDesc (VStr EmptyString));
          ("organizationId", VStr tenantId);
          ("team", VObj [("id", teamId); ("name", teamName)]);
          ("defaultEnvironments",
           if String.eqb (typeof defaultEnvironments) "boolean"
           then defaultEnvironments else VNull)] in
  result <- executeGraphQL ComposeNewPipeline_mutation variables ;;
  pipeline <- get result "composeNewPipeline" ;;
  ret (text_content ("Pipeline created: " ++ interpolate (JSON_stringify pipeline 2))).

Definition create_pipeline (pipelineName pipelineDesc teamId teamName defaultEnvironments : value) : M value :=
  try_catch (create_pipeline_try pipelineName pipelineDesc teamId teamName defaultEnvironments)
            (fun error => ret (text_content ("Error creating pipeline: " ++ message error))).

(** *** get_particles_by_stage (lines 551-646) *)

(** The [query] document of [get_particles_by_stage]. *)
Definition GetParticlesByStage_query : string := "
                query GetParticlesByStage(
                    $workflowId: ID!
                    $stageName: String!
                    $particleIds: [ID]
                    $pagination: InsightsPaginationInput
                ) {
                    particlesByStage(
                        workflowId: $workflowId
                        stageName: $stageName
                        particleIds: $particleIds
                        pagination: $pagination
                    ) {
                        issue {
                            _id
                            id
                            name
                            status
                            priority
                            type
                            owner
                            creator
                            created
                            lastUpdate
                            url
                            description
                            storyPoints
                            labels
                        }
                        commit {
                            _id
                            id
                            name
                            url
                            creator
                            created
                        }
                        build {
                            _id
                            name
                            status
                            url
                            startTime
                            endTime
                        }
                        deploy {
                            _id
                            name
                            status
                            url
                            startTime
                            endTime
                            environmentId
                        }
                        particleId
                    }
                }
            ".

(** The [try] block of the handler. *)
Definition get_particles_by_stage_try (workflowId stageName particleIds skip limit : value) : M value :=
  let variables :=
    VObj [("workflowId", workflowId);
          ("stageName", stageName);
          ("particleIds", particleIds);
          ("pagination",
           if strict_not_undefined skip || strict_not_undefined limit
           then VObj [("skip", skip); ("limit", limit)] else VUndefined)] in
  result <- executeGraphQL GetParticlesByStage_query variables ;;
  particles <- get result "particlesByStage" ;;
  ret (text_content ("Particles retrieved: " ++ interpolate (JSON_stringify particles 2))).

Definition get_particles_by_stage (workflowId stageName particleIds skip limit : value) : M value :=
  try_catch (get_particles_by_stage_try workflowId stageName particleIds skip limit)
            (fun error => ret (text_content ("Error retrieving particles: " ++ message error))).

(** *** get_deployment_metrics (lines 807-886) *)

(** The [query] document of [get_deployment_metrics]. *)
Definition GetDeployments_query : string := "
                query GetDeployments($query: DeploymentQuery) {
                    deployments(query: $query) {
                        items {
                            _id
                            id_external
                            name
                            description
                            tags
                            teams {
                                name
                                _id
                            }
                            version_name
                            application {
                                id
                                name
                                external_id
                            }
                            type
                            result
                            start_time
                            end_time
                            duration_mins
                            environment_name
                            by_user
                            url
                            deploymentType
                        }
                        count
                    }
                }
            ".

(** The [try] block of the handler. *)
Definition get_deployment_metrics_try (teamIds appIds relativeTime customStartDate customEndDate queryString skip limit : value) : M value :=
  let variables :=
    VObj [("query",
           VObj [("tenantId", VStr tenantId);
                 ("teamIds", teamIds);
                 ("appIds", appIds);
                 ("relativeTime", relativeTime);
                 ("customStartDate", customStartDate);
                 ("customEndDate", customEndDate);
                 ("queryString", queryString);
                 ("pagination",
                  if strict_not_undefined skip || strict_not_undefined limit
                  then VObj [("skip", skip); ("limit", limit)] else VUndefined)])] in
  result <- executeGraphQL GetDeployments_query variables ;;
  deployments <- get result "deployments" ;;
  ret (text_content ("Deployment metrics retrieved: " ++ interpolate (JSON_stringify deployments 2))).

Definition get_deployment_metrics (teamIds appIds relativeTime customStartDate customEndDate queryString skip limit : value) : M value :=
  try_catch (get_deployment_metrics_try teamIds appIds relativeTime customStartDate customEndDate queryString skip limit)
            (fun error => ret (text_content ("Error retrieving deployment metrics: " ++ message error))).

(** *** get_build_data (lines 889-971) *)

(** The [query] document of [get_build_data]. *)
Definition GetBuilds_query : string := "
                query GetBuilds($query: BuildTableQuery) {
                    builds(query: $query) {
                        items {
                            _id
                            id
                            name
                            status
                            url
                            startTime
                            endTime
                            requestor
                            revision
                            number
                            labels
                            source
                            branch
                            application {
                                id
                                externalId
                                name
                            }
                            parameters {
                                name
                                value
                                source
                            }
                        }
                        count
                    }
                }
            ".

(** The [try] block of the handler. *)
Definition get_build_data_try (teamIds appIds relativeTime customStartDate customEndDate source status skip limit : value) : M value :=
  let variables :=
    VObj [("query",
           VObj [("filters",
                  VObj [("tenantId", VStr tenantId);
                        ("teamIds", teamIds);
                        ("appIds", appIds);
                        ("relativeTime", relativeTime);
                        ("customStartDate", customStartDate);
                        ("customEndDate", customEndDate);
                        ("source", source);
                        ("status", status)]);
                 ("pagination",
                  if strict_not_undefined skip || strict_not_undefined limit
                  then VObj [("skip", skip); ("limit", limit)] else VUndefined)])] in
  result <- executeGraphQL GetBuilds_query variables ;;
  builds <- get result "builds" ;;
  ret (text_content ("Build data retrieved: " ++ interpolate (JSON_stringify builds 2))).

Definition get_build_data (teamIds appIds relativeTime customStartDate customEndDate source status skip limit : value) : M value :=
  try_catch (get_build_data_try teamIds appIds relativeTime customStartDate customEndDate source status skip limit)
            (fun error => ret (text_content ("Error retrieving build data: " ++ message error))).

(** *** get_applications_by_criteria (lines 1067-1134) *)

(** The [query] document of [get_applications_by_criteria]. *)
Definition GetApplicationsByCriteria_query : string := "
                query GetApplicationsByCriteria($data: AppCriteriaIn!) {
                    applicationsByCriteria(data: $data) {
                        totalCount
                        apps {
                            _id
                            external_id
                            tenant_id
                            integration_id
                            name
                            alphaNumericName
                            active
                            createdAdHoc
                            type
                            version
                            level
                        }
                    }
                }
            ".

(** The [try] block of the handler. *)
Definition get_applications_by_criteria_try (parentsOnly types integrationId name fuzzyName tags limit offset : value) : M value :=
  let variables :=
    VObj [("data",
           VObj [("tenantId", VStr tenantId);
                 ("parentsOnly", parentsOnly);
                 ("types", types);
                 ("integrationId", integrationId);
                 ("name", name);
                 ("fuzzyName", fuzzyName);
                 ("tags", tags);
                 ("limit", limit);
                 ("offset", offset)])] in
  result <- executeGraphQL GetApplicationsByCriteria_query variables ;;
  applications <- get result "applicationsByCriteria" ;;
  ret (text_content ("Applications retrieved: " ++ interpolate (JSON_stringify applications 2))).

Definition get_applications_by_criteria (parentsOnly types integrationId name fuzzyName tags limit offset : value) : M value :=
  try_catch (get_applications_by_criteria_try parentsOnly types integrationId name fuzzyName tags limit offset)
            (fun error => ret (text_content ("Error retrieving applications: " ++ message error))).

(** *** get_my_access_key_metadata (lines 1441-1475) *)

(** The [query] document of [get_my_access_key_metadata]. *)
Definition MyAccessKeyMetaData_query : string := "
                query MyAccessKeyMetaData {
                    myAccessKeyMetaData {
                        userId
                        email
                        id
                        name
                        created
                        lastUsed
                    }
                }
            ".

(** The [try] block of the handler. *)
Definition get_my_access_key_metadata_try : M value :=
  let variables :=
    VObj [] in
  result <- executeGraphQL MyAccessKeyMetaData_query variables ;;
  metadata <- get result "myAccessKeyMetaData" ;;
  ret (text_content ("Access key metadata: " ++ interpolate (JSON_stringify metadata 2))).

Definition get_my_access_key_metadata : M value :=
  try_catch (get_my_access_key_metadata_try)
            (fun error => ret (text_content ("Error retrieving access key metadata: " ++ message error))).

(** *** add_application_stages (lines 1477-1518) *)

(** The [mutation] document of [add_application_stages]. *)
Definition AddApplicationStages_mutation : string := "
                mutation AddApplicationStages($pipelineId: ID!, $stageId: String!, $environments: [EnvInput]!) {
                    addApplicationStages(pipelineId: $pipelineId, stageId: $stageId, environments: $environments) {
                        _id
                        name
                        description
                        # Add more fields as needed from PipelineApplicationStage
                    }
                }
            ".

(** The [try] block of the handler. *)
Definition add_application_stages_try (pipelineId stageId environments : value) : M value :=
  let variables :=
    VObj [("pipelineId", pipelineId); ("stageId", stageId); ("environments", environments)] in
  result <- executeGraphQL AddApplicationStages_mutation variables ;;
  stages <- get result "addApplicationStages" ;;
  ret (text_content ("Application stages added: " ++ interpolate (JSON_stringify stages 2))).

Definition add_application_stages (pipelineId stageId environments : value) : M value :=
  try_catch (add_application_stages_try pipelineId stageId environments)
            (fun error => ret (text_content ("Error adding application stages: " ++ message error))).

(** *** add_stage (lines 1521-1561) *)

(** The [mutation] document of [add_stage]. *)
Definition AddStage_mutation : string := "
                mutation AddStage($pipelineId: ID!, $stage: StageInput!) {
                    addStage(pipelineId: $pipelineId, stage: $stage) {
                        _id
                        name
                        description
                        # Add more fields as needed
                    }
                }
            ".

(** The [try] block of the handler. *)
Definition add_stage_try (pipelineId stage : value) : M value :=
  let variables :=
    VObj [("pipelineId", pipelineId); ("stage", stage)] in
  result <- executeGraphQL AddStage_mutation variables ;;
  added <- get result "addStage" ;;
  ret (text_content ("Stage added: " ++ interpolate (JSON_stringify added 2))).

Definition add_stage (pipelineId stage : value) : M value :=
  try_catch (add_stage_try pipelineId stage)
            (fun error => ret (text_content ("Error adding stage: " ++ message error))).

(** *** update_stage (lines 1564-1605) *)

(** The [mutation] document of [update_stage]. *)
Definition UpdateStage_mutation : string := "
                mutation UpdateStage($pipelineId: ID!, $stageId: String!, $updates: UpdateStageInput!) {
                    updateStage(pipelineId: $pipelineId, stageId: $stageId, updates: $updates) {
                        _id
                        name
                        description
                        # Add more fields as needed
                    }
                }
            ".

(** The [try] block of the handler. *)
Definition update_stage_try (pipelineId stageId updates : value) : M value :=
  let variables :=
    VObj [("pipelineId", pipelineId); ("stageId", stageId); ("updates", updates)] in
  result <- executeGraphQL UpdateStage_mutation variables ;;
  updated <- get result "updateStage" ;;
  ret (text_content ("Stage updated: " ++ interpolate (JSON_stringify updated 2))).

Definition update_stage (pipelineId stageId updates : value) : M value :=
  try_catch (update_stage_try pipelineId stageId updates)
            (fun error => ret (text_content ("Error updating stage: " ++ message error))).

(** *** delete_stage (lines 1608-1642) *)

(** The [mutation] document of [delete_stage]. *)
Definition DeleteStage_mutation : string := "
                mutation DeleteStage($pipelineId: ID!, $stageId: String!) {
                    deleteStage(pipelineId: $pipelineId, stageId: $stageId) {
                        success
                        message
                    }
                }
            ".

(** The [try] block of the handler. *)
Definition delete_stage_try (pipelineId stageId : value) : M value :=
  let variables :=
    VObj [("pipelineId", pipelineId); ("stageId", stageId)] in
  result <- executeGraphQL DeleteStage_mutation variables ;;
  deleted <- get result "deleteStage" ;;
  ret (text_content ("Stage deleted: " ++ interpolate (JSON_stringify deleted 2))).

Definition delete_stage (pipelineId stageId : value) : M value :=
  try_catch (delete_stage_try pipelineId stageId)
            (fun error => ret (text_content ("Error deleting stage: " ++ message error))).

(** *** update_workflow (lines 1645-1685) *)

(** The [mutation] document of [update_workflow]. *)
Definition UpdateWorkflow_mutation : string := "
                mutation UpdateWorkflow($workflowId: ID!, $updates: WorkflowQuery!) {
                    updateWorkflow(workflowId: $workflowId, updates: $updates) {
                        _id
                        name
                        description
                        # Add more fields as needed
                    }
                }
            ".

(** The [try] block of the handler. *)
Definition update_workflow_try (workflowId updates : value) : M value :=
  let variables :=
    VObj [("workflowId", workflowId); ("updates", updates)] in
  result <- executeGraphQL UpdateWorkflow_mutation variables ;;
  workflow <- get result "updateWorkflow" ;;
  ret (text_content ("Workflow updated: " ++ interpolate (JSON_stringify workflow 2))).

Definition update_workflow (workflowId updates : value) : M value :=
  try_catch (update_workflow_try workflowId updates)
            (fun error => ret (text_content ("Error updating workflow: " ++ message error))).

(** *** upload_issue_data (lines 737-802) *)

(** The [mutation] document of [upload_issue_data]. *)
Definition UploadIssueData_mutation : string := "
                mutation UploadIssueData($data: IssueDataIn!) {
                    uploadIssueData(data: $data) {
                        result
                        issueIds
                    }
                }
            ".

(** [issues.map(issue => ({ ...issue, normalizedType: "OTHER" }))]. *)
Definition normalize_issues (issues : value) : M value :=
  match issues with
  | VArr elements =>
      ret (VArr (map (fun issue =>
                        VObj (define_property "normalizedType" (VStr "OTHER")
                                              (own_enumerable issue)))
                     elements))
  | VUndefined => throw (TypeError "Cannot read properties of undefined (reading 'map')")
  | VNull => throw (TypeError "Cannot read properties of null (reading 'map')")
  | _ => throw (TypeError "issues.map is not a function")
  end.

(** The [try] block of the handler. *)
Definition upload_issue_data_try (source trackerId baseUrl issues : value) : M value :=
  normalized <- normalize_issues issues ;;
  let variables :=
    VObj [("data",
           VObj [("source", source);
                 ("trackerId", trackerId);
                 ("tenantId", VStr tenantId);
                 ("baseUrl", baseUrl);
                 ("issues", normalized)])] in
  result <- executeGraphQL UploadIssueData_mutation variables ;;
  uploaded <- get result "uploadIssueData" ;;
  ret (text_content ("Issue data uploaded: " ++ interpolate (JSON_stringify uploaded 2))).

Definition upload_issue_data (source trackerId baseUrl issues : value) : M value :=
  try_catch (upload_issue_data_try source trackerId baseUrl issues)
            (fun error => ret (text_content ("Error uploading issue data: " ++ message error))).

(** *** test_graphql_connection (lines 1202-1236) *)

(** The [query] document of [test_graphql_connection]. *)
Definition TestConnection_query : string := "
                query TestConnection {
                    __schema {
                        types {
                            name
                        }
                    }
                }
            ".

(** The [try] block of the handler. *)
Definition test_graphql_connection_try : M value :=
  result <- executeGraphQL TestConnection_query (VObj []) ;;
  schema <- get result "__schema" ;;
  types <- get schema "types" ;;
  count <- get types "length" ;;
  found <- lift (ToString count) ;;
  ret (text_content ("GraphQL connection test successful: Found " ++ found ++ " schema types")).

Definition test_graphql_connection : M value :=
  try_catch test_graphql_connection_try
            (fun error => ret (text_content ("GraphQL connection test failed: " ++ message error))).

(** ** Summaries used by the statements

    None of these is code of the repository: each one names something the
    statements below talk about, and a lemma relates it to the embedding. *)

(** The request that one call of [executeGraphQL] hands to [fetch]. *)
Definition graphql_request (query : string) (variables : value) : string * RequestInit :=
  (graphqlUrl,
   {| method := "POST";
      headers :=
        [("Content-Type", "application/json");
         ("Accept", "*/*");
         ("User-Agent", "MCP-Velocity-Client/1.0.0");
         if isSessionCookie then ("Cookie", accessToken)
         else ("Authorization", "UserAccessKey " ++ accessToken)];
      body :=
        JSON_stringify
          (VObj [("query", VStr query);
                 ("variables", match variables with VUndefined => VObj [] | _ => variables end)])
          0 |}).

Definition nullish (v : value) : bool :=
  match v with VUndefined | VNull => true | _ => false end.

(** How a call of [executeGraphQL] settles once [fetch] has settled with
    [r]. *)
Definition settle (r : completion Response) : completion value :=
  match r with
  | Throw e => Throw e
  | Return response =>
      if ok response then
        match json response with
        | Throw e => Throw e
        | Return data =>
            if nullish data then
              Throw (TypeError "Cannot convert undefined or null to object")
            else if truthy (own_property data "errors") then
              Throw (Error ("GraphQL errors: "
                            ++ interpolate (JSON_stringify (own_property data "errors") 0)))
            else Return (own_property data "data")
        end
      else Throw (Error ("HTTP " ++ of_Z (status response) ++ ": " ++ text response))
  end.

(** *** JSON values and their text *)

(** The values a JSON text parses to: no [undefined] anywhere. *)
Fixpoint is_json (v : value) : bool :=
  match v with
  | VUndefined => false
  | VArr elements => forallb is_json elements
  | VObj properties => forallb (fun p => is_json (snd p)) properties
  | _ => true
  end.

(** The text [JSON.stringify(v)] of a value, [null] for [undefined] as
    inside an array. *)
Definition JSON_text (v : value) : string :=
  match JSON_stringify v 0 with Some t => t | None => "null" end.

Definition member_JSON_text (p : string * value) : string :=
  QuoteJSONString (fst p) ++ ":" ++ JSON_text (snd p).

(** A number whose JSON text is a number: a non-empty text of number
    characters.  A number that is not finite has the text [null]. *)
Definition finite_text (n : number) : bool :=
  negb (String.eqb (number_toJSON n) EmptyString) && every number_char (number_toJSON n).

(** The JSON values whose numbers are all finite. *)
Fixpoint is_finite_json (v : value) : bool :=
  match v with
  | VUndefined => false
  | VNum n => finite_text n
  | VArr elements => forallb is_finite_json elements
  | VObj properties => forallb (fun p => is_finite_json (snd p)) properties
  | _ => true
  end.

(** Two values that are equal but for their numbers, which have the same
    JSON text in the same places: [0] and [-0] both have the text [0]. *)
Inductive same_json : value -> value -> Prop :=
| same_null : same_json VNull VNull
| same_bool (b : bool) : same_json (VBool b) (VBool b)
| same_number (a b : number) :
    number_toJSON a = number_toJSON b -> same_json (VNum a) (VNum b)
| same_string (s : string) : same_json (VStr s) (VStr s)
| same_array (elements1 elements2 : list value) :
    Forall2 same_json elements1 elements2 -> same_json (VArr elements1) (VArr elements2)
| same_object (properties1 properties2 : list (string * value)) :
    Forall2 (fun p1 p2 => fst p1 = fst p2 /\ same_json (snd p1) (snd p2))
            properties1 properties2 ->
    same_json (VObj properties1) (VObj properties2).

(** The same name and the same value but for the numbers. *)
Definition same_member (p1 p2 : string * value) : Prop :=
  fst p1 = fst p2 /\ same_json (snd p1) (snd p2).

(** The requests a computation sends from world [w], oldest first, are what
    it appends to the log. *)
Definition sends {A} (m : M A) (w : world) (requests : list (string * RequestInit)) : Prop :=
  sent (snd (m w)) = (sent w ++ requests)%list.

(** An approver entry of kind [user]. *)
Definition user_approver (x : value) : bool :=
  strict_equals_string (own_property x "type") "user".

(** The entries of [manualApprovers], as the input schema guarantees them:
    objects, never [null] or [undefined]. *)
Definition approver_entries_ok (a : GateArgs) : Prop :=
  forall elements, manualApprovers a = VArr elements ->
                   Forall (fun x => nullish x = false) elements.

(** The messages of the six validation errors of [add_pipeline_gate]. *)
Definition validation_messages : list string :=
  ["gateName (rule name) is required for manual gate and must be a non-empty string";
   "manualApprovers (at least one user) is required for manual gate";
   "At least one manual approver of type 'user' is required for manual gate";
   "metricRule.metricDefinition and metricRule.dql are required for metric gate";
   "complianceRule.resource and complianceRule.dql are required for compliance gate";
   "statusRule.status is required for status gate";
   "Unsupported gateType"].

(** The [variables] of the manual rule mutation for a list of approvers. *)
Definition manual_rule_variables (a : GateArgs) (approvers : list value) : value :=
  VObj [("input",
         VObj [("name", gateName a);
               ("pipelineId", pipelineId a);
               ("approvers", VArr approvers)])].

(** The [upsertVars] of step 2 for a rule identifier. *)
Definition attach_variables (a : GateArgs) (ruleId : value) : value :=
  VObj [("pipelineId", pipelineId a);
        ("stageId", stageId a);
        ("ruleIds", VArr [ruleId]);
        ("manualGateNotification", manualGateNotification a)].

(** What step 1 decides before it calls the service: the message of a
    validation error, or the mutation document, its variables and the name
    of the field of the result that holds the created rule. *)
Definition rule_payload (a : GateArgs) : string + (string * value * string) :=
  if strict_equals_string (gateType a) "manual" then
    if negb (truthy (gateName a))
       || negb (String.eqb (typeof (gateName a)) "string")
       || trim_equals (gateName a) EmptyString
    then inl "gateName (rule name) is required for manual gate and must be a non-empty string"
    else
      match manualApprovers a with
      | VArr (x :: rest) =>
          match List.filter user_approver (x :: rest) with
          | [] => inl "At least one manual approver of type 'user' is required for manual gate"
          | users =>
              inr (AddManualVersionSignOffRule_mutation,
                   manual_rule_variables a users,
                   "addManualVersionSignOffRule")
          end
      | _ => inl "manualApprovers (at least one user) is required for manual gate"
      end
  else if strict_equals_string (gateType a) "metric" then
    if truthy (metricRule a)
       && truthy (own_property (metricRule a) "metricDefinition")
       && truthy (own_property (metricRule a) "dql")
    then
      inr (AddAutomatedMetricRule_mutation,
           VObj [("input",
                  VObj [("pipelineId", pipelineId a);
                        ("name", gateName a);
                        ("description", own_property (metricRule a) "description");
                        ("metricDefinition", own_property (metricRule a) "metricDefinition");
                        ("dql", own_property (metricRule a) "dql");
                        ("dataSet", own_property (metricRule a) "dataSet");
                        ("timeRange", own_property (metricRule a) "timeRange")])],
           "addAutomatedMetricRule")
    else inl "metricRule.metricDefinition and metricRule.dql are required for metric gate"
  else if strict_equals_string (gateType a) "compliance" then
    if truthy (complianceRule a)
       && truthy (own_property (complianceRule a) "resource")
       && truthy (own_property (complianceRule a) "dql")
    then
      inr (AddComplianceRule_mutation,
           VObj [("input",
                  VObj [("pipelineId", pipelineId a);
                        ("name", gateName a);
                        ("description", own_property (complianceRule a) "description");
                        ("resource", own_property (complianceRule a) "resource");
                        ("dql", own_property (complianceRule a) "dql")])],
           "addComplianceRule")
    else inl "complianceRule.resource and complianceRule.dql are required for compliance gate"
  else if strict_equals_string (gateType a) "status" then
    if truthy (statusRule a) && truthy (own_property (statusRule a) "status")
    then
      inr (AddStatusRule_mutation,
           VObj [("input",
                  VObj [("pipelineId", pipelineId a);
                        ("name", gateName a);
                        ("status", own_property (statusRule a) "status");
                        ("description", own_property (statusRule a) "description")])],
           "addStatusRule")
    else inl "statusRule.status is required for status gate"
  else inl "Unsupported gateType".

(** *** The validation failures, in the words of the specification *)

Definition is_blank (v : value) : Prop :=
  match v with VStr s => trim s = EmptyString | _ => True end.

Definition missing (v : value) : Prop := nullish v = true.

Definition user_approvers (v : value) : list value :=
  match v with VArr elements => List.filter user_approver elements | _ => [] end.

Inductive fails_validation (a : GateArgs) : Prop :=
| manual_blank_name :
    gateType a = VStr "manual" -> is_blank (gateName a) -> fails_validation a
| manual_no_user :
    gateType a = VStr "manual" -> user_approvers (manualApprovers a) = [] ->
    fails_validation a
| metric_no_definition :
    gateType a = VStr "metric" ->
    missing (own_property (metricRule a) "metricDefinition") -> fails_validation a
| metric_no_condition :
    gateType a = VStr "metric" ->
    missing (own_property (metricRule a) "dql") -> fails_validation a
| compliance_no_resource :
    gateType a = VStr "compliance" ->
    missing (own_property (complianceRule a) "resource") -> fails_validation a
| compliance_no_condition :
    gateType a = VStr "compliance" ->
    missing (own_property (complianceRule a) "dql") -> fails_validation a
| status_no_status :
    gateType a = VStr "status" ->
    missing (own_property (statusRule a) "status") -> fails_validation a
| unsupported_gate_type :
    (forall t, In t ["manual"; "metric"; "compliance"; "status"] -> gateType a <> VStr t) ->
    fails_validation a.

(** Two argument objects that agree on everything a gate of their type
    is built from: the common fields and the rule of that gate type. *)
Definition same_gate_request (a b : GateArgs) : Prop :=
  pipelineId a = pipelineId b /\ stageId a = stageId b /\
  gateType a = gateType b /\ gateName a = gateName b /\
  manualGateNotification a = manualGateNotification b /\
  (gateType a = VStr "manual" -> manualApprovers a = manualApprovers b) /\
  (gateType a = VStr "metric" -> metricRule a = metricRule b) /\
  (gateType a = VStr "compliance" -> complianceRule a = complianceRule b) /\
  (gateType a = VStr "status" -> statusRule a = statusRule b).

(** *** Tool invocations *)

Inductive invocation : Type :=
| call_get_release_events (first dateRange status state : value)
| call_get_pipelines_by_tenant (providedTenantId : value)
| call_get_workflows_for_tenant (providedTenantId : value)
| call_get_issues (providedTenantId internalIds skip limit : value)
| call_get_teams_by_tenant (providedTenantId roleIds : value)
| call_create_team (name providedTenantId : value)
| call_get_integrations_by_tenant (providedTenantId : value)
| call_add_pipeline_gate (a : GateArgs).

(** The handler registered for the tool. *)
Definition handler (i : invocation) : M value :=
  match i with
  | call_get_release_events first dateRange status state =>
      get_release_events first dateRange status state
  | call_get_pipelines_by_tenant providedTenantId =>
      get_pipelines_by_tenant providedTenantId
  | call_get_workflows_for_tenant providedTenantId =>
      get_workflows_for_tenant providedTenantId
  | call_get_issues providedTenantId internalIds skip limit =>
      get_issues providedTenantId internalIds skip limit
  | call_get_teams_by_tenant providedTenantId roleIds =>
      get_teams_by_tenant providedTenantId roleIds
  | call_create_team name providedTenantId => create_team name providedTenantId
  | call_get_integrations_by_tenant providedTenantId =>
      get_integrations_by_tenant providedTenantId
  | call_add_pipeline_gate a => add_pipeline_gate a
  end.

(** The [try] block of the handler, and the labels its [try] and [catch]
    blocks put before the JSON text of the result and before the message of
    what was thrown. *)
Definition try_block (i : invocation) : M value :=
  match i with
  | call_get_release_events first dateRange status state =>
      get_release_events_try first dateRange status state
  | call_get_pipelines_by_tenant providedTenantId =>
      get_pipelines_by_tenant_try providedTenantId
  | call_get_workflows_for_tenant providedTenantId =>
      get_workflows_for_tenant_try providedTenantId
  | call_get_issues providedTenantId internalIds skip limit =>
      get_issues_try providedTenantId internalIds skip limit
  | call_get_teams_by_tenant providedTenantId roleIds =>
      get_teams_by_tenant_try providedTenantId roleIds
  | call_create_team name providedTenantId => create_team_try name providedTenantId
  | call_get_integrations_by_tenant providedTenantId =>
      get_integrations_by_tenant_try providedTenantId
  | call_add_pipeline_gate a => add_pipeline_gate_try a
  end.

Definition success_prefix (i : invocation) : string :=
  match i with
  | call_get_release_events _ _ _ _ => "Release events retrieved: "
  | call_get_pipelines_by_tenant _ => "Pipelines retrieved: "
  | call_get_workflows_for_tenant _ => "Workflows retrieved: "
  | call_get_issues _ _ _ _ => "Issues retrieved: "
  | call_get_teams_by_tenant _ _ => "Teams retrieved: "
  | call_create_team _ _ => "Team created: "
  | call_get_integrations_by_tenant _ => "Integrations retrieved: "
  | call_add_pipeline_gate _ => "Gate added to pipeline stage: "
  end.

Definition error_prefix (i : invocation) : string :=
  match i with
  | call_get_release_events _ _ _ _ => "Error retrieving release events: "
  | call_get_pipelines_by_tenant _ => "Error retrieving pipelines: "
  | call_get_workflows_for_tenant _ => "Error retrieving workflows: "
  | call_get_issues _ _ _ _ => "Error retrieving issues: "
  | call_get_teams_by_tenant _ _ => "Error retrieving teams: "
  | call_create_team _ _ => "Error creating team: "
  | call_get_integrations_by_tenant _ => "Error retrieving integrations: "
  | call_add_pipeline_gate _ => "Error adding gate: "
  end.

(** The [tenantId] argument of an invocation of a tool that takes one. *)
Definition provided_tenant (i : invocation) : option value :=
  match i with
  | call_get_pipelines_by_tenant p
  | call_get_workflows_for_tenant p
  | call_get_issues p _ _ _
  | call_get_teams_by_tenant p _
  | call_create_team _ p
  | call_get_integrations_by_tenant p => Some p
  | call_get_release_events _ _ _ _ | call_add_pipeline_gate _ => None
  end.

(** Where the variables of the tool's request hold the tenant identifier:
    under [filter] for [get_issues], at the top for the others. *)
Definition tenant_path (i : invocation) : list string :=
  match i with
  | call_get_issues _ _ _ _ => ["filter"; "tenantId"]
  | _ => ["tenantId"]
  end.

(** The invocation with its [tenantId] argument replaced by [t]. *)
Definition with_tenant (i : invocation) (t : value) : invocation :=
  match i with
  | call_get_pipelines_by_tenant _ => call_get_pipelines_by_tenant t
  | call_get_workflows_for_tenant _ => call_get_workflows_for_tenant t
  | call_get_issues _ internalIds skip limit => call_get_issues t internalIds skip limit
  | call_get_teams_by_tenant _ roleIds => call_get_teams_by_tenant t roleIds
  | call_create_team name _ => call_create_team name t
  | call_get_integrations_by_tenant _ => call_get_integrations_by_tenant t
  | call_get_release_events _ _ _ _ | call_add_pipeline_gate _ => i
  end.

(** [v.k1.k2...], for names that are present. *)
Fixpoint at_path (v : value) (path : list string) : value :=
  match path with
  | [] => v
  | k :: rest => at_path (own_property v k) rest
  end.

(** *** The rest of the catalogue *)

Inductive other_invocation : Type :=
| also_create_release_event (name teamId teamName start end_ description tags isEvent summary : value)
| also_create_pipeline (pipelineName pipelineDesc teamId teamName defaultEnvironments : value)
| also_get_particles_by_stage (workflowId stageName particleIds skip limit : value)
| also_upload_issue_data (source trackerId baseUrl issues : value)
| also_get_deployment_metrics (teamIds appIds relativeTime customStartDate customEndDate queryString skip limit : value)
| also_get_build_data (teamIds appIds relativeTime customStartDate customEndDate source status skip limit : value)
| also_get_applications_by_criteria (parentsOnly types integrationId name fuzzyName tags limit offset : value)
| also_test_graphql_connection
| also_get_my_access_key_metadata
| also_add_application_stages (pipelineId stageId environments : value)
| also_add_stage (pipelineId stage : value)
| also_update_stage (pipelineId stageId updates : value)
| also_delete_stage (pipelineId stageId : value)
| also_update_workflow (workflowId updates : value).

(** The handler registered for the tool. *)
Definition other_handler (i : other_invocation) : M value :=
  match i with
  | also_create_release_event name teamId teamName start end_ description tags isEvent summary =>
      create_release_event name teamId teamName start end_ description tags isEvent summary
  | also_create_pipeline pipelineName pipelineDesc teamId teamName defaultEnvironments =>
      create_pipeline pipelineName pipelineDesc teamId teamName defaultEnvironments
  | also_get_particles_by_stage workflowId stageName particleIds skip limit =>
      get_particles_by_stage workflowId stageName particleIds skip limit
  | also_upload_issue_data source trackerId baseUrl issues =>
      upload_issue_data source trackerId baseUrl issues
  | also_get_deployment_metrics teamIds appIds relativeTime customStartDate customEndDate queryString skip limit =>
      get_deployment_metrics teamIds appIds relativeTime customStartDate customEndDate queryString skip limit
  | also_get_build_data teamIds appIds relativeTime customStartDate customEndDate source status skip limit =>
      get_build_data teamIds appIds relativeTime customStartDate customEndDate source status skip limit
  | also_get_applications_by_criteria parentsOnly types integrationId name fuzzyName tags limit offset =>
      get_applications_by_criteria parentsOnly types integrationId name fuzzyName tags limit offset
  | also_test_graphql_connection =>
      test_graphql_connection
  | also_get_my_access_key_metadata =>
      get_my_access_key_metadata
  | also_add_application_stages pipelineId stageId environments =>
      add_application_stages pipelineId stageId environments
  | also_add_stage pipelineId stage =>
      add_stage pipelineId stage
  | also_update_stage pipelineId stageId updates =>
      update_stage pipelineId stageId updates
  | also_delete_stage pipelineId stageId =>
      delete_stage pipelineId stageId
  | also_update_workflow workflowId updates =>
      update_workflow workflowId updates
  end.

(** The [try] block of the handler and the label of its [catch] block. *)
Definition other_try_block (i : other_invocation) : M value :=
  match i with
  | also_create_release_event name teamId teamName start end_ description tags isEvent summary =>
      create_release_event_try name teamId teamName start end_ description tags isEvent summary
  | also_create_pipeline pipelineName pipelineDesc teamId teamName defaultEnvironments =>
      create_pipeline_try pipelineName pipelineDesc teamId teamName defaultEnvironments
  | also_get_particles_by_stage workflowId stageName particleIds skip limit =>
      get_particles_by_stage_try workflowId stageName particleIds skip limit
  | also_upload_issue_data source trackerId baseUrl issues =>
      upload_issue_data_try source trackerId baseUrl issues
  | also_get_deployment_metrics teamIds appIds relativeTime customStartDate customEndDate queryString skip limit =>
      get_deployment_metrics_try teamIds appIds relativeTime customStartDate customEndDate queryString skip limit
  | also_get_build_data teamIds appIds relativeTime customStartDate customEndDate source status skip limit =>
      get_build_data_try teamIds appIds relativeTime customStartDate customEndDate source status skip limit
  | also_get_applications_by_criteria parentsOnly types integrationId name fuzzyName tags limit offset =>
      get_applications_by_criteria_try parentsOnly types integrationId name fuzzyName tags limit offset
  | also_test_graphql_connection =>
      test_graphql_connection_try
  | also_get_my_access_key_metadata =>
      get_my_access_key_metadata_try
  | also_add_application_stages pipelineId stageId environments =>
      add_application_stages_try pipelineId stageId environments
  | also_add_stage pipelineId stage =>
      add_stage_try pipelineId stage
  | also_update_stage pipelineId stageId updates =>
      update_stage_try pipelineId stageId updates
  | also_delete_stage pipelineId stageId =>
      delete_stage_try pipelineId stageId
  | also_update_workflow workflowId updates =>
      update_workflow_try workflowId updates
  end.

Definition other_error_prefix (i : other_invocation) : string :=
  match i with
  | also_create_release_event _ _ _ _ _ _ _ _ _ => "Error creating release event: "
  | also_create_pipeline _ _ _ _ _ => "Error creating pipeline: "
  | also_get_particles_by_stage _ _ _ _ _ => "Error retrieving particles: "
  | also_upload_issue_data _ _ _ _ => "Error uploading issue data: "
  | also_get_deployment_metrics _ _ _ _ _ _ _ _ => "Error retrieving deployment metrics: "
  | also_get_build_data _ _ _ _ _ _ _ _ _ => "Error retrieving build data: "
  | also_get_applications_by_criteria _ _ _ _ _ _ _ _ => "Error retrieving applications: "
  | also_test_graphql_connection => "GraphQL connection test failed: "
  | also_get_my_access_key_metadata => "Error retrieving access key metadata: "
  | also_add_application_stages _ _ _ => "Error adding application stages: "
  | also_add_stage _ _ => "Error adding stage: "
  | also_update_stage _ _ _ => "Error updating stage: "
  | also_delete_stage _ _ => "Error deleting stage: "
  | also_update_workflow _ _ => "Error updating workflow: "
  end.

(** Every handler of the file: the eight above and the fourteen others. *)
Definition any_handler (i : invocation + other_invocation) : M value :=
  match i with
  | inl i => handler i
  | inr i => other_handler i
  end.

(** The most requests an invocation may send: two for [add_pipeline_gate],
    one for every other tool. *)
Definition round_trips (i : invocation + other_invocation) : nat :=
  match i with
  | inl (call_add_pipeline_gate _) => 2
  | _ => 1
  end.

(** A computation that, from any world, sends at most [n] requests, each
    one a request of [executeGraphQL]. *)
Definition sends_at_most {A} (n : nat) (m : M A) : Prop :=
  forall w, exists requests,
      sends m w requests /\
      List.length requests <= n /\
      Forall (fun r => exists query variables, r = graphql_request query variables) requests.

(** Where the variables of a tool without a [tenantId] argument hold the
    tenant identifier, when they hold one. *)
Definition configured_tenant_path (i : other_invocation) : option (list string) :=
  match i with
  | also_create_release_event _ _ _ _ _ _ _ _ _ => Some ["team"; "tenantId"]
  | also_create_pipeline _ _ _ _ _ => Some ["organizationId"]
  | also_upload_issue_data _ _ _ _ => Some ["data"; "tenantId"]
  | also_get_deployment_metrics _ _ _ _ _ _ _ _ => Some ["query"; "tenantId"]
  | also_get_build_data _ _ _ _ _ _ _ _ _ => Some ["query"; "filters"; "tenantId"]
  | also_get_applications_by_criteria _ _ _ _ _ _ _ _ => Some ["data"; "tenantId"]
  | _ => None
  end.

(** The invocation passes the input schema where the handler depends on
    it: the [issues] of [upload_issue_data] are an array. *)
Definition issues_ok (i : other_invocation) : Prop :=
  match i with
  | also_upload_issue_data _ _ _ issues => Array_isArray issues = true
  | _ => True
  end.

(** The [try] block and the error label of any handler. *)
Definition any_try_block (i : invocation + other_invocation) : M value :=
  match i with
  | inl i => try_block i
  | inr i => other_try_block i
  end.

Definition any_error_prefix (i : invocation + other_invocation) : string :=
  match i with
  | inl i => error_prefix i
  | inr i => other_error_prefix i
  end.

(** The text [<label>${JSON.stringify(result.<field>, null, 2)}]. *)
Definition rendering (label field : string) (result : value) : string :=
  label ++ interpolate (JSON_stringify (own_property result field) 2).

(** The field of the result that a handler renders. *)
Definition result_field (i : invocation) : string :=
  match i with
  | call_get_release_events _ _ _ _ => "releaseEventsSearch"
  | call_get_pipelines_by_tenant _ => "pipelinesByTenantId"
  | call_get_workflows_for_tenant _ => "workflowsForTenant"
  | call_get_issues _ _ _ _ => "issues"
  | call_get_teams_by_tenant _ _ => "teamsByTenantId"
  | call_create_team _ _ => "addNewTeam"
  | call_get_integrations_by_tenant _ => "integrationsByTenantId"
  | call_add_pipeline_gate _ => "upsertPipelineGate"
  end.

(** The text of the success branch of a handler, from the result of its
    last call of [executeGraphQL]: the label of the tool and the JSON text
    of one field of the result, or, for the connection test, the number of
    schema types within its sentence. *)
Definition other_success_text (i : other_invocation) (result : value) : completion string :=
  match i with
  | also_create_release_event _ _ _ _ _ _ _ _ _ =>
      Return (rendering "Release event created: " "addReleaseEvent" result)
  | also_create_pipeline _ _ _ _ _ =>
      Return (rendering "Pipeline created: " "composeNewPipeline" result)
  | also_get_particles_by_stage _ _ _ _ _ =>
      Return (rendering "Particles retrieved: " "particlesByStage" result)
  | also_upload_issue_data _ _ _ _ =>
      Return (rendering "Issue data uploaded: " "uploadIssueData" result)
  | also_get_deployment_metrics _ _ _ _ _ _ _ _ =>
      Return (rendering "Deployment metrics retrieved: " "deployments" result)
  | also_get_build_data _ _ _ _ _ _ _ _ _ =>
      Return (rendering "Build data retrieved: " "builds" result)
  | also_get_applications_by_criteria _ _ _ _ _ _ _ _ =>
      Return (rendering "Applications retrieved: " "applicationsByCriteria" result)
  | also_test_graphql_connection =>
      match ToString (at_path result ["__schema"; "types"; "length"]) with
      | Return found =>
          Return ("GraphQL connection test successful: Found " ++ found ++ " schema types")
      | Throw e => Throw e
      end
  | also_get_my_access_key_metadata =>
      Return (rendering "Access key metadata: " "myAccessKeyMetaData" result)
  | also_add_application_stages _ _ _ =>
      Return (rendering "Application stages added: " "addApplicationStages" result)
  | also_add_stage _ _ => Return (rendering "Stage added: " "addStage" result)
  | also_update_stage _ _ _ => Return (rendering "Stage updated: " "updateStage" result)
  | also_delete_stage _ _ => Return (rendering "Stage deleted: " "deleteStage" result)
  | also_update_workflow _ _ => Return (rendering "Workflow updated: " "updateWorkflow" result)
  end.

Definition success_text (i : invocation + other_invocation) (result : value)
  : completion string :=
  match i with
  | inl i => Return (rendering (success_prefix i) (result_field i) result)
  | inr i => other_success_text i result
  end.

End Velocity.


(** ** A concrete platform, for running the model *)

Module Example.

(** Numbers restricted to the integers. *)
#[export] Instance integers : JSNumber :=
  {| number := Z;
     number_truthy := fun z => negb (Z.eqb z 0);
     number_toJSON := of_Z;
     number_of_nat := Z.of_nat |}.

#[export] Instance integer_text : JSNumberText := {| number_toString := of_Z |}.

(** A service that plays back a script of outcomes, one per request, and
    lets [fetch] reject once the script is over. *)
#[export] Instance scripted : Service :=
  {| remote := list (completion Response);
     serve := fun script _ _ =>
                match script with
                | [] => (Throw (TypeError "fetch failed"), [])
                | outcome :: rest => (outcome, rest)
                end |}.

#[export] Instance access_key : Config :=
  {| graphqlUrl := "https://velocity.example/graphql";
     accessToken := "key123";
     tenantId := "tenant-1" |}.

Definition start (script : list (completion Response)) : world :=
  {| service := script; sent := [] |}.

(** A response with the given status whose body parses to [data]. *)
Definition response (code : Z) (data : value) : completion Response :=
  Return {| status := code; text := "body"; json := Return data |}.

Definition user_u1 : value :=
  VObj [("_id", VStr "u1"); ("name", VStr "Ann"); ("type", VStr "user")].

Definition group_g1 : value :=
  VObj [("_id", VStr "g1"); ("name", VStr "Ops"); ("type", VStr "group")].

Definition manual_gate (name : string) (approvers : value) : GateArgs :=
  {| pipelineId := VStr "p1";
     stageId := VStr "s1";
     gateType := VStr "manual";
     gateName := VStr name;
     manualApprovers := approvers;
     metricRule := VUndefined;
     complianceRule := VUndefined;
     statusRule := VUndefined;
     manualGateNotification := VBool true |}.

(** The response body [{ errors: [{ message: 'bad field' }] }]. *)
Definition bad_field_errors : value :=
  VArr [VObj [("message", VStr "bad field")]].

(** The response body [{ data: { ok: true }, errors: [] }]. *)
Definition empty_errors_body : value :=
  VObj [("data", VObj [("ok", VBool true)]); ("errors", VArr [])].

(** A gate with one approver of each kind. *)
Definition two_approvers : GateArgs := manual_gate "release" (VArr [user_u1; group_g1]).

(** A gate whose only approver is a group. *)
Definition group_only : GateArgs := manual_gate "release" (VArr [group_g1]).

(** The body of a response to the manual rule mutation that created rule
    [r1], and of one to the attach mutation. *)
Definition rule_created : value :=
  VObj [("data", VObj [("addManualVersionSignOffRule", VObj [("_id", VStr "r1")])])].

Definition gate_attached : value :=
  VObj [("data", VObj [("upsertPipelineGate",
                        VObj [("_id", VStr "g7"); ("stageId", VStr "s1")])])].

(** A configuration whose credential is a session cookie. *)
Definition session_login : Config :=
  {| graphqlUrl := "https://velocity.example/graphql";
     accessToken := "VelocitySession=abc; SecurityApiSession=xyz";
     tenantId := "tenant-1" |}.

(** A status gate whose rule holds an empty status. *)
Definition empty_status : GateArgs :=
  {| pipelineId := VStr "p1";
     stageId := VStr "s1";
     gateType := VStr "status";
     gateName := VStr "deployed";
     manualApprovers := VUndefined;
     metricRule := VUndefined;
     complianceRule := VUndefined;
     statusRule := VObj [("status", VStr EmptyString)];
     manualGateNotification := VUndefined |}.

(** The gate [two_approvers] with a metric rule besides. *)
Definition two_approvers_and_metric : GateArgs :=
  {| pipelineId := VStr "p1";
     stageId := VStr "s1";
     gateType := VStr "manual";
     gateName := VStr "release";
     manualApprovers := VArr [user_u1; group_g1];
     metricRule := VObj [("metricDefinition", VStr "m1"); ("dql", VStr "value > 1")];
     complianceRule := VUndefined;
     statusRule := VUndefined;
     manualGateNotification := VBool true |}.


End Example.

(** * Properties *)

Section Properties.

Context {JSN : JSNumber} {Svc : Service}.

Local Notation "x <- m ;; k" := (bind m (fun x => k))
  (at level 61, m at next level, right associativity).

(** ** Strings *)

Lemma prefix_spec (t s : string) :
  prefix t s = true <-> exists b, s = t ++ b.
Proof.
  revert s; induction t as [|c t IH]; intros [|d s]; simpl.
  - split; [intros _; now exists EmptyString | reflexivity].
  - split; [intros _; now exists (String d s) | reflexivity].
  - split; [discriminate | intros [b Hb]; discriminate].
  - destruct (ascii_dec c d) as [->|Hcd].
    + rewrite IH. split; intros [b Hb]; exists b; [now rewrite Hb | now inversion Hb].
    + split; [discriminate | intros [b Hb]; exfalso; apply Hcd; now inversion Hb].
Qed.

(** [includes s t] holds exactly when [t] occurs in [s]. *)
Lemma includes_spec (s t : string) :
  includes s t = true <-> exists a b, s = a ++ t ++ b.
Proof.
  induction s as [|c s IH].
  - change (includes EmptyString t) with (prefix t EmptyString || false).
    rewrite orb_false_r, prefix_spec. split.
    + intros [b Hb]. now exists EmptyString, b.
    + intros [a [b Hab]]. destruct a; [now exists b | discriminate].
  - change (includes (String c s) t) with (prefix t (String c s) || includes s t).
    rewrite orb_true_iff, prefix_spec, IH. split.
    + intros [[b Hb] | [a [b Hab]]].
      * now exists EmptyString, b.
      * exists (String c a), b. simpl. now rewrite Hab.
    + intros [a [b Hab]]. destruct a as [|d a]; simpl in Hab.
      * left. now exists b.
      * right. exists a, b. now inversion Hab.
Qed.

Lemma includes_tail (c : ascii) (s t : string) :
  includes (String c s) t = false -> includes s t = false.
Proof.
  change (includes (String c s) t) with (prefix t (String c s) || includes s t).
  now intros [_ H]%orb_false_iff.
Qed.

Lemma includes_head (c : ascii) (s : string) :
  includes (String c s) (String c EmptyString) = true.
Proof. apply includes_spec. now exists EmptyString, s. Qed.

Lemma digits_have_no_colon (d : Decimal.uint) :
  includes (NilEmpty.string_of_uint d) ":" = false.
Proof. induction d; simpl; auto. Qed.

Lemma of_Z_has_no_colon (z : Z) : includes (of_Z z) ":" = false.
Proof.
  unfold of_Z.
  assert (U : forall d, includes (NilZero.string_of_uint d) ":" = false).
  { intros d. destruct d; try apply digits_have_no_colon. reflexivity. }
  destruct (Z.to_int z) as [d|d]; simpl; [apply U|].
  change (includes (String "-" (NilZero.string_of_uint d)) ":")
    with (prefix ":" (String "-" (NilZero.string_of_uint d))
          || includes (NilZero.string_of_uint d) ":").
  rewrite U. reflexivity.
Qed.

Lemma of_Z_inj (a b : Z) : of_Z a = of_Z b -> a = b.
Proof.
  unfold of_Z. intros E. apply DecimalZ.to_int_inj.
  assert (N : forall z, NilZero.int_of_string (NilZero.string_of_int (Z.to_int z))
                        = Some (Z.to_int z)).
  { intros z. apply NilZero.isi; destruct z; simpl; try discriminate;
      intros H; inversion H as [H']; revert H'; apply Unsigned.to_uint_nonnil. }
  pose proof (N a) as Ha. rewrite E, N in Ha. now inversion Ha.
Qed.

(** Two texts that hold no colon and are each followed by one are equal as
    soon as the whole strings are. *)
Lemma split_at_colon (a b x y : string) :
  includes a ":" = false -> includes b ":" = false ->
  a ++ String ":" x = b ++ String ":" y -> a = b /\ x = y.
Proof.
  revert b; induction a as [|c a IH]; intros [|d b] Ha Hb E; simpl in E.
  - now inversion E.
  - inversion E; subst. now rewrite includes_head in Hb.
  - inversion E; subst. now rewrite includes_head in Ha.
  - inversion E; subst. apply includes_tail in Ha, Hb.
    destruct (IH b Ha Hb) as [-> ->]; auto.
Qed.

(** ** JSON text loses nothing but the numbers behind their text

    A JSON value can be read back from its text, its numbers as their text:
    quoting a string and bracketing a sequence are reversible, and the text
    of a finite number ends where a character that no number holds
    begins. *)

Lemma unquote_quote (c : ascii) (x : string) :
  unquote_code_unit (quote_code_unit c ++ x) = Some (c, x).
Proof.
  destruct c as [[] [] [] [] [] [] [] []]; reflexivity.
Qed.

Lemma append_assoc (a b c : string) : (a ++ b) ++ c = a ++ b ++ c.
Proof. induction a; simpl; congruence. Qed.

Lemma quote_body_unique (s1 s2 r1 r2 : string) :
  quote_body s1 ++ String quotation_mark r1 = quote_body s2 ++ String quotation_mark r2 ->
  s1 = s2 /\ r1 = r2.
Proof.
  revert s2; induction s1 as [|c1 s1 IH]; intros [|c2 s2] E; simpl in E.
  - now inversion E.
  - apply (f_equal unquote_code_unit) in E. rewrite append_assoc, unquote_quote in E.
    discriminate.
  - apply (f_equal unquote_code_unit) in E. rewrite append_assoc, unquote_quote in E.
    discriminate.
  - apply (f_equal unquote_code_unit) in E. rewrite !append_assoc, !unquote_quote in E.
    inversion E as [[Ec Es]]. destruct (IH _ Es) as [-> ->]. auto.
Qed.

Lemma value_ind_nested (P : value -> Prop) :
  P VUndefined -> P VNull -> (forall b, P (VBool b)) -> (forall n, P (VNum n)) ->
  (forall s, P (VStr s)) ->
  (forall elements, Forall P elements -> P (VArr elements)) ->
  (forall properties, Forall (fun p => P (snd p)) properties -> P (VObj properties)) ->
  forall v, P v.
Proof.
  intros HU HN HB HNum HS HA HO. fix IH 1.
  intros [| |b|n|s|elements|properties];
    [exact HU | exact HN | apply HB | apply HNum | apply HS | | ].
  - apply HA. induction elements as [|x rest IHrest]; constructor; [apply IH | exact IHrest].
  - apply HO. induction properties as [|[k x] rest IHrest]; constructor;
      [apply IH | exact IHrest].
Qed.

Lemma join_sequence (closing : ascii) (items : list string) (r : string) :
  join "," items ++ String closing r = sequence closing items r.
Proof.
  destruct items as [|t items]; [reflexivity|]. simpl sequence.
  revert t; induction items as [|t' items IH]; intros t; [reflexivity|].
  change (join "," (t :: t' :: items)) with (t ++ "," ++ join "," (t' :: items)).
  rewrite !append_assoc, IH. reflexivity.
Qed.

Lemma JSON_text_array (elements : list value) (r : string) :
  JSON_text (VArr elements) ++ r = String "[" (sequence "]" (map JSON_text elements) r).
Proof.
  unfold JSON_text at 1, JSON_stringify. simpl SerializeJSONProperty. cbv iota.
  match goal with
  | |- wrap_partial _ _ _ _ _ ?l ++ _ = _ => replace l with (map JSON_text elements)
  end.
  - rewrite <- join_sequence. destruct (map JSON_text elements); [reflexivity|].
    unfold wrap_partial. change (String.eqb EmptyString EmptyString) with true.
    cbv iota. now rewrite !append_assoc.
  - induction elements as [|x rest IH]; [reflexivity|]. cbn [map]. now rewrite IH.
Qed.

Lemma JSON_text_object (properties : list (string * value)) (r : string) :
  forallb (fun p => is_json (snd p)) properties = true ->
  JSON_text (VObj properties) ++ r
  = String "{" (sequence "}" (map member_JSON_text properties) r).
Proof.
  intros J. unfold JSON_text at 1, JSON_stringify. simpl SerializeJSONProperty. cbv iota.
  match goal with
  | |- wrap_partial _ _ _ _ _ ?l ++ _ = _ => replace l with (map member_JSON_text properties)
  end.
  - rewrite <- join_sequence. destruct (map member_JSON_text properties); [reflexivity|].
    unfold wrap_partial. change (String.eqb EmptyString EmptyString) with true.
    cbv iota. now rewrite !append_assoc.
  - induction properties as [|[k x] rest IH]; [reflexivity|].
    simpl in J. apply andb_true_iff in J as [Jx Jrest]. specialize (IH Jrest).
    cbn [map]. rewrite IH.
    destruct x as [| |[|]| | | |]; try discriminate Jx; reflexivity.
Qed.
Lemma split_at_delimiter (a b r1 r2 : string) :
  every number_char a = true -> every number_char b = true ->
  delimited r1 -> delimited r2 ->
  a ++ r1 = b ++ r2 -> a = b /\ r1 = r2.
Proof.
  revert b; induction a as [|c a IH]; intros [|d b] Ha Hb D1 D2 E; simpl in *.
  - auto.
  - subst r1. apply andb_true_iff in Hb as [Hd _]. simpl in D1. congruence.
  - subst r2. apply andb_true_iff in Ha as [Hc _]. simpl in D2. congruence.
  - apply andb_true_iff in Ha as [_ Ha]. apply andb_true_iff in Hb as [_ Hb].
    inversion E; subst. destruct (IH b Ha Hb D1 D2) as [-> ->]; auto.
Qed.

Lemma delimited_continuation (closing : ascii) (items : list string) (r : string) :
  number_char closing = false -> delimited (continuation closing items r).
Proof. intros H. destruct items; [exact H | reflexivity]. Qed.

Section Sequences.

Variable A : Type.
Variable same : A -> A -> Prop.
Variable text : A -> string.
Variable ok : A -> bool.
Variable closing : ascii.
Hypothesis closing_delimits : number_char closing = false.
Hypothesis closing_not_comma : closing <> ","%char.
Hypothesis text_head :
  forall a, ok a = true -> exists c s, text a = String c s /\ c <> closing.

Lemma continuation_unique (items1 : list A) :
  Forall (decodes same text ok) items1 ->
  forall items2 r1 r2,
    forallb ok items2 = true ->
    continuation closing (map text items1) r1 = continuation closing (map text items2) r2 ->
    Forall2 same items1 items2 /\ r1 = r2.
Proof.
  induction 1 as [|a1 items1 Ha1 _ IH]; intros [|a2 items2] r1 r2 J E; simpl in E.
  - inversion E. auto.
  - inversion E. contradiction.
  - inversion E as [E']. symmetry in E'. contradiction.
  - simpl in J. apply andb_true_iff in J as [J2 J]. inversion E as [E'].
    apply Ha1 in E'; auto using delimited_continuation.
    destruct E' as [S E']. destruct (IH _ _ _ J E') as [F ->]. auto.
Qed.

Lemma sequence_unique (items1 : list A) :
  Forall (decodes same text ok) items1 ->
  forallb ok items1 = true ->
  forall items2 r1 r2,
    forallb ok items2 = true ->
    sequence closing (map text items1) r1 = sequence closing (map text items2) r2 ->
    Forall2 same items1 items2 /\ r1 = r2.
Proof.
  intros H J1 [|a2 items2] r1 r2 J2 E; destruct H as [|a1 items1 Ha1 H]; simpl in E.
  - inversion E. auto.
  - simpl in J1. apply andb_true_iff in J1 as [J1 _].
    destruct (text_head _ J1) as (c & s & Hc & Hne). rewrite Hc in E.
    inversion E. contradiction.
  - simpl in J2. apply andb_true_iff in J2 as [J2 _].
    destruct (text_head _ J2) as (c & s & Hc & Hne). rewrite Hc in E.
    inversion E as [[E1 E2]]. symmetry in E1. contradiction.
  - simpl in J2. apply andb_true_iff in J2 as [J2 J].
    apply Ha1 in E; auto using delimited_continuation.
    destruct E as [S E]. destruct (continuation_unique _ H _ _ _ J E) as [F ->]. auto.
Qed.

End Sequences.

Section Unique.

Lemma is_finite_json_is_json (v : value) : is_finite_json v = true -> is_json v = true.
Proof.
  induction v as [| |b|n|s|l IH|p IH] using value_ind_nested; simpl; auto.
  - intros J. induction IH as [|x l Hx _ IHl]; [reflexivity|].
    simpl in *. apply andb_true_iff in J as [Jx Jl]. now rewrite Hx, IHl.
  - intros J. induction IH as [|x l Hx _ IHl]; [reflexivity|].
    simpl in *. apply andb_true_iff in J as [Jx Jl]. now rewrite Hx, IHl.
Qed.

Lemma members_are_json (properties : list (string * value)) :
  forallb (fun p => is_finite_json (snd p)) properties = true ->
  forallb (fun p => is_json (snd p)) properties = true.
Proof. intros J. exact (is_finite_json_is_json (VObj properties) J). Qed.

Lemma finite_text_spec (n : number) :
  finite_text n = true ->
  number_toJSON n <> EmptyString /\ every number_char (number_toJSON n) = true.
Proof.
  unfold finite_text. intros [Hne Hch]%andb_true_iff. split; [|exact Hch].
  intros E. rewrite E in Hne. discriminate.
Qed.

Lemma number_head (n : number) :
  finite_text n = true ->
  exists c s, number_toJSON n = String c s /\ number_char c = true.
Proof.
  intros [Hne Hch]%finite_text_spec.
  destruct (number_toJSON n) as [|c s]; [contradiction|].
  simpl in Hch. apply andb_true_iff in Hch as [Hc _]. now exists c, s.
Qed.

Lemma JSON_text_head (v : value) :
  is_finite_json v = true ->
  exists c s, JSON_text v = String c s /\ c <> "]"%char /\ c <> "}"%char.
Proof.
  destruct v as [| |[|]|n|t|elements|properties]; intros J; try discriminate J;
    try (eexists; eexists; split; [reflexivity | split; discriminate]).
  - destruct (number_head n J) as (c & s & Hn & Hc). exists c, s.
    split; [exact Hn|]. split; intros ->; discriminate.
  - pose proof (JSON_text_array elements EmptyString) as E.
    exists "["%char. eexists. split; [|split; discriminate].
    rewrite <- E. clear. induction (JSON_text (VArr elements)); simpl; congruence.
  - pose proof (JSON_text_object properties EmptyString (members_are_json _ J)) as E.
    exists "{"%char. eexists. split; [|split; discriminate].
    rewrite <- E. clear. induction (JSON_text (VObj properties)); simpl; congruence.
Qed.

Lemma member_decodes (p1 : string * value) :
  decodes same_json JSON_text is_finite_json (snd p1) ->
  decodes same_member member_JSON_text (fun p => is_finite_json (snd p)) p1.
Proof.
  destruct p1 as [k1 x1]. intros IH [k2 x2] r1 r2 J D1 D2 E. simpl in IH, J.
  unfold member_JSON_text, QuoteJSONString in E. simpl in E.
  inversion E as [E']. rewrite !append_assoc in E'.
  apply quote_body_unique in E' as [-> E']. simpl in E'. inversion E' as [E''].
  destruct (IH x2 r1 r2 J D1 D2 E'') as [S ->]. split; [split; [reflexivity | exact S] | reflexivity].
Qed.

(** The JSON text of a JSON value with finite numbers, followed by anything
    that cannot continue a number, is the text of no other such value but
    the ones that differ from it in numbers of the same text. *)
Lemma JSON_text_unique (v1 : value) :
  is_finite_json v1 = true -> decodes same_json JSON_text is_finite_json v1.
Proof.
  induction v1 as [| |b1|n1|s1|l1 IH|p1 IH] using value_ind_nested;
    intros J1 v2 r1 r2 J2 D1 D2 E; try discriminate J1.
  - destruct v2 as [| |[|]|n2|s2|l2|p2]; try discriminate J2;
      try rewrite JSON_text_array in E;
      try rewrite JSON_text_object in E by exact (members_are_json _ J2);
      try (destruct (number_head n2 J2) as (c & s & Hn & Hc);
           unfold JSON_text in E; simpl in E; rewrite Hn in E);
      inversion E; subst; try discriminate; (split; [constructor | reflexivity]).
  - destruct b1; destruct v2 as [| |[|]|n2|s2|l2|p2]; try discriminate J2;
      try rewrite JSON_text_array in E;
      try rewrite JSON_text_object in E by exact (members_are_json _ J2);
      try (destruct (number_head n2 J2) as (c & s & Hn & Hc);
           unfold JSON_text in E; simpl in E; rewrite Hn in E);
      inversion E; subst; try discriminate; (split; [constructor | reflexivity]).
  - destruct (number_head n1 J1) as (c1 & t1 & Hn1 & Hc1).
    destruct v2 as [| |[|]|n2|s2|l2|p2]; try discriminate J2;
      try rewrite JSON_text_array in E;
      try rewrite JSON_text_object in E by exact (members_are_json _ J2);
      try (unfold JSON_text in E; simpl in E; rewrite Hn1 in E;
           inversion E; subst; discriminate).
    unfold JSON_text in E. simpl in E.
    apply split_at_delimiter in E; auto; try (now apply finite_text_spec).
    destruct E as [E ->]. split; [now constructor | reflexivity].
  - destruct v2 as [| |[|]|n2|s2|l2|p2]; try discriminate J2;
      try rewrite JSON_text_array in E;
      try rewrite JSON_text_object in E by exact (members_are_json _ J2);
      try (destruct (number_head n2 J2) as (c & s & Hn & Hc);
           unfold JSON_text in E; simpl in E; rewrite Hn in E);
      try (inversion E; subst; discriminate).
    unfold JSON_text, JSON_stringify, QuoteJSONString in E. simpl in E.
    inversion E as [E']. rewrite !append_assoc in E'.
    apply quote_body_unique in E' as [-> ->]. split; [constructor | reflexivity].
  - destruct v2 as [| |[|]|n2|s2|l2|p2]; try discriminate J2;
      rewrite JSON_text_array in E;
      try rewrite JSON_text_array in E;
      try rewrite JSON_text_object in E by exact (members_are_json _ J2);
      try (destruct (number_head n2 J2) as (c & s & Hn & Hc);
           unfold JSON_text in E; simpl in E; rewrite Hn in E);
      try (inversion E; subst; discriminate).
    inversion E as [E'].
    apply (sequence_unique value same_json JSON_text is_finite_json "]") in E'; auto.
    + destruct E' as [F ->]. split; [now constructor | reflexivity].
    + discriminate.
    + intros a Ja. destruct (JSON_text_head a Ja) as (c & s & Hc & Hne & _). eauto.
    + simpl in J1. clear - IH J1. induction IH as [|x l Hx _ IHl]; constructor.
      * simpl in J1. apply andb_true_iff in J1 as [Jx _]. auto.
      * simpl in J1. apply andb_true_iff in J1 as [_ Jl]. auto.
  - destruct v2 as [| |[|]|n2|s2|l2|p2]; try discriminate J2;
      rewrite JSON_text_object in E by exact (members_are_json _ J1);
      try rewrite JSON_text_array in E;
      try rewrite JSON_text_object in E by exact (members_are_json _ J2);
      try (destruct (number_head n2 J2) as (c & s & Hn & Hc);
           unfold JSON_text in E; simpl in E; rewrite Hn in E);
      try (inversion E; subst; discriminate).
    inversion E as [E'].
    apply (sequence_unique (string * value) same_member member_JSON_text
                           (fun p => is_finite_json (snd p)) "}") in E'; auto.
    + destruct E' as [F ->]. split; [now constructor | reflexivity].
    + discriminate.
    + intros [k x] _. unfold member_JSON_text, QuoteJSONString. simpl.
      eexists; eexists; split; [reflexivity | discriminate].
    + simpl in J1. clear - IH J1. induction IH as [|x l Hx _ IHl]; constructor.
      * simpl in J1. apply andb_true_iff in J1 as [Jx _]. apply member_decodes. auto.
      * simpl in J1. apply andb_true_iff in J1 as [_ Jl]. auto.
Qed.

(** JSON values with finite numbers that have the same JSON text are the
    same but for numbers of the same text. *)
Lemma JSON_text_inj (v1 v2 : value) :
  is_finite_json v1 = true -> is_finite_json v2 = true ->
  JSON_text v1 = JSON_text v2 -> same_json v1 v2.
Proof.
  intros J1 J2 E.
  assert (R : forall t : string, t ++ EmptyString = t)
    by (induction t; simpl; congruence).
  destruct (JSON_text_unique v1 J1 v2 EmptyString EmptyString J2 I I) as [H _];
    [now rewrite !R | exact H].
Qed.

Lemma same_json_is_json (v1 : value) :
  forall v2, same_json v1 v2 -> is_json v1 = true /\ is_json v2 = true.
Proof.
  induction v1 as [| |b1|n1|s1|l1 IH|p1 IH] using value_ind_nested;
    intros v2 S; inversion S as [| | | |? l2 F|? p2 F]; subst; auto.
  - clear S. revert IH. induction F as [|x y l l' Hxy F IHF]; intros IH; [auto|].
    inversion IH as [|? ? Hx Hl]; subst.
    destruct (Hx _ Hxy) as [Jx Jy]. destruct (IHF Hl) as [Jl Jl'].
    simpl in *. now rewrite Jx, Jy, Jl, Jl'.
  - clear S. revert IH. induction F as [|x y l l' [_ Hxy] F IHF]; intros IH; [auto|].
    inversion IH as [|? ? Hx Hl]; subst.
    destruct (Hx _ Hxy) as [Jx Jy]. destruct (IHF Hl) as [Jl Jl'].
    simpl in *. now rewrite Jx, Jy, Jl, Jl'.
Qed.

(** The relation is no coarser than the text: values it relates have the
    same JSON text. *)
Lemma same_json_text (v1 : value) :
  forall v2, same_json v1 v2 -> JSON_text v1 = JSON_text v2.
Proof.
  assert (R : forall t : string, t ++ EmptyString = t)
    by (induction t; simpl; congruence).
  induction v1 as [| |b1|n1|s1|l1 IH|p1 IH] using value_ind_nested;
    intros v2 S; inversion S as [| |? ? Hn| |? l2 F|? p2 F]; subst; try reflexivity.
  - unfold JSON_text. simpl. now rewrite Hn.
  - rewrite <- (R (JSON_text (VArr l1))), <- (R (JSON_text (VArr l2))).
    rewrite !JSON_text_array. do 2 f_equal.
    clear S. revert IH. induction F as [|x y l l' Hxy F IHF]; intros IH; [reflexivity|].
    inversion IH as [|? ? Hx Hl]; subst. simpl. now rewrite (Hx _ Hxy), (IHF Hl).
  - destruct (same_json_is_json _ _ S) as [J1 J2]. simpl in J1, J2.
    rewrite <- (R (JSON_text (VObj p1))), <- (R (JSON_text (VObj p2))).
    rewrite !JSON_text_object by assumption. do 2 f_equal.
    clear S J1 J2.
    revert IH. induction F as [|[k1 x] [k2 y] l l' [Hk Hxy] F IHF]; intros IH; [reflexivity|].
    inversion IH as [|? ? Hx Hl]; subst. simpl in *. subst k2.
    unfold member_JSON_text at 1 3. simpl. now rewrite (Hx _ Hxy), (IHF Hl).
Qed.

End Unique.

(** ** The request executor *)

Section Executor.

Context {Cfg : Config}.

Ltac run_monad :=
  unfold bind, try_catch, ret, throw, lift, fetch in *; simpl in *.

(** One call of [executeGraphQL] sends exactly one request, and its outcome
    is [settle] of what [fetch] gave. *)
Lemma executeGraphQL_run (query : string) (variables : value) (w : world) :
  executeGraphQL query variables w =
  (settle (fst (serve (service w) (fst (graphql_request query variables))
                      (snd (graphql_request query variables)))),
   {| service := snd (serve (service w) (fst (graphql_request query variables))
                            (snd (graphql_request query variables)));
      sent := sent w ++ [graphql_request query variables] |}).
Proof.
  unfold executeGraphQL, graphql_request, attemptGraphQLRequest.
  destruct isSessionCookie; run_monad;
    destruct (serve _ _ _) as [[response|e] s]; simpl; try reflexivity;
    destruct (ok response); simpl; try reflexivity;
    destruct (json response) as [data|e]; simpl; try reflexivity;
    destruct data; simpl; try reflexivity;
    match goal with |- context [truthy ?x] => destruct (truthy x) end; reflexivity.
Qed.

Lemma executeGraphQL_sends (query : string) (variables : value) (w : world) :
  sends (executeGraphQL query variables) w [graphql_request query variables].
Proof. unfold sends. now rewrite executeGraphQL_run. Qed.

Lemma executeGraphQL_settles (query : string) (variables : value) (w : world) r s :
  serve (service w) (fst (graphql_request query variables))
        (snd (graphql_request query variables)) = (r, s) ->
  fst (executeGraphQL query variables w) = settle r.
Proof. intros E. now rewrite executeGraphQL_run, E. Qed.

Lemma status_not_ok (response : Response) :
  (status response < 200 \/ 299 < status response)%Z -> ok response = false.
Proof. unfold ok. intros H. apply andb_false_iff. rewrite !Z.leb_gt. lia. Qed.

(** The text of a non-empty array is the bracketed, comma-separated list of
    the texts of its elements, [null] standing for an [undefined] one. *)
Lemma JSON_stringify_array (elements : list value) :
  elements <> [] ->
  JSON_stringify (VArr elements) 0 =
  Some ("[" ++ join "," (map JSON_text elements) ++ "]").
Proof.
  intros NE. unfold JSON_stringify. simpl SerializeJSONProperty.
  match goal with
  | |- Some (wrap_partial _ _ _ _ _ ?l) = _ =>
      replace l with (map (fun x => match SerializeJSONProperty EmptyString EmptyString x with
                                    | Some t => t
                                    | None => "null"
                                    end) elements)
  end.
  - destruct elements; [contradiction | reflexivity].
  - clear NE. induction elements as [|x rest IH]; simpl; [reflexivity | now rewrite IH].
Qed.

Lemma isSessionCookie_spec :
  isSessionCookie = true <->
  exists a b, accessToken = a ++ "VelocitySession=" ++ b
              \/ accessToken = a ++ "SecurityApiSession=" ++ b.
Proof.
  unfold isSessionCookie. rewrite orb_true_iff, !includes_spec. split.
  - intros [[a [b E]] | [a [b E]]]; exists a, b; auto.
  - intros [a [b [E | E]]]; [left | right]; now exists a, b.
Qed.

End Executor.

(** ** The claims about the request executor *)

Section Claims.

Context {Cfg : Config}.

(** C8.  The one request of a call of [executeGraphQL] carries
    [Content-Type: application/json], [Accept: */*] and the client
    identifier, followed by [Cookie: <credential>] when the credential
    contains [VelocitySession=] or [SecurityApiSession=], and by
    [Authorization: UserAccessKey <credential>] otherwise.  The headers are
    a function of the credential alone: any call under any configuration
    with the same credential, whatever the query, the variables, the
    endpoint, the tenant and the state of the world, carries the same. *)
Theorem headers_follow_credential (query : string) (variables : value) (w : world) :
  exists init,
    sends (executeGraphQL query variables) w [(graphqlUrl, init)] /\
    ((exists a b, accessToken = a ++ "VelocitySession=" ++ b
                  \/ accessToken = a ++ "SecurityApiSession=" ++ b) ->
     headers init = [("Content-Type", "application/json");
                     ("Accept", "*/*");
                     ("User-Agent", "MCP-Velocity-Client/1.0.0");
                     ("Cookie", accessToken)]) /\
    (~ (exists a b, accessToken = a ++ "VelocitySession=" ++ b
                    \/ accessToken = a ++ "SecurityApiSession=" ++ b) ->
     headers init = [("Content-Type", "application/json");
                     ("Accept", "*/*");
                     ("User-Agent", "MCP-Velocity-Client/1.0.0");
                     ("Authorization", "UserAccessKey " ++ accessToken)]) /\
    (forall (Cfg' : Config) query' variables' w' init',
        @accessToken Cfg' = @accessToken Cfg ->
        sends (@executeGraphQL _ _ Cfg' query' variables') w' [(@graphqlUrl Cfg', init')] ->
        headers init' = headers init).
Proof.
  exists (snd (graphql_request query variables)).
  split; [apply executeGraphQL_sends | ].
  split; [| split].
  - intros H%isSessionCookie_spec. simpl. now rewrite H.
  - intros H. simpl. destruct isSessionCookie eqn:E; [|reflexivity].
    apply isSessionCookie_spec in E. contradiction.
  - intros Cfg' query' variables' w' init' Etoken Hsends.
    pose proof (@executeGraphQL_sends Cfg' query' variables' w') as Hs.
    unfold sends in Hsends, Hs. rewrite Hs in Hsends.
    apply app_inv_head in Hsends. inversion Hsends; subst init'.
    unfold isSessionCookie. simpl. now rewrite Etoken.
Qed.

(** C6.  When the response has a status outside 200-299, the call throws an
    [Error] whose message is [HTTP <status>: <body text>], whatever the body
    parses to: the [errors] field is not looked at.  The message carries the
    status and the raw text exactly: it is the message of no other pair. *)
Theorem non_2xx_is_transport_error
        (query : string) (variables : value) (w : world) (response : Response) s :
  serve (service w) (fst (graphql_request query variables))
        (snd (graphql_request query variables)) = (Return response, s) ->
  (status response < 200 \/ 299 < status response)%Z ->
  fst (executeGraphQL query variables w)
  = Throw (Error ("HTTP " ++ of_Z (status response) ++ ": " ++ text response)) /\
  sends (executeGraphQL query variables) w [graphql_request query variables] /\
  (forall code raw,
      "HTTP " ++ of_Z code ++ ": " ++ raw
      = "HTTP " ++ of_Z (status response) ++ ": " ++ text response ->
      code = status response /\ raw = text response).
Proof.
  intros Hserve Hstatus. split; [| split].
  - rewrite (executeGraphQL_settles _ _ _ _ _ Hserve). simpl.
    now rewrite (status_not_ok _ Hstatus).
  - apply executeGraphQL_sends.
  - intros code raw E. simpl in E. inversion E as [E'].
    apply split_at_colon in E'; try apply of_Z_has_no_colon.
    destruct E' as [Ecode Eraw]. apply of_Z_inj in Ecode. now inversion Eraw.
Qed.

(** C5, as amended.  When the response has a 2xx status and its body is a
    JSON object whose [errors] field is a non-empty array, the call throws
    an [Error] whose message is the text [GraphQL errors: ] followed by the
    JSON text of the whole array: a bracketed, comma-separated list of the
    JSON text of every entry, in order.  The detail of the failure is this
    string.  When the numbers of the array are finite, the array can be read
    back from the message but for its numbers, of which the message keeps
    the text: it is the message of no other JSON value with finite numbers
    than the ones that hold, in the same places, numbers of the same text. *)
Theorem graphql_errors_are_serialized
        (query : string) (variables : value) (w : world) (response : Response) s
        (properties : list (string * value)) (entry : value) (entries : list value) :
  serve (service w) (fst (graphql_request query variables))
        (snd (graphql_request query variables)) = (Return response, s) ->
  (200 <= status response <= 299)%Z ->
  json response = Return (VObj properties) ->
  lookup "errors" properties = Some (VArr (entry :: entries)) ->
  fst (executeGraphQL query variables w)
  = Throw (Error ("GraphQL errors: " ++ JSON_text (VArr (entry :: entries)))) /\
  JSON_text (VArr (entry :: entries))
  = "[" ++ join "," (map JSON_text (entry :: entries)) ++ "]" /\
  (is_finite_json (VArr (entry :: entries)) = true ->
   forall other,
     is_finite_json other = true ->
     "GraphQL errors: " ++ JSON_text other
     = "GraphQL errors: " ++ JSON_text (VArr (entry :: entries)) ->
     same_json other (VArr (entry :: entries))).
Proof.
  intros Hserve Hstatus Hjson Herrors.
  assert (T : JSON_stringify (VArr (entry :: entries)) 0
              = Some ("[" ++ join "," (map JSON_text (entry :: entries)) ++ "]"))
    by (now apply JSON_stringify_array).
  split; [| split].
  - rewrite (executeGraphQL_settles _ _ _ _ _ Hserve). simpl.
    replace (ok response) with true
      by (symmetry; unfold ok; apply andb_true_iff; rewrite !Z.leb_le; lia).
    rewrite Hjson. simpl. rewrite Herrors. unfold JSON_text. now rewrite T.
  - unfold JSON_text at 1. now rewrite T.
  - intros Jerrors other Jother E. simpl in E.
    apply JSON_text_inj; auto. now inversion E.
Qed.

(** C7, as amended.  When the response has a 2xx status, its body is valid
    JSON other than [null], and the [errors] field of the body is absent or
    falsy, the call returns the [data] field of the body ([undefined] when
    the body has none). *)
Theorem success_returns_data
        (query : string) (variables : value) (w : world) (response : Response) s
        (data : value) :
  serve (service w) (fst (graphql_request query variables))
        (snd (graphql_request query variables)) = (Return response, s) ->
  (200 <= status response <= 299)%Z ->
  json response = Return data ->
  nullish data = false ->
  truthy (own_property data "errors") = false ->
  fst (executeGraphQL query variables w) = Return (own_property data "data").
Proof.
  intros Hserve Hstatus Hjson Hdata Herrors.
  rewrite (executeGraphQL_settles _ _ _ _ _ Hserve). simpl.
  replace (ok response) with true
    by (symmetry; unfold ok; apply andb_true_iff; rewrite !Z.leb_le; lia).
  now rewrite Hjson, Hdata, Herrors.
Qed.

End Claims.

(** ** The gate provisioner *)

Section Provisioner.

Context {Cfg : Config}.

(** On entries that are objects the callback of [filter] never throws, and
    the filter keeps the entries of kind [user], in order. *)
Lemma Array_filter_entries (elements : list value) (w : world) :
  Forall (fun x => nullish x = false) elements ->
  Array_filter (fun a => type <- get a "type" ;; ret (strict_equals_string type "user"))
               elements w
  = (Return (List.filter user_approver elements), w).
Proof.
  induction 1 as [|x rest Hx _ IH]; [reflexivity|].
  cbn [Array_filter List.filter]. unfold bind at 1.
  replace (bind (get x "type") _ w) with (Return (user_approver x), w : world)
    by (destruct x; try discriminate; reflexivity).
  unfold bind at 1. rewrite IH. unfold ret.
  destruct (user_approver x); reflexivity.
Qed.

Lemma create_rule_spec (a : GateArgs) (w : world) :
  approver_entries_ok a ->
  create_rule a w =
  match rule_payload a with
  | inl m => (Throw (Error m), w)
  | inr (q, v, f) =>
      (result <- executeGraphQL q v ;; rule <- get result f ;; get rule "_id") w
  end.
Proof.
  intros Hentries. unfold create_rule, rule_payload.
  destruct (strict_equals_string (gateType a) "manual").
  { destruct (negb (truthy (gateName a)) || _ || _); [reflexivity|].
    destruct (manualApprovers a) as [| |b|n|t|elements|properties] eqn:E;
      try reflexivity;
      try (cbn [Array_isArray negb orb]; rewrite orb_true_r; reflexivity).
    destruct elements as [|x rest]; [reflexivity|].
    specialize (Hentries _ E).
    remember (x :: rest) as l eqn:El.
    replace (negb (truthy (VArr l)) || negb (Array_isArray (VArr l)) || length_is (VArr l) 0)
      with false by (subst l; reflexivity).
    unfold bind at 1. rewrite (Array_filter_entries _ _ Hentries).
    destruct (List.filter user_approver l) as [|u us]; reflexivity. }
  destruct (strict_equals_string (gateType a) "metric").
  { destruct (truthy (metricRule a)), (truthy (own_property (metricRule a) "metricDefinition")),
      (truthy (own_property (metricRule a) "dql")); reflexivity. }
  destruct (strict_equals_string (gateType a) "compliance").
  { destruct (truthy (complianceRule a)), (truthy (own_property (complianceRule a) "resource")),
      (truthy (own_property (complianceRule a) "dql")); reflexivity. }
  destruct (strict_equals_string (gateType a) "status").
  { destruct (truthy (statusRule a)), (truthy (own_property (statusRule a) "status"));
      reflexivity. }
  reflexivity.
Qed.

Lemma strict_equals_string_spec (v : value) (t : string) :
  strict_equals_string v t = true <-> v = VStr t.
Proof.
  destruct v; simpl; try (split; discriminate).
  rewrite String.eqb_eq. split; [now intros -> | now inversion 1].
Qed.

Lemma nullish_falsy (v : value) : nullish v = true -> truthy v = false.
Proof. destruct v; simpl; auto; discriminate. Qed.

(** The condition of the first guard of the manual branch is blankness. *)
Lemma name_guard_spec (v : value) :
  negb (truthy v) || negb (String.eqb (typeof v) "string") || trim_equals v EmptyString = true
  <-> is_blank v.
Proof.
  destruct v as [| |b|n|t| |]; simpl; try tauto.
  - destruct b; simpl; tauto.
  - destruct (number_truthy n); simpl; tauto.
  - rewrite orb_false_r, orb_true_iff, negb_true_iff, negb_false_iff, !String.eqb_eq.
    split; [intros [-> | H]; auto | auto].
Qed.

Lemma rule_payload_message (a : GateArgs) (m : string) :
  rule_payload a = inl m -> In m validation_messages.
Proof.
  unfold rule_payload, validation_messages.
  repeat match goal with
         | |- context [if ?c then _ else _] => destruct c
         | |- context [match manualApprovers a with _ => _ end] =>
             destruct (manualApprovers a) as [| | | | |[|x rest]|]
         | |- context [match List.filter ?p ?l with _ => _ end] => destruct (List.filter p l)
         end;
    intros H; inversion H; subst; simpl; tauto.
Qed.

Lemma fails_validation_rejected (a : GateArgs) :
  fails_validation a -> exists m, rule_payload a = inl m.
Proof.
  intros [Htype Hname | Htype Husers | Htype H | Htype H | Htype H | Htype H | Htype H
          | Hother]; unfold rule_payload;
    try (rewrite Htype; cbn [strict_equals_string String.eqb Ascii.eqb Bool.eqb andb]).
  - apply name_guard_spec in Hname. rewrite Hname. (eexists; reflexivity).
  - destruct (negb (truthy (gateName a)) || _ || _); [eexists; reflexivity|].
    unfold user_approvers in Husers.
    destruct (manualApprovers a) as [| | | | |[|x rest]|]; try (eexists; reflexivity).
    rewrite Husers. (eexists; reflexivity).
  - apply nullish_falsy in H. rewrite H, andb_false_r. (eexists; reflexivity).
  - apply nullish_falsy in H. rewrite H, andb_false_r. (eexists; reflexivity).
  - apply nullish_falsy in H. rewrite H, andb_false_r. (eexists; reflexivity).
  - apply nullish_falsy in H. rewrite H, andb_false_r. (eexists; reflexivity).
  - apply nullish_falsy in H. rewrite H, andb_false_r. (eexists; reflexivity).
  - assert (N : forall t, In t ["manual"; "metric"; "compliance"; "status"] ->
                          strict_equals_string (gateType a) t = false).
    { intros t Ht. destruct (strict_equals_string (gateType a) t) eqn:E; [|reflexivity].
      apply strict_equals_string_spec in E. now apply Hother in Ht. }
    rewrite !N by (simpl; tauto). (eexists; reflexivity).
Qed.

Lemma rule_mutation_is_not_upsert (a : GateArgs) q v f :
  rule_payload a = inr (q, v, f) -> q <> upsertMutation.
Proof.
  unfold rule_payload.
  repeat match goal with
         | |- context [if ?c then _ else _] => destruct c
         | |- context [match manualApprovers a with _ => _ end] =>
             destruct (manualApprovers a) as [| | | | |[|x rest]|]
         | |- context [match List.filter ?p ?l with _ => _ end] => destruct (List.filter p l)
         end;
    intros H; inversion H; subst; discriminate.
Qed.

Lemma get_world (v : value) (k : string) (w : world) : snd (get v k w) = w.
Proof. destruct v; reflexivity. Qed.

Lemma add_pipeline_gate_try_run (a : GateArgs) (w : world) q v f :
  approver_entries_ok a ->
  rule_payload a = inr (q, v, f) ->
  add_pipeline_gate_try a w =
  match executeGraphQL q v w with
  | (Throw e, w1) => (Throw e, w1)
  | (Return result, w1) =>
      match (rule <- get result f ;; get rule "_id") w1 with
      | (Throw e, _) => (Throw e, w1)
      | (Return ruleId, _) => attach_gate a ruleId w1
      end
  end.
Proof.
  intros Hentries Hpayload. unfold add_pipeline_gate_try, bind at 1.
  rewrite (create_rule_spec _ _ Hentries), Hpayload. unfold bind at 1.
  destruct (executeGraphQL q v w) as [[result|e] w1]; [|reflexivity].
  unfold bind.
  destruct (get result f w1) as [[rule|e] w2] eqn:E1.
  - pose proof (get_world result f w1) as W. rewrite E1 in W. simpl in W. subst w2.
    destruct (get rule "_id" w1) as [[ruleId|e] w3] eqn:E2;
      pose proof (get_world rule "_id" w1) as W; rewrite E2 in W; simpl in W; now subst w3.
  - pose proof (get_world result f w1) as W. rewrite E1 in W. simpl in W. now subst w2.
Qed.

(** The handler turns what its [try] block throws into a text and leaves
    the world as the [try] block left it. *)
Lemma add_pipeline_gate_run (a : GateArgs) (w : world) :
  add_pipeline_gate a w =
  match add_pipeline_gate_try a w with
  | (Return r, w1) => (Return r, w1)
  | (Throw e, w1) => (Return (text_content ("Error adding gate: " ++ message e)), w1)
  end.
Proof. reflexivity. Qed.

Lemma attach_gate_run (a : GateArgs) (ruleId : value) (w : world) :
  attach_gate a ruleId w =
  match executeGraphQL upsertMutation (attach_variables a ruleId) w with
  | (Throw e, w1) => (Throw e, w1)
  | (Return upsertResult, w1) =>
      if nullish upsertResult then (fst (get upsertResult "upsertPipelineGate" w1), w1)
      else (Return (text_content
                      ("Gate added to pipeline stage: "
                       ++ interpolate
                            (JSON_stringify (own_property upsertResult "upsertPipelineGate") 2))),
            w1)
  end.
Proof.
  unfold attach_gate, attach_variables, bind at 1.
  destruct (executeGraphQL _ _ w) as [[upsertResult|e] w1]; [|reflexivity].
  destruct upsertResult; reflexivity.
Qed.

Lemma attach_gate_sends (a : GateArgs) (ruleId : value) (w : world) :
  sends (attach_gate a ruleId) w [graphql_request upsertMutation (attach_variables a ruleId)].
Proof.
  unfold sends. rewrite attach_gate_run.
  pose proof (executeGraphQL_sends upsertMutation (attach_variables a ruleId) w) as H.
  unfold sends in H.
  destruct (executeGraphQL _ _ w) as [[upsertResult|e] w1]; simpl in *; [|exact H].
  destruct (nullish upsertResult); exact H.
Qed.

(** C1.  When the arguments fail the validation of their gate type, the
    [try] block throws one of the validation errors, the handler returns the
    text [Error adding gate: ] followed by its message, and the world is
    left untouched: no request was sent, neither to create a rule nor to
    attach one. *)
Theorem validation_failure_sends_nothing (a : GateArgs) (w : world) :
  fails_validation a ->
  approver_entries_ok a ->
  exists m,
    In m validation_messages /\
    add_pipeline_gate_try a w = (Throw (Error m), w) /\
    add_pipeline_gate a w = (Return (text_content ("Error adding gate: " ++ m)), w) /\
    sends (add_pipeline_gate a) w [].
Proof.
  intros Hfails Hentries.
  destruct (fails_validation_rejected _ Hfails) as [m Hm].
  exists m. split; [now apply (rule_payload_message a) |].
  assert (T : add_pipeline_gate_try a w = (Throw (Error m), w)).
  { unfold add_pipeline_gate_try, bind.
    now rewrite (create_rule_spec _ _ Hentries), Hm. }
  split; [exact T |].
  unfold sends. rewrite add_pipeline_gate_run, T. simpl.
  split; [reflexivity | now rewrite app_nil_r].
Qed.

(** C2.  When the call that creates the rule throws, the [try] block throws
    the very same error, the handler returns the text [Error adding gate: ]
    followed by its message, and the request that creates the rule is the
    only one sent: the attach mutation is never sent. *)
Theorem create_rule_failure_stops
        (a : GateArgs) (w : world) (q : string) (v : value) (f : string) (e : exn) :
  approver_entries_ok a ->
  rule_payload a = inr (q, v, f) ->
  fst (executeGraphQL q v w) = Throw e ->
  fst (add_pipeline_gate_try a w) = Throw e /\
  fst (add_pipeline_gate a w) = Return (text_content ("Error adding gate: " ++ message e)) /\
  sends (add_pipeline_gate a) w [graphql_request q v] /\
  q <> upsertMutation.
Proof.
  intros Hentries Hpayload Hthrow.
  pose proof (executeGraphQL_sends q v w) as Hsent. unfold sends in *.
  rewrite add_pipeline_gate_run, (add_pipeline_gate_try_run _ _ _ _ _ Hentries Hpayload).
  destruct (executeGraphQL q v w) as [[result|e'] w1]; simpl in Hthrow; [discriminate|].
  inversion Hthrow; subst e'. simpl.
  repeat split; auto. now apply (rule_mutation_is_not_upsert a q v f).
Qed.

(** C3, as amended.  When the call that creates the rule returns [result]
    and [result.<field>._id] evaluates to [ruleId], the handler sends
    exactly two requests: the one that creates the rule, then the attach
    mutation with the [pipelineId], [stageId] and [manualGateNotification]
    of the invocation and [ruleIds] the one-element list of [ruleId].
    Whatever that second call returns, the handler returns a text and not
    the result: for [null] and [undefined] the message of the TypeError
    that reading [upsertPipelineGate] throws, after the error label; for
    any other result the label [Gate added to pipeline stage: ] followed by
    the JSON text, indented by two, of its [upsertPipelineGate] field. *)
Theorem created_rule_is_attached
        (a : GateArgs) (w w1 : world) (q : string) (v : value) (f : string)
        (result ruleId : value) :
  approver_entries_ok a ->
  rule_payload a = inr (q, v, f) ->
  executeGraphQL q v w = (Return result, w1) ->
  fst ((rule <- get result f ;; get rule "_id") w1) = Return ruleId ->
  let upsertVars :=
    VObj [("pipelineId", pipelineId a);
          ("stageId", stageId a);
          ("ruleIds", VArr [ruleId]);
          ("manualGateNotification", manualGateNotification a)] in
  sends (add_pipeline_gate a) w
        [graphql_request q v; graphql_request upsertMutation upsertVars] /\
  (forall upsertResult w2,
      executeGraphQL upsertMutation upsertVars w1 = (Return upsertResult, w2) ->
      exists t,
        add_pipeline_gate a w
        = (Return (VObj [("content", VArr [VObj [("type", VStr "text"); ("text", VStr t)]])]),
           w2) /\
        t = match upsertResult with
            | VNull =>
                "Error adding gate: Cannot read properties of null (reading 'upsertPipelineGate')"
            | VUndefined =>
                "Error adding gate: Cannot read properties of undefined (reading 'upsertPipelineGate')"
            | _ =>
                "Gate added to pipeline stage: "
                ++ interpolate
                     (JSON_stringify (own_property upsertResult "upsertPipelineGate") 2)
            end).
Proof.
  intros Hentries Hpayload Hcreate Hid upsertVars.
  change upsertVars with (attach_variables a ruleId).
  pose proof (executeGraphQL_sends q v w) as Hsent.
  pose proof (attach_gate_sends a ruleId w1) as Hattach.
  unfold sends in *.
  rewrite add_pipeline_gate_run, (add_pipeline_gate_try_run _ _ _ _ _ Hentries Hpayload).
  rewrite Hcreate in *. simpl in Hsent.
  destruct ((rule <- get result f ;; get rule "_id") w1) as [[r|e] w'];
    simpl in Hid; [|discriminate].
  inversion Hid; subst r.
  split.
  - replace (sent (snd match attach_gate a ruleId w1 with
                       | (Return r, w3) => (Return r, w3)
                       | (Throw e, w3) =>
                           (Return (text_content ("Error adding gate: " ++ message e)), w3)
                       end))
      with (sent (snd (attach_gate a ruleId w1)))
      by (destruct (attach_gate a ruleId w1) as [[r|e] w3]; reflexivity).
    rewrite Hattach, Hsent, <- app_assoc. reflexivity.
  - intros upsertResult w2 Hupsert. eexists. split; [|reflexivity].
    unfold attach_gate, bind at 1. fold (attach_variables a ruleId). rewrite Hupsert.
    destruct upsertResult; reflexivity.
Qed.

(** C4.  For a manual gate whose approvers hold at least one entry of kind
    [user]: unless the gate name is blank, in which case nothing is sent,
    the first request sent is the manual rule mutation whose [approvers] are
    exactly the entries of kind [user] of the supplied list, in their order;
    every approver in it has [type] equal to [user]; and the only request
    that may follow is the attach mutation, which carries no approver. *)
Theorem only_user_approvers_are_sent
        (a : GateArgs) (w : world) (entries : list value) :
  gateType a = VStr "manual" ->
  manualApprovers a = VArr entries ->
  Forall (fun x => nullish x = false) entries ->
  List.filter user_approver entries <> [] ->
  let variables :=
    VObj [("input",
           VObj [("name", gateName a);
                 ("pipelineId", pipelineId a);
                 ("approvers", VArr (List.filter user_approver entries))])] in
  (forall x, In x (List.filter user_approver entries) ->
             In x entries /\ own_property x "type" = VStr "user") /\
  ((is_blank (gateName a) /\ sends (add_pipeline_gate a) w []) \/
   (~ is_blank (gateName a) /\
    exists later,
      sends (add_pipeline_gate a) w
            (graphql_request AddManualVersionSignOffRule_mutation variables :: later) /\
      (later = [] \/
       exists ruleId, later = [graphql_request upsertMutation (attach_variables a ruleId)]))).
Proof.
  intros Htype Happrovers Hobjects Husers variables. split.
  { intros x [Hin Hx]%filter_In. split; [exact Hin|].
    unfold user_approver in Hx. now apply strict_equals_string_spec in Hx. }
  assert (Hentries : approver_entries_ok a).
  { intros l El. rewrite Happrovers in El. now inversion El; subst. }
  unfold sends. rewrite add_pipeline_gate_run.
  destruct (negb (truthy (gateName a))
            || negb (String.eqb (typeof (gateName a)) "string")
            || trim_equals (gateName a) EmptyString) eqn:Hname.
  - left. split; [now apply name_guard_spec|].
    unfold add_pipeline_gate_try, bind.
    rewrite (create_rule_spec _ _ Hentries). unfold rule_payload.
    rewrite Htype, Hname. simpl. now rewrite app_nil_r.
  - right. split.
    { intros B. apply name_guard_spec in B. rewrite B in Hname. discriminate. }
    assert (Hpayload : rule_payload a
                       = inr (AddManualVersionSignOffRule_mutation, variables,
                              "addManualVersionSignOffRule")).
    { unfold rule_payload. rewrite Htype, Hname, Happrovers.
      cbn [strict_equals_string]. rewrite String.eqb_refl.
      destruct entries as [|x rest]; [contradiction|].
      destruct (List.filter user_approver (x :: rest)); [contradiction | reflexivity]. }
    rewrite (add_pipeline_gate_try_run _ _ _ _ _ Hentries Hpayload).
    pose proof (executeGraphQL_sends AddManualVersionSignOffRule_mutation variables w) as Hsent.
    unfold sends in Hsent.
    destruct (executeGraphQL _ _ w) as [[result|e] w1]; simpl in Hsent.
    + destruct ((rule <- get result "addManualVersionSignOffRule" ;; get rule "_id") w1)
        as [[ruleId|e] w'].
      * exists [graphql_request upsertMutation (attach_variables a ruleId)].
        split; [|right; now exists ruleId].
        pose proof (attach_gate_sends a ruleId w1) as Hattach. unfold sends in Hattach.
        destruct (attach_gate a ruleId w1) as [[r|e] w3]; simpl in *;
          now rewrite Hattach, Hsent, <- app_assoc.
      * exists []. split; [exact Hsent | now left].
    + exists []. split; [exact Hsent | now left].
Qed.

End Provisioner.

(** ** Tool handlers *)

Section Tools.

Context {Cfg : Config}.

(** A [try] block that ends by rendering a field of the result of one call
    returns a text payload whenever it returns. *)
Lemma render_returns_text (query : string) (variables : value) (field label : string)
      (w : world) (r : value) :
  fst ((result <- executeGraphQL query variables ;;
        x <- get result field ;;
        ret (text_content (label ++ interpolate (JSON_stringify x 2)))) w) = Return r ->
  exists x, r = text_content (label ++ interpolate (JSON_stringify x 2)).
Proof.
  unfold bind at 1. destruct (executeGraphQL query variables w) as [[result|e] w1];
    [|discriminate].
  unfold bind. destruct (get result field w1) as [[x|e] w2]; [|discriminate].
  simpl. intros H. inversion H. now exists x.
Qed.

(** A handler whose [try] block renders a field of the result of one call
    sends the request of that call and nothing else. *)
Lemma render_sends (query : string) (variables : value) (field label failed : string)
      (w : world) :
  sends (try_catch
           (result <- executeGraphQL query variables ;;
            x <- get result field ;;
            ret (text_content (label ++ interpolate (JSON_stringify x 2))))
           (fun error => ret (text_content (failed ++ message error))))
        w [graphql_request query variables].
Proof.
  pose proof (executeGraphQL_sends query variables w) as Hsent.
  unfold sends, try_catch, bind in *.
  destruct (executeGraphQL query variables w) as [[result|e] w1]; simpl in *; [|exact Hsent].
  pose proof (get_world result field w1) as W.
  destruct (get result field w1) as [[x|e] w2]; simpl in *; now subst w2.
Qed.

Lemma handler_run (i : invocation) (w : world) :
  handler i w =
  match try_block i w with
  | (Return r, w1) => (Return r, w1)
  | (Throw e, w1) => (Return (text_content (error_prefix i ++ message e)), w1)
  end.
Proof. destruct i; reflexivity. Qed.

End Tools.

(** ** The tenant fallback *)

(** A configuration that [getConfig] returns has no empty field. *)
Lemma getConfig_nonempty (args : list string) (env : string -> option string)
      (cfg : Config) :
  getConfig args env = Return cfg ->
  @graphqlUrl cfg <> EmptyString /\ @accessToken cfg <> EmptyString
  /\ @tenantId cfg <> EmptyString.
Proof.
  unfold getConfig.
  destruct (or_string (cli_url _) _) as [[|c1 u]|]; try discriminate.
  destruct (or_string (cli_token _) _) as [[|c2 k]|]; try discriminate.
  destruct (or_string (cli_tenantId _) _) as [[|c3 t]|]; try discriminate.
  intros H. inversion H. simpl. repeat split; discriminate.
Qed.

Ltac unfold_tenant_tool :=
  cbv delta [get_pipelines_by_tenant get_pipelines_by_tenant_try
             get_workflows_for_tenant get_workflows_for_tenant_try
             get_issues get_issues_try
             get_teams_by_tenant get_teams_by_tenant_try
             create_team create_team_try
             get_integrations_by_tenant get_integrations_by_tenant_try];
  cbv beta zeta.

Lemma logical_or_falsy (a b : value) : truthy a = false -> logical_or a b = b.
Proof. unfold logical_or. now intros ->. Qed.

Lemma logical_or_same (a : value) : logical_or a a = a.
Proof. unfold logical_or. now destruct (truthy a). Qed.

(** C10.  Under a configuration that [getConfig] returned, when the
    [tenantId] argument of a tool that takes one is falsy, which the empty
    string is as much as [undefined], the handler sends one request whose
    variables hold the configured tenant identifier in the place of
    [tenantId]; that identifier is not the empty string; and the invocation
    runs exactly as the one that passes the configured identifier. *)
Theorem falsy_tenant_falls_back
        (args : list string) (env : string -> option string) (Cfg : Config)
        (i : invocation) (providedTenantId : value) (w : world) :
  getConfig args env = Return Cfg ->
  provided_tenant i = Some providedTenantId ->
  truthy providedTenantId = false ->
  (exists query variables,
      sends (handler i) w [graphql_request query variables] /\
      at_path variables (tenant_path i) = VStr tenantId) /\
  tenantId <> EmptyString /\
  handler i w = handler (with_tenant i (VStr tenantId)) w /\
  truthy (VStr EmptyString) = false /\ truthy VUndefined = false.
Proof.
  intros Hconfig Hprovided Hfalsy.
  split; [| split; [now apply (getConfig_nonempty args env) | split; [| split; reflexivity]]].
  - destruct i; inversion Hprovided; subst; simpl handler; simpl tenant_path;
      unfold_tenant_tool; rewrite (logical_or_falsy _ _ Hfalsy);
      eexists; eexists; (split; [apply render_sends | reflexivity]).
  - destruct i; inversion Hprovided; subst; simpl;
      unfold_tenant_tool;
      now rewrite (logical_or_falsy _ _ Hfalsy), logical_or_same.
Qed.

(** * Further properties of the executor and the provisioner *)

Section Edges.

Context {Cfg : Config}.

(** When [fetch] rejects, the call throws the very error [fetch] rejected
    with, after that one request: nothing is retried. *)
Theorem fetch_rejection_is_rethrown
        (query : string) (variables : value) (w : world) (e : exn) s :
  serve (service w) (fst (graphql_request query variables))
        (snd (graphql_request query variables)) = (Throw e, s) ->
  executeGraphQL query variables w
  = (Throw e, {| service := s; sent := sent w ++ [graphql_request query variables] |}).
Proof. intros H. now rewrite executeGraphQL_run, H. Qed.

(** When the response has a 2xx status but its body is not valid JSON, the
    call throws the very error [json()] rejected with. *)
Theorem invalid_JSON_is_rethrown
        (query : string) (variables : value) (w : world) (response : Response)
        (e : exn) s :
  serve (service w) (fst (graphql_request query variables))
        (snd (graphql_request query variables)) = (Return response, s) ->
  (200 <= status response <= 299)%Z ->
  json response = Throw e ->
  fst (executeGraphQL query variables w) = Throw e.
Proof.
  intros Hserve Hstatus Hjson.
  rewrite (executeGraphQL_settles _ _ _ _ _ Hserve). simpl.
  replace (ok response) with true
    by (symmetry; unfold ok; apply andb_true_iff; rewrite !Z.leb_le; lia).
  now rewrite Hjson.
Qed.

(** A 2xx response whose body is the JSON text [null] makes the call throw
    a TypeError, raised by [Object.keys(data)] in the log line of line 109;
    it does not return [undefined]. *)
Theorem null_body_is_a_TypeError
        (query : string) (variables : value) (w : world) (response : Response) s :
  serve (service w) (fst (graphql_request query variables))
        (snd (graphql_request query variables)) = (Return response, s) ->
  (200 <= status response <= 299)%Z ->
  json response = Return VNull ->
  fst (executeGraphQL query variables w)
  = Throw (TypeError "Cannot convert undefined or null to object").
Proof.
  intros Hserve Hstatus Hjson.
  rewrite (executeGraphQL_settles _ _ _ _ _ Hserve). simpl.
  replace (ok response) with true
    by (symmetry; unfold ok; apply andb_true_iff; rewrite !Z.leb_le; lia).
  now rewrite Hjson.
Qed.

(** Errors take precedence over data: whenever the [errors] field of a 2xx
    body is truthy, be it an array (even an empty one), an object or a
    string, the call throws with the JSON text of that field, and the [data]
    field of the same body is dropped. *)
Theorem errors_take_precedence_over_data
        (query : string) (variables : value) (w : world) (response : Response) s
        (properties : list (string * value)) (errors : value) :
  serve (service w) (fst (graphql_request query variables))
        (snd (graphql_request query variables)) = (Return response, s) ->
  (200 <= status response <= 299)%Z ->
  json response = Return (VObj properties) ->
  lookup "errors" properties = Some errors ->
  truthy errors = true ->
  fst (executeGraphQL query variables w)
  = Throw (Error ("GraphQL errors: " ++ JSON_text errors)).
Proof.
  intros Hserve Hstatus Hjson Herrors Htruthy.
  rewrite (executeGraphQL_settles _ _ _ _ _ Hserve). simpl.
  replace (ok response) with true
    by (symmetry; unfold ok; apply andb_true_iff; rewrite !Z.leb_le; lia).
  rewrite Hjson. simpl. rewrite Herrors, Htruthy.
  unfold JSON_text. destruct errors as [| |[|]| | | |]; try discriminate; reflexivity.
Qed.

Lemma get_own (v : value) (k : string) (w : world) :
  nullish v = false -> get v k w = (Return (own_property v k), w).
Proof. destruct v; try discriminate; reflexivity. Qed.

(** Step 1 without the hypothesis on approver entries, for the gate types
    that do not read them. *)
Lemma create_rule_spec_not_manual (a : GateArgs) (w : world) :
  strict_equals_string (gateType a) "manual" = false ->
  create_rule a w =
  match rule_payload a with
  | inl m => (Throw (Error m), w)
  | inr (q, v, f) =>
      (result <- executeGraphQL q v ;; rule <- get result f ;; get rule "_id") w
  end.
Proof.
  intros Hmanual. unfold create_rule, rule_payload. rewrite Hmanual.
  destruct (strict_equals_string (gateType a) "metric").
  { destruct (truthy (metricRule a)), (truthy (own_property (metricRule a) "metricDefinition")),
      (truthy (own_property (metricRule a) "dql")); reflexivity. }
  destruct (strict_equals_string (gateType a) "compliance").
  { destruct (truthy (complianceRule a)), (truthy (own_property (complianceRule a) "resource")),
      (truthy (own_property (complianceRule a) "dql")); reflexivity. }
  destruct (strict_equals_string (gateType a) "status").
  { destruct (truthy (statusRule a)), (truthy (own_property (statusRule a) "status"));
      reflexivity. }
  reflexivity.
Qed.

(** Once a rule identifier is obtained, the handler sends the attach
    mutation after the rule mutation, whatever the attach call does. *)
Lemma created_rule_sends
      (a : GateArgs) (w w1 : world) (q : string) (v : value) (f : string)
      (result ruleId : value) :
  approver_entries_ok a ->
  rule_payload a = inr (q, v, f) ->
  executeGraphQL q v w = (Return result, w1) ->
  fst ((rule <- get result f ;; get rule "_id") w1) = Return ruleId ->
  sends (add_pipeline_gate a) w
        [graphql_request q v; graphql_request upsertMutation (attach_variables a ruleId)].
Proof.
  intros Hentries Hpayload Hcreate Hid.
  pose proof (executeGraphQL_sends q v w) as Hsent.
  pose proof (attach_gate_sends a ruleId w1) as Hattach.
  unfold sends in *.
  rewrite add_pipeline_gate_run, (add_pipeline_gate_try_run _ _ _ _ _ Hentries Hpayload).
  rewrite Hcreate in *. simpl in Hsent.
  destruct ((rule <- get result f ;; get rule "_id") w1) as [[r|e] w'];
    simpl in Hid; [|discriminate].
  inversion Hid; subst r.
  destruct (attach_gate a ruleId w1) as [[r|e] w3]; simpl in *;
    now rewrite Hattach, Hsent, <- app_assoc.
Qed.

(** The two steps are not a transaction: when the rule was created and the
    attach call throws, the handler reports the attach failure and has sent
    exactly the two requests; no third request undoes the rule. *)
Theorem attach_failure_leaves_the_rule
        (a : GateArgs) (w w1 : world) (q : string) (v : value) (f : string)
        (result ruleId : value) (e : exn) :
  approver_entries_ok a ->
  rule_payload a = inr (q, v, f) ->
  executeGraphQL q v w = (Return result, w1) ->
  fst ((rule <- get result f ;; get rule "_id") w1) = Return ruleId ->
  fst (executeGraphQL upsertMutation (attach_variables a ruleId) w1) = Throw e ->
  fst (add_pipeline_gate a w) = Return (text_content ("Error adding gate: " ++ message e)) /\
  sends (add_pipeline_gate a) w
        [graphql_request q v; graphql_request upsertMutation (attach_variables a ruleId)].
Proof.
  intros Hentries Hpayload Hcreate Hid Hattach.
  pose proof (executeGraphQL_sends q v w) as Hsent.
  pose proof (executeGraphQL_sends upsertMutation (attach_variables a ruleId) w1) as Hsent2.
  unfold sends in *.
  rewrite add_pipeline_gate_run, (add_pipeline_gate_try_run _ _ _ _ _ Hentries Hpayload).
  rewrite Hcreate in *. simpl in Hsent.
  destruct ((rule <- get result f ;; get rule "_id") w1) as [[r|e'] w'];
    simpl in Hid; [|discriminate].
  inversion Hid; subst r. rewrite attach_gate_run.
  destruct (executeGraphQL upsertMutation (attach_variables a ruleId) w1) as [[u|e'] w2];
    simpl in Hattach; [discriminate|].
  inversion Hattach; subst e'. simpl in *.
  split; [reflexivity|]. now rewrite Hsent2, Hsent, <- app_assoc.
Qed.

(** When the rule mutation succeeds but its result holds no rule under the
    expected field, reading [_id] throws a TypeError: the handler reports
    it and the attach mutation is never sent. *)
Theorem missing_rule_stops_before_attach
        (a : GateArgs) (w w1 : world) (q : string) (v : value) (f : string)
        (result : value) :
  approver_entries_ok a ->
  rule_payload a = inr (q, v, f) ->
  executeGraphQL q v w = (Return result, w1) ->
  nullish result = false ->
  own_property result f = VUndefined ->
  fst (add_pipeline_gate a w)
  = Return (text_content
              "Error adding gate: Cannot read properties of undefined (reading '_id')") /\
  sends (add_pipeline_gate a) w [graphql_request q v].
Proof.
  intros Hentries Hpayload Hcreate Hresult Hrule.
  pose proof (executeGraphQL_sends q v w) as Hsent. unfold sends in *.
  rewrite add_pipeline_gate_run, (add_pipeline_gate_try_run _ _ _ _ _ Hentries Hpayload).
  rewrite Hcreate in *. simpl in Hsent.
  replace ((rule <- get result f ;; get rule "_id") w1)
    with (@Throw value
                 (TypeError "Cannot read properties of undefined (reading '_id')"), w1).
  - split; [reflexivity | exact Hsent].
  - unfold bind. rewrite (get_own _ _ _ Hresult), Hrule. reflexivity.
Qed.

(** The rule identifier is not checked: when the created rule has no [_id],
    the attach mutation is sent all the same, and its request is the one
    that carries [ruleIds: [null]]. *)
Theorem missing_rule_id_is_sent_as_null
        (a : GateArgs) (w w1 : world) (q : string) (v : value) (f : string)
        (result : value) :
  approver_entries_ok a ->
  rule_payload a = inr (q, v, f) ->
  executeGraphQL q v w = (Return result, w1) ->
  nullish result = false ->
  nullish (own_property result f) = false ->
  own_property (own_property result f) "_id" = VUndefined ->
  sends (add_pipeline_gate a) w
        [graphql_request q v; graphql_request upsertMutation (attach_variables a VNull)].
Proof.
  intros Hentries Hpayload Hcreate Hresult Hrule Hid.
  assert (Hget : fst ((rule <- get result f ;; get rule "_id") w1) = Return VUndefined).
  { unfold bind. rewrite (get_own _ _ _ Hresult), (get_own _ _ _ Hrule), Hid. reflexivity. }
  pose proof (created_rule_sends a w w1 q v f result VUndefined
                                 Hentries Hpayload Hcreate Hget) as S.
  replace (graphql_request upsertMutation (attach_variables a VNull))
    with (graphql_request upsertMutation (attach_variables a VUndefined)); [exact S|].
  unfold graphql_request, attach_variables, JSON_stringify. simpl.
  repeat f_equal.
Qed.

(** A required field that is present but falsy is rejected like a missing
    one: a compliance gate whose [resource] is the empty string, and a
    status gate whose [status] is the empty string, fail validation and
    nothing is sent. *)
Theorem empty_required_field_is_rejected (a : GateArgs) (w : world) :
  (gateType a = VStr "compliance"
   /\ own_property (complianceRule a) "resource" = VStr EmptyString) \/
  (gateType a = VStr "status"
   /\ own_property (statusRule a) "status" = VStr EmptyString) ->
  exists m,
    In m validation_messages /\
    add_pipeline_gate a w = (Return (text_content ("Error adding gate: " ++ m)), w).
Proof.
  intros H.
  assert (Hmanual : strict_equals_string (gateType a) "manual" = false)
    by (destruct H as [[-> _] | [-> _]]; reflexivity).
  assert (Hm : exists m, rule_payload a = inl m).
  { unfold rule_payload. destruct H as [[Htype Hfield] | [Htype Hfield]];
      rewrite Htype, Hfield; simpl; rewrite ?andb_false_r; eexists; reflexivity. }
  destruct Hm as [m Hm]. exists m. split; [now apply (rule_payload_message a)|].
  rewrite add_pipeline_gate_run. unfold add_pipeline_gate_try, bind.
  now rewrite (create_rule_spec_not_manual _ _ Hmanual), Hm.
Qed.

(** A gate is built from the rule of its own type only: two invocations that
    agree on the common fields and on the rule argument of their gate type
    run identically, whatever the other rule arguments hold. *)
Theorem only_the_rule_of_the_gate_type_matters (a b : GateArgs) (w : world) :
  same_gate_request a b ->
  add_pipeline_gate a w = add_pipeline_gate b w.
Proof.
  intros (Hp & Hs & Ht & Hn & Hg & Hmanual & Hmetric & Hcompliance & Hstatus).
  assert (Hcreate : create_rule a w = create_rule b w).
  { unfold create_rule. rewrite <- Ht, <- Hn, <- Hp.
    destruct (strict_equals_string (gateType a) "manual") eqn:E1.
    { apply strict_equals_string_spec in E1. now rewrite <- (Hmanual E1). }
    destruct (strict_equals_string (gateType a) "metric") eqn:E2.
    { apply strict_equals_string_spec in E2. now rewrite <- (Hmetric E2). }
    destruct (strict_equals_string (gateType a) "compliance") eqn:E3.
    { apply strict_equals_string_spec in E3. now rewrite <- (Hcompliance E3). }
    destruct (strict_equals_string (gateType a) "status") eqn:E4.
    { apply strict_equals_string_spec in E4. now rewrite <- (Hstatus E4). }
    reflexivity. }
  unfold add_pipeline_gate, add_pipeline_gate_try, try_catch, bind. rewrite Hcreate.
  destruct (create_rule b w) as [[ruleId|e] w1]; [|reflexivity].
  unfold attach_gate. now rewrite Hp, Hs, Hg.
Qed.

Lemma logical_or_truthy (a b : value) : truthy a = true -> logical_or a b = a.
Proof. unfold logical_or. now intros ->. Qed.

(** The override works: when the [tenantId] argument of a tool that takes
    one is truthy, the request carries that value, not the configured
    tenant, in the place of [tenantId]. *)
Theorem provided_tenant_is_sent
        (i : invocation) (providedTenantId : value) (w : world) :
  provided_tenant i = Some providedTenantId ->
  truthy providedTenantId = true ->
  exists query variables,
    sends (handler i) w [graphql_request query variables] /\
    at_path variables (tenant_path i) = providedTenantId.
Proof.
  intros Hprovided Htruthy.
  destruct i; inversion Hprovided; subst; simpl handler; simpl tenant_path;
    unfold_tenant_tool; rewrite (logical_or_truthy _ _ Htruthy);
    eexists; eexists; (split; [apply render_sends | reflexivity]).
Qed.

(** The paging defaults of [get_issues]: a falsy [skip] is sent as 0 and a
    falsy [limit] as 100, so that an explicit limit of zero asks for a
    hundred issues; truthy values are sent as they are. *)
Theorem issue_paging_defaults
        (providedTenantId internalIds skip limit : value) (w : world) :
  exists variables,
    sends (get_issues providedTenantId internalIds skip limit) w
          [graphql_request GetIssues_query variables] /\
    at_path variables ["filter"; "skip"]
    = (if truthy skip then skip else VNum (number_of_nat 0)) /\
    at_path variables ["filter"; "limit"]
    = (if truthy limit then limit else VNum (number_of_nat 100)) /\
    at_path variables ["filter"; "internalIds"] = internalIds.
Proof.
  unfold get_issues, get_issues_try. eexists. split; [apply render_sends|].
  repeat split.
Qed.

End Edges.

(** * The whole catalogue of tools *)

Section Catalogue.

Context {NT : JSNumberText} {Cfg : Config}.

(** ** Counting requests *)

Lemma at_most_weaken {A} (n n' : nat) (m : M A) :
  n <= n' -> sends_at_most n m -> sends_at_most n' m.
Proof.
  intros Hle H w. destruct (H w) as (rs & S & L & F). exists rs. repeat split; auto. lia.
Qed.

Lemma at_most_pure {A} (m : M A) :
  (forall w, snd (m w) = w) -> sends_at_most 0 m.
Proof.
  intros H w. exists []. unfold sends. rewrite H, app_nil_r. repeat split; auto.
Qed.

Lemma at_most_ret {A} (a : A) : sends_at_most 0 (ret a).
Proof. now apply at_most_pure. Qed.

Lemma at_most_throw {A} (e : exn) : sends_at_most 0 (@throw _ _ A e).
Proof. now apply at_most_pure. Qed.

Lemma at_most_lift {A} (c : completion A) : sends_at_most 0 (lift c).
Proof. now apply at_most_pure. Qed.

Lemma at_most_get (v : value) (k : string) : sends_at_most 0 (get v k).
Proof. apply at_most_pure. intros w. apply get_world. Qed.

Lemma at_most_execute (query : string) (variables : value) :
  sends_at_most 1 (executeGraphQL query variables).
Proof.
  intros w. exists [graphql_request query variables].
  split; [apply executeGraphQL_sends|]. split; [reflexivity|].
  constructor; [now exists query, variables | constructor].
Qed.

(** Sequencing adds the counts up; so does catching. *)
Lemma at_most_bind {A B} (n1 n2 : nat) (m : M A) (k : A -> M B) :
  sends_at_most n1 m -> (forall a, sends_at_most n2 (k a)) ->
  sends_at_most (n1 + n2) (bind m k).
Proof.
  intros H1 H2 w. destruct (H1 w) as (rs1 & S1 & L1 & F1).
  unfold sends, bind in *. destruct (m w) as [[a|e] w1]; simpl in S1.
  - destruct (H2 a w1) as (rs2 & S2 & L2 & F2). exists (rs1 ++ rs2)%list.
    unfold sends in S2. rewrite S2, S1, app_assoc, length_app.
    repeat split; [lia | now apply Forall_app].
  - exists rs1. simpl. repeat split; auto. lia.
Qed.

Lemma at_most_try_catch {A} (n1 n2 : nat) (m : M A) (handle : exn -> M A) :
  sends_at_most n1 m -> (forall e, sends_at_most n2 (handle e)) ->
  sends_at_most (n1 + n2) (try_catch m handle).
Proof.
  intros H1 H2 w. destruct (H1 w) as (rs1 & S1 & L1 & F1).
  unfold sends, try_catch in *. destruct (m w) as [[a|e] w1]; simpl in S1.
  - exists rs1. simpl. repeat split; auto. lia.
  - destruct (H2 e w1) as (rs2 & S2 & L2 & F2). exists (rs1 ++ rs2)%list.
    unfold sends in S2. rewrite S2, S1, app_assoc, length_app.
    repeat split; [lia | now apply Forall_app].
Qed.

Ltac at_most :=
  repeat first
    [ apply at_most_ret
    | apply at_most_throw
    | apply at_most_lift
    | apply at_most_get
    | apply at_most_execute
    | apply (at_most_weaken 0 1); [lia |]
    | progress intros
    | match goal with
      | |- sends_at_most _ (if ?c then _ else _) => destruct c
      | |- sends_at_most _ (match ?v with _ => _ end) => destruct v
      end ].

(** A handler that renders a field of the result of one call sends at
    most one request. *)
Lemma at_most_render (query : string) (variables : value) (field label failed : string) :
  sends_at_most 1
    (try_catch
       (result <- executeGraphQL query variables ;;
        x <- get result field ;;
        ret (text_content (label ++ interpolate (JSON_stringify x 2))))
       (fun error => ret (text_content (failed ++ message error)))).
Proof.
  apply (at_most_try_catch 1 0); [|at_most].
  apply (at_most_bind 1 0); [at_most|]. intros result.
  apply (at_most_bind 0 0); at_most.
Qed.

Lemma Array_filter_world (p : value -> M bool) (elements : list value) (w : world) :
  (forall x w', snd (p x w') = w') -> snd (Array_filter p elements w) = w.
Proof.
  intros Hp. revert w. induction elements as [|x rest IH]; intros w; [reflexivity|].
  simpl. unfold bind. specialize (Hp x w).
  destruct (p x w) as [[keep|e] w1]; simpl in Hp; subst w1; [|reflexivity].
  specialize (IH w). destruct (Array_filter p rest w) as [[kept|e] w2]; simpl in *; now subst.
Qed.

Lemma at_most_create_rule (a : GateArgs) : sends_at_most 1 (create_rule a).
Proof.
  assert (R : forall query variables field,
             sends_at_most 1 (result <- executeGraphQL query variables ;;
                              rule <- get result field ;; get rule "_id")).
  { intros. apply (at_most_bind 1 0); [at_most|]. intros result.
    apply (at_most_bind 0 0); at_most. }
  unfold create_rule.
  repeat match goal with
         | |- sends_at_most _ (if ?c then _ else _) => destruct c
         | |- sends_at_most _ (match manualApprovers a with _ => _ end) =>
             destruct (manualApprovers a)
         end;
    try apply R; try (apply (at_most_weaken 0 1); [lia | apply at_most_throw]).
  apply (at_most_bind 0 1).
  - apply at_most_pure. intros w. apply Array_filter_world.
    intros x w'. unfold bind. pose proof (get_world x "type" w') as G.
    destruct (get x "type" w') as [[t|e] w1]; simpl in *; now subst.
  - intros users. destruct (Nat.eqb _ _); [|apply R].
    apply (at_most_weaken 0 1); [lia | apply at_most_throw].
Qed.

Lemma at_most_add_pipeline_gate (a : GateArgs) : sends_at_most 2 (add_pipeline_gate a).
Proof.
  unfold add_pipeline_gate, add_pipeline_gate_try.
  apply (at_most_try_catch 2 0); [|at_most].
  apply (at_most_bind 1 1); [apply at_most_create_rule|]. intros ruleId.
  unfold attach_gate. apply (at_most_bind 1 0); [at_most|]. intros result.
  apply (at_most_bind 0 0); at_most.
Qed.

(** No invocation of any of the twenty-two tools sends more than one
    request, except [add_pipeline_gate], which sends at most two; and every
    request is a POST of [executeGraphQL] to the configured endpoint:
    nothing is retried and nothing else is contacted. *)
Theorem round_trips_are_bounded (i : invocation + other_invocation) :
  sends_at_most (round_trips i) (any_handler i) /\
  forall w requests,
    sends (any_handler i) w requests ->
    Forall (fun r => fst r = graphqlUrl /\ method (snd r) = "POST") requests.
Proof.
  assert (B : sends_at_most (round_trips i) (any_handler i)).
  { destruct i as [[]|[]]; simpl; try apply at_most_render;
      try apply at_most_add_pipeline_gate.
    - unfold upload_issue_data, upload_issue_data_try.
      apply (at_most_try_catch 1 0); [|at_most].
      apply (at_most_bind 0 1); [unfold normalize_issues; at_most|]. intros normalized.
      apply (at_most_bind 1 0); [at_most|]. intros result.
      apply (at_most_bind 0 0); at_most.
    - unfold test_graphql_connection, test_graphql_connection_try.
      apply (at_most_try_catch 1 0); [|at_most].
      apply (at_most_bind 1 0); [at_most|]. intros result.
      repeat (apply (at_most_bind 0 0); [at_most|]; intros). at_most. }
  split; [exact B|].
  intros w requests S. destruct (B w) as (rs & S' & _ & F).
  unfold sends in S, S'. rewrite S' in S. apply app_inv_head in S. subst rs.
  eapply Forall_impl; [|exact F]. intros r (q & v & ->). split; reflexivity.
Qed.

(** ** The other handlers *)

Lemma other_handler_run (i : other_invocation) (w : world) :
  other_handler i w =
  match other_try_block i w with
  | (Return r, w1) => (Return r, w1)
  | (Throw e, w1) => (Return (text_content (other_error_prefix i ++ message e)), w1)
  end.
Proof. destruct i; reflexivity. Qed.

Lemma other_try_block_returns_text (i : other_invocation) (w : world) (r : value) :
  fst (other_try_block i w) = Return r -> exists t, r = text_content t.
Proof.
  assert (R : forall query variables field label w,
             fst ((result <- executeGraphQL query variables ;;
                   x <- get result field ;;
                   ret (text_content (label ++ interpolate (JSON_stringify x 2)))) w)
             = Return r -> exists t, r = text_content t).
  { intros query variables field label w' H.
    destruct (render_returns_text _ _ _ _ _ _ H) as [x ->]. eauto. }
  destruct i; simpl; try apply R.
  - unfold upload_issue_data_try, bind at 1.
    destruct (normalize_issues issues w) as [[normalized|e] w1]; [apply R | discriminate].
  - unfold test_graphql_connection_try, bind, lift, ret.
    repeat match goal with
           | |- context [match ?m ?w with _ => _ end] =>
               destruct (m w) as [[?|?] ?]; try discriminate
           | |- context [let (_, _) := ?m ?w in _] =>
               destruct (m w) as [[?|?] ?]; try discriminate
           end.
    all: try (destruct (ToString _); try discriminate).
    all: simpl; intros H; inversion H; eauto.
Qed.

(** Each of the fourteen other handlers completes normally with a single
    text item, whatever its arguments and whatever the service answers;
    when its [try] block throws, the text is the error label of the tool
    followed by the message of what was thrown. *)
Theorem other_handlers_return_text (i : other_invocation) (w : world) :
  exists t,
    fst (other_handler i w) = Return (text_content t) /\
    forall e, fst (other_try_block i w) = Throw e -> t = other_error_prefix i ++ message e.
Proof.
  rewrite other_handler_run.
  destruct (other_try_block i w) as [[r|e] w1] eqn:E.
  - destruct (other_try_block_returns_text i w r) as [t ->]; [now rewrite E|].
    exists t. split; [reflexivity | discriminate].
  - eexists. split; [reflexivity|]. intros e' H. now inversion H.
Qed.

(** ** Every handler *)

Lemma bind_returns {A B : Type} (m : M A) (k : A -> M B) (w : world) (r : B) :
  fst (bind m k w) = Return r ->
  exists a w1, m w = (Return a, w1) /\ fst (k a w1) = Return r
               /\ snd (bind m k w) = snd (k a w1).
Proof. unfold bind. destruct (m w) as [[a|e] w1]; [eauto | discriminate]. Qed.

Lemma get_returns (v : value) (k : string) (w w1 : world) (x : value) :
  get v k w = (Return x, w1) -> x = own_property v k /\ w1 = w.
Proof. destruct v; simpl; intros H; inversion H; auto. Qed.

(** A [try] block that renders a field of the result of one call returns,
    when it returns, the rendering of what that call returned. *)
Lemma render_result (query : string) (variables : value) (field label : string)
      (w : world) (r : value) :
  fst ((result <- executeGraphQL query variables ;;
        x <- get result field ;;
        ret (text_content (label ++ interpolate (JSON_stringify x 2)))) w) = Return r ->
  exists result,
    executeGraphQL query variables w
    = (Return result,
       snd ((result <- executeGraphQL query variables ;;
             x <- get result field ;;
             ret (text_content (label ++ interpolate (JSON_stringify x 2)))) w)) /\
    r = text_content (rendering label field result).
Proof.
  unfold bind.
  destruct (executeGraphQL query variables w) as [[result|e] w1]; [|discriminate].
  exists result. destruct result; try discriminate; simpl in *;
    (split; [reflexivity | now inversion H]).
Qed.

(** What the [try] block of any handler returns, when it returns, is the
    success text for the result of the last call of [executeGraphQL], the
    call that left the world as the handler leaves it. *)
Lemma try_block_result (i : invocation + other_invocation) (w : world) (r : value) :
  fst (any_try_block i w) = Return r ->
  exists query variables w0 result t,
    executeGraphQL query variables w0 = (Return result, snd (any_try_block i w)) /\
    (round_trips i = 1 -> w0 = w) /\
    success_text i result = Return t /\
    r = text_content t.
Proof.
  assert (R : forall query variables field label,
             fst ((result <- executeGraphQL query variables ;;
                   x <- get result field ;;
                   ret (text_content (label ++ interpolate (JSON_stringify x 2)))) w)
             = Return r ->
             exists query' variables' w0 result t,
               executeGraphQL query' variables' w0
               = (Return result,
                  snd ((result <- executeGraphQL query variables ;;
                        x <- get result field ;;
                        ret (text_content (label ++ interpolate (JSON_stringify x 2)))) w)) /\
               (1 = 1 -> w0 = w) /\
               Return (rendering label field result) = Return t /\
               r = text_content t).
  { intros query variables field label H.
    destruct (render_result _ _ _ _ _ _ H) as (result & E & ->).
    exists query, variables, w, result. eexists. repeat split; auto. }
  destruct i as [[]|[]];
    cbn [any_try_block try_block other_try_block round_trips success_text
         other_success_text success_prefix result_field];
    try apply R.
  - (* add_pipeline_gate *)
    unfold add_pipeline_gate_try. intros H.
    apply bind_returns in H as (ruleId & w1 & E & H & W). rewrite W.
    unfold attach_gate in *.
    destruct (render_result _ _ _ _ _ _ H) as (result & C & ->).
    eexists. eexists. exists w1, result. eexists.
    split; [exact C|]. split; [discriminate|]. split; reflexivity.
  - (* upload_issue_data *)
    destruct issues; try (intros H; cbn in H; discriminate H).
    exact (R UploadIssueData_mutation _ "uploadIssueData" "Issue data uploaded: ").
  - (* test_graphql_connection *)
    unfold test_graphql_connection_try. intros H.
    apply bind_returns in H as (result & w1 & E & H & W). rewrite W.
    apply bind_returns in H as (schema & w2 & E1 & H & W1). rewrite W1.
    apply get_returns in E1 as [-> ->].
    apply bind_returns in H as (types & w2 & E2 & H & W2). rewrite W2.
    apply get_returns in E2 as [-> ->].
    apply bind_returns in H as (count & w2 & E3 & H & W3). rewrite W3.
    apply get_returns in E3 as [-> ->].
    apply bind_returns in H as (found & w2 & E4 & H & W4). rewrite W4.
    unfold lift in E4. inversion E4; subst w2. unfold ret in *. simpl in H |- *.
    inversion H; subst r.
    exists TestConnection_query, (VObj []), w, result. eexists.
    split; [exact E|]. split; [reflexivity|]. split; [|reflexivity].
    match goal with K : ToString _ = _ |- _ => now rewrite K end.
Qed.

(** C9.  Each of the twenty-two handlers always completes normally, with an
    object holding a single text item.  When its [try] block throws
    anything, be it a validation error, a transport error, a GraphQL error
    or a TypeError, the text is the error label of the tool followed by the
    message of what was thrown.  When its [try] block returns, the text is
    the rendering of the result of the last call of [executeGraphQL], the
    one after which the handler returns: the success label of the tool
    followed by the JSON text of the field of that result that the tool
    reads (for the connection test, the count of schema types of that
    result within its sentence). *)
Theorem handler_returns_text (i : invocation + other_invocation) (w : world) :
  exists t,
    any_handler i w
    = (Return (VObj [("content", VArr [VObj [("type", VStr "text"); ("text", VStr t)]])]),
       snd (any_try_block i w)) /\
    (forall e, fst (any_try_block i w) = Throw e -> t = any_error_prefix i ++ message e) /\
    (forall r, fst (any_try_block i w) = Return r ->
       exists query variables w0 result,
         executeGraphQL query variables w0 = (Return result, snd (any_handler i w)) /\
         (round_trips i = 1 -> w0 = w) /\
         success_text i result = Return t).
Proof.
  assert (Run : any_handler i w =
                match any_try_block i w with
                | (Return r, w1) => (Return r, w1)
                | (Throw e, w1) =>
                    (Return (text_content (any_error_prefix i ++ message e)), w1)
                end)
    by (destruct i as [i|i]; [apply handler_run | apply other_handler_run]).
  rewrite Run.
  destruct (any_try_block i w) as [[r|e] w1] eqn:E.
  - destruct (try_block_result i w r) as (query & variables & w0 & result & t & C & W & T & ->);
      [now rewrite E|].
    rewrite E in C. exists t. split; [reflexivity|]. split; [discriminate|].
    intros r' _. now exists query, variables, w0, result.
  - eexists. split; [reflexivity|]. split.
    + intros e' H. now inversion H.
    + discriminate.
Qed.

(** ** What the other handlers send *)

Lemma lookup_define_same (k : string) (x : value) (properties : list (string * value)) :
  lookup k (define_property k x properties) = Some x.
Proof.
  induction properties as [|[k' y] rest IH]; simpl.
  - now rewrite String.eqb_refl.
  - destruct (String.eqb k' k) eqn:E; simpl; [now rewrite String.eqb_refl | now rewrite E].
Qed.

Lemma lookup_define_other (k k' : string) (x : value) (properties : list (string * value)) :
  k <> k' -> lookup k (define_property k' x properties) = lookup k properties.
Proof.
  intros Hne. induction properties as [|[k2 y] rest IH]; simpl.
  - destruct (String.eqb k' k) eqn:E; [|reflexivity].
    apply String.eqb_eq in E. congruence.
  - destruct (String.eqb k2 k') eqn:E; simpl.
    + apply String.eqb_eq in E. subst k2.
      destruct (String.eqb k' k) eqn:E'; [|reflexivity].
      apply String.eqb_eq in E'. congruence.
    + now rewrite IH.
Qed.

Lemma uploaded_issues_sends
      (source trackerId baseUrl : value) (issues : list value) (w : world) :
  exists uploaded,
    sends (upload_issue_data source trackerId baseUrl (VArr issues)) w
          [graphql_request UploadIssueData_mutation
             (VObj [("data",
                     VObj [("source", source);
                           ("trackerId", trackerId);
                           ("tenantId", VStr tenantId);
                           ("baseUrl", baseUrl);
                           ("issues", VArr uploaded)])])].
Proof.
  eexists. unfold upload_issue_data, upload_issue_data_try, normalize_issues.
  unfold bind at 1. unfold ret at 1. apply render_sends.
Qed.

(** [upload_issue_data] sends the issues in their order, one for one; each
    issue sent has [normalizedType] equal to [OTHER], even when the caller
    gave another value, and every other property of an issue is sent as it
    was given. *)
Theorem uploaded_issues_are_normalized
        (source trackerId baseUrl : value) (issues : list value) (w : world) :
  exists uploaded,
    sends (upload_issue_data source trackerId baseUrl (VArr issues)) w
          [graphql_request UploadIssueData_mutation
             (VObj [("data",
                     VObj [("source", source);
                           ("trackerId", trackerId);
                           ("tenantId", VStr tenantId);
                           ("baseUrl", baseUrl);
                           ("issues", VArr uploaded)])])] /\
    Forall2 (fun issue sent =>
               own_property sent "normalizedType" = VStr "OTHER" /\
               forall properties k,
                 issue = VObj properties -> k <> "normalizedType" ->
                 own_property sent k = own_property issue k)
            issues uploaded.
Proof.
  eexists. split.
  - unfold upload_issue_data, upload_issue_data_try, normalize_issues.
    unfold bind at 1. unfold ret at 1. apply render_sends.
  - induction issues as [|issue rest IH]; constructor; [|exact IH].
    split.
    + simpl. now rewrite lookup_define_same.
    + intros properties k -> Hne. simpl. now rewrite lookup_define_other.
Qed.

(** When the service answers the connection test with a schema whose
    [types] is an array, the handler reports the number of its entries,
    given that the platform prints that number in decimal. *)
Theorem connection_test_counts_types
        (w w1 : world) (result schema : value) (types : list value) :
  number_toString (number_of_nat (List.length types)) = of_nat (List.length types) ->
  executeGraphQL TestConnection_query (VObj []) w = (Return result, w1) ->
  nullish result = false ->
  own_property result "__schema" = schema ->
  nullish schema = false ->
  own_property schema "types" = VArr types ->
  test_graphql_connection w
  = (Return (text_content ("GraphQL connection test successful: Found "
                           ++ of_nat (List.length types) ++ " schema types")),
     w1).
Proof.
  intros Hnumber Hcall Hresult Hschema Hnull Htypes.
  unfold test_graphql_connection, test_graphql_connection_try, try_catch.
  unfold bind at 1. rewrite Hcall.
  unfold bind at 1. rewrite (get_own _ _ _ Hresult), Hschema.
  unfold bind at 1. rewrite (get_own _ _ _ Hnull), Htypes.
  unfold bind, lift, ret. simpl. now rewrite Hnumber.
Qed.

(** The tools that take no [tenantId] argument and address a tenant always
    address the configured one: no argument of theirs can change it. *)
Theorem tools_without_tenant_argument_use_the_configured_tenant
        (i : other_invocation) (path : list string) (w : world) :
  configured_tenant_path i = Some path ->
  issues_ok i ->
  exists query variables,
    sends (other_handler i) w [graphql_request query variables] /\
    at_path variables path = VStr tenantId.
Proof.
  intros Hpath Hok.
  destruct i; inversion Hpath; subst; simpl other_handler;
    try (eexists; eexists; split; [apply render_sends | reflexivity]).
  simpl in Hok. destruct issues; try discriminate Hok.
  destruct (uploaded_issues_sends source trackerId baseUrl elements w) as [uploaded S].
  eexists; eexists; split; [exact S | reflexivity].
Qed.

Lemma serialize_without_undefined (gap indent : string) (properties : list (string * value)) :
  SerializeJSONProperty gap indent (VObj properties)
  = SerializeJSONProperty gap indent
      (VObj (List.filter (fun p => strict_not_undefined (snd p)) properties)).
Proof.
  simpl. do 2 f_equal.
  induction properties as [|[k x] rest IH]; [reflexivity|].
  destruct x as [| |[|]| | | |]; simpl; rewrite ?IH; reflexivity.
Qed.

Lemma body_depends_on_text (query : string) (v v' : value) :
  SerializeJSONProperty EmptyString EmptyString v
  = SerializeJSONProperty EmptyString EmptyString v' ->
  JSON_stringify (VObj [("query", VStr query); ("variables", v)]) 0
  = JSON_stringify (VObj [("query", VStr query); ("variables", v')]) 0.
Proof. intros H. unfold JSON_stringify. simpl. now rewrite H. Qed.

(** Paging of [get_particles_by_stage].  When neither [skip] nor [limit]
    is given, the request is the one with no [pagination] at all.  When
    both are given, zero and [null] included, both are sent under
    [pagination].  When only one is given, the request is the one whose
    [pagination] holds that one alone: the other is not sent. *)
Theorem particle_paging
        (workflowId stageName particleIds skip limit : value) (w : world) :
  (skip = VUndefined -> limit = VUndefined ->
   sends (get_particles_by_stage workflowId stageName particleIds skip limit) w
         [graphql_request GetParticlesByStage_query
            (VObj [("workflowId", workflowId);
                   ("stageName", stageName);
                   ("particleIds", particleIds)])]) /\
  (skip <> VUndefined -> limit <> VUndefined ->
   sends (get_particles_by_stage workflowId stageName particleIds skip limit) w
         [graphql_request GetParticlesByStage_query
            (VObj [("workflowId", workflowId);
                   ("stageName", stageName);
                   ("particleIds", particleIds);
                   ("pagination", VObj [("skip", skip); ("limit", limit)])])]) /\
  (skip <> VUndefined -> limit = VUndefined ->
   sends (get_particles_by_stage workflowId stageName particleIds skip limit) w
         [graphql_request GetParticlesByStage_query
            (VObj [("workflowId", workflowId);
                   ("stageName", stageName);
                   ("particleIds", particleIds);
                   ("pagination", VObj [("skip", skip)])])]) /\
  (skip = VUndefined -> limit <> VUndefined ->
   sends (get_particles_by_stage workflowId stageName particleIds skip limit) w
         [graphql_request GetParticlesByStage_query
            (VObj [("workflowId", workflowId);
                   ("stageName", stageName);
                   ("particleIds", particleIds);
                   ("pagination", VObj [("limit", limit)])])]).
Proof.
  assert (Given : skip <> VUndefined \/ limit <> VUndefined ->
                  sends (get_particles_by_stage workflowId stageName particleIds skip limit) w
                        [graphql_request GetParticlesByStage_query
                           (VObj [("workflowId", workflowId);
                                  ("stageName", stageName);
                                  ("particleIds", particleIds);
                                  ("pagination", VObj [("skip", skip); ("limit", limit)])])]).
  { intros H. unfold get_particles_by_stage, get_particles_by_stage_try.
    replace (strict_not_undefined skip || strict_not_undefined limit) with true.
    + apply render_sends.
    + destruct skip, limit; try reflexivity. destruct H; contradiction. }
  assert (Body : forall pagination pagination',
             SerializeJSONProperty EmptyString EmptyString pagination
             = SerializeJSONProperty EmptyString EmptyString pagination' ->
             graphql_request GetParticlesByStage_query
               (VObj [("workflowId", workflowId); ("stageName", stageName);
                      ("particleIds", particleIds); ("pagination", pagination)])
             = graphql_request GetParticlesByStage_query
                 (VObj [("workflowId", workflowId); ("stageName", stageName);
                        ("particleIds", particleIds); ("pagination", pagination')])).
  { intros pagination pagination' E. unfold graphql_request. do 2 f_equal.
    apply body_depends_on_text. simpl. rewrite E. reflexivity. }
  split; [| split; [| split]].
  - intros -> ->.
    replace (graphql_request GetParticlesByStage_query
               (VObj [("workflowId", workflowId); ("stageName", stageName);
                      ("particleIds", particleIds)]))
      with (graphql_request GetParticlesByStage_query
               (VObj [("workflowId", workflowId); ("stageName", stageName);
                      ("particleIds", particleIds); ("pagination", VUndefined)])).
    + apply render_sends.
    + unfold graphql_request, JSON_stringify. simpl. reflexivity.
  - intros Hskip _. apply Given. now left.
  - intros Hskip ->.
    rewrite (Body (VObj [("skip", skip)]) (VObj [("skip", skip); ("limit", VUndefined)])).
    + apply Given. now left.
    + destruct skip; [contradiction | reflexivity ..].
  - intros -> Hlimit.
    rewrite (Body (VObj [("limit", limit)]) (VObj [("skip", VUndefined); ("limit", limit)])).
    + apply Given. now right.
    + destruct limit; [contradiction | reflexivity ..].
Qed.

(** What [create_pipeline] sends where the schema of the service wants a
    value: [pipelineDesc] is always a string, the empty one when no
    description or an empty one is given; [defaultEnvironments] is the
    boolean given, or [null]; [pipelineId] is [null]. *)
Theorem create_pipeline_fills_required_fields
        (pipelineName pipelineDesc teamId teamName defaultEnvironments : value)
        (w : world) :
  pipelineDesc = VUndefined \/ (exists d, pipelineDesc = VStr d) ->
  exists variables description,
    sends (create_pipeline pipelineName pipelineDesc teamId teamName defaultEnvironments) w
          [graphql_request ComposeNewPipeline_mutation variables] /\
    at_path variables ["pipelineDesc"] = VStr description /\
    (truthy pipelineDesc = false -> description = EmptyString) /\
    (pipelineDesc = VStr description \/ description = EmptyString) /\
    at_path variables ["pipelineId"] = VNull /\
    ((exists b, defaultEnvironments = VBool b
                /\ at_path variables ["defaultEnvironments"] = VBool b)
     \/ ((forall b, defaultEnvironments <> VBool b)
         /\ at_path variables ["defaultEnvironments"] = VNull)).
Proof.
  intros Hdesc. unfold create_pipeline, create_pipeline_try.
  eexists. exists (match pipelineDesc with VStr d => d | _ => EmptyString end).
  split; [apply render_sends|].
  split; [| split; [| split; [| split; [reflexivity|]]]].
  - destruct Hdesc as [-> | [d ->]]; [reflexivity|].
    simpl. unfold logical_or. simpl. now destruct d.
  - destruct Hdesc as [-> | [d ->]]; [reflexivity|].
    simpl. now destruct d.
  - destruct Hdesc as [-> | [d ->]]; [now right | now left].
  - destruct defaultEnvironments as [| |b| | | |];
      try (right; split; [intros b'; discriminate | reflexivity]).
    left. now exists b.
Qed.

(** ** Arguments left out *)

(** A variable passed as [undefined] is not sent: a call whose variables
    hold [undefined] entries runs exactly as the call without them, for
    both hand the same request to [fetch].  This is how the optional
    arguments a caller leaves out stay out of the request body. *)
Theorem undefined_variables_are_omitted
        (query : string) (properties : list (string * value)) (w : world) :
  executeGraphQL query (VObj properties) w
  = executeGraphQL query
      (VObj (List.filter (fun p => strict_not_undefined (snd p)) properties)) w.
Proof.
  rewrite !executeGraphQL_run.
  replace (graphql_request query
             (VObj (List.filter (fun p => strict_not_undefined (snd p)) properties)))
    with (graphql_request query (VObj properties)); [reflexivity|].
  unfold graphql_request. do 2 f_equal.
  apply body_depends_on_text, serialize_without_undefined.
Qed.

End Catalogue.

(** * Startup configuration *)

Lemma parse_args_pair (flag value : string) (rest : list string) (config : CommandLine) :
  parse_args (flag :: value :: rest) config
  = parse_args rest (set_option flag (Some value) config).
Proof. reflexivity. Qed.

Lemma parse_args_flags (pairs : list (string * string)) (rest : list string)
      (config : CommandLine) :
  parse_args (flags pairs ++ rest)%list config
  = parse_args rest (parse_args (flags pairs) config).
Proof.
  revert config. induction pairs as [|[flag value] pairs IH]; intros config; [reflexivity|].
  change (flags ((flag, value) :: pairs) ++ rest)%list
    with (flag :: value :: (flags pairs ++ rest))%list.
  change (flags ((flag, value) :: pairs)) with (flag :: value :: flags pairs).
  rewrite !parse_args_pair. apply IH.
Qed.

Lemma cli_option_set_same (flag : string) (value : option string) (config : CommandLine) :
  In flag known_flags -> cli_option flag (set_option flag value config) = value.
Proof.
  intros [<- | [<- | [<- | []]]]; reflexivity.
Qed.

Lemma cli_option_set_other (flag flag' : string) (value : option string)
      (config : CommandLine) :
  flag <> flag' -> cli_option flag (set_option flag' value config) = cli_option flag config.
Proof.
  intros Hne. unfold cli_option, set_option.
  destruct (String.eqb flag' "--url") eqn:E1.
  { apply String.eqb_eq in E1. subst.
    destruct (String.eqb flag "--url") eqn:E; [|reflexivity].
    apply String.eqb_eq in E. congruence. }
  destruct (String.eqb flag' "--token") eqn:E2.
  { apply String.eqb_eq in E2. subst.
    destruct (String.eqb flag "--url"); [reflexivity|].
    destruct (String.eqb flag "--token") eqn:E; [|reflexivity].
    apply String.eqb_eq in E. congruence. }
  destruct (String.eqb flag' "--tenant-id") eqn:E3; [|reflexivity].
  apply String.eqb_eq in E3. subst.
  destruct (String.eqb flag "--url"); [reflexivity|].
  destruct (String.eqb flag "--token"); [reflexivity|].
  destruct (String.eqb flag "--tenant-id") eqn:E; [|reflexivity].
  apply String.eqb_eq in E. congruence.
Qed.

(** Pairs that do not name a flag leave its option as it was. *)
Lemma parse_args_keeps (flag : string) (pairs : list (string * string))
      (config : CommandLine) :
  (forall value, ~ In (flag, value) pairs) ->
  cli_option flag (parse_args (flags pairs) config) = cli_option flag config.
Proof.
  revert config. induction pairs as [|[flag' value] pairs IH]; intros config Hnot;
    [reflexivity|].
  assert (Hne : flag <> flag') by (intros ->; apply (Hnot value); now left).
  assert (Hrest : forall v, ~ In (flag, v) pairs) by (intros v Hin; apply (Hnot v); now right).
  change (flags ((flag', value) :: pairs)) with (flag' :: value :: flags pairs).
  rewrite parse_args_pair, IH by exact Hrest. now apply cli_option_set_other.
Qed.

(** What [getConfig] returns is, for each setting, the command-line option
    when it is a non-empty string and the environment variable otherwise. *)
Lemma getConfig_setting (args : list string) (env : string -> option string)
      (cfg : Config) (flag : string) :
  In flag known_flags ->
  getConfig args env = Return cfg ->
  Some (setting flag cfg)
  = or_string (cli_option flag
                 (parse_args args {| cli_url := None; cli_token := None;
                                     cli_tenantId := None |}))
              (env (variable_of flag)).
Proof.
  intros Hflag. unfold getConfig.
  set (c := parse_args args _).
  destruct (or_string (cli_url c) _) as [[|c1 u]|] eqn:E1; try discriminate.
  destruct (or_string (cli_token c) _) as [[|c2 k]|] eqn:E2; try discriminate.
  destruct (or_string (cli_tenantId c) _) as [[|c3 t]|] eqn:E3; try discriminate.
  intros H. inversion H; subst cfg.
  destruct Hflag as [<- | [<- | [<- | []]]];
    unfold setting, cli_option, variable_of; simpl; symmetry; assumption.
Qed.

Lemma pair_induction (P : list string -> Prop) :
  P [] -> (forall key, P [key]) ->
  (forall key value rest, P rest -> P (key :: value :: rest)) ->
  forall args, P args.
Proof.
  intros H0 H1 H2. fix IH 1.
  intros [|key [|value rest]]; [exact H0 | apply H1 | apply H2, IH].
Qed.

(** The loop reads a prefix of even length on its own. *)
Lemma parse_args_even (before rest : list string) :
  Nat.even (List.length before) = true ->
  forall config,
    parse_args (before ++ rest)%list config = parse_args rest (parse_args before config).
Proof.
  induction before as [|key|key value before IH] using pair_induction; intros E config.
  - reflexivity.
  - discriminate E.
  - change ((key :: value :: before) ++ rest)%list with (key :: value :: (before ++ rest))%list.
    rewrite !parse_args_pair. apply IH. exact E.
Qed.

(** Entries that hold a flag at no even position leave its option as it
    was. *)
Lemma parse_args_ignores (flag : string) (args : list string) :
  ~ In flag (keys args) ->
  forall config, cli_option flag (parse_args args config) = cli_option flag config.
Proof.
  induction args as [|key|key value args IH] using pair_induction; intros Hnot config.
  - reflexivity.
  - simpl. apply cli_option_set_other. intros ->. apply Hnot. now left.
  - rewrite parse_args_pair, IH.
    + apply cli_option_set_other. intros ->. apply Hnot. now left.
    + intros Hin. apply Hnot. now right.
Qed.

(** The command line is read two entries at a time, the first of each two
    as a key and the second as its value.  A known flag at an even position
    (counted from zero) that is followed by a non-empty value, and stands at
    no later even position, decides its setting whatever the environment
    holds.  A flag that stands at odd positions only is read as a value and
    decides nothing: its setting comes from the environment. *)
Theorem command_line_beats_environment
        (args : list string) (flag : string) (env : string -> option string) (cfg : Config) :
  In flag known_flags ->
  getConfig args env = Return cfg ->
  (forall before value rest,
      args = (before ++ flag :: value :: rest)%list ->
      Nat.even (List.length before) = true ->
      value <> EmptyString ->
      ~ In flag (keys rest) ->
      setting flag cfg = value) /\
  (~ In flag (keys args) -> env (variable_of flag) = Some (setting flag cfg)).
Proof.
  intros Hflag Hconfig.
  pose proof (getConfig_setting _ _ _ _ Hflag Hconfig) as H.
  split.
  - intros before value rest -> Heven Hvalue Hrest.
    rewrite parse_args_even in H by exact Heven.
    rewrite parse_args_pair, parse_args_ignores in H by exact Hrest.
    rewrite cli_option_set_same in H by exact Hflag.
    destruct value; [contradiction|]. simpl in H. now inversion H.
  - intros Hnot. rewrite parse_args_ignores in H by exact Hnot.
    replace (cli_option flag {| cli_url := None; cli_token := None; cli_tenantId := None |})
      with (@None string) in H
      by (destruct Hflag as [<- | [<- | [<- | []]]]; reflexivity).
    now simpl in H.
Qed.

(** The environment is the fallback: a setting whose flag is absent from
    the command line, or given last with an empty value or with no value at
    all, is read from its environment variable. *)
Theorem environment_is_the_fallback
        (pairs : list (string * string)) (last : list string) (flag : string)
        (env : string -> option string) (cfg : Config) :
  In flag known_flags ->
  (forall value, ~ In (flag, value) pairs) ->
  last = [] \/ last = [flag] \/ last = [flag; EmptyString] ->
  getConfig (flags pairs ++ last)%list env = Return cfg ->
  env (variable_of flag) = Some (setting flag cfg).
Proof.
  intros Hflag Hnot Hlast Hconfig.
  pose proof (getConfig_setting _ _ _ _ Hflag Hconfig) as H.
  rewrite parse_args_flags in H.
  assert (K : cli_option flag
                (parse_args (flags pairs) {| cli_url := None; cli_token := None;
                                             cli_tenantId := None |}) = None).
  { rewrite parse_args_keeps by exact Hnot.
    destruct Hflag as [<- | [<- | [<- | []]]]; reflexivity. }
  destruct Hlast as [-> | [-> | ->]]; simpl in H.
  - rewrite K in H. now simpl in H.
  - rewrite cli_option_set_same in H by exact Hflag. now simpl in H.
  - rewrite cli_option_set_same in H by exact Hflag. now simpl in H.
Qed.

(** [getConfig] reports the first setting that is missing, in the order
    URL, token, tenant: with nothing usable for the URL it asks for the
    URL whatever else is there, and so on; and it fails in no other way. *)
Theorem first_missing_setting_is_reported
        (args : list string) (env : string -> option string) :
  (unset (resolved "--url" args env) ->
   getConfig args env
   = Throw (Error "GraphQL URL is required. Set VELOCITY_GRAPHQL_URL environment variable or use --url argument.")) /\
  (~ unset (resolved "--url" args env) -> unset (resolved "--token" args env) ->
   getConfig args env
   = Throw (Error "Access token is required. Set VELOCITY_ACCESS_TOKEN environment variable or use --token argument.")) /\
  (~ unset (resolved "--url" args env) -> ~ unset (resolved "--token" args env) ->
   unset (resolved "--tenant-id" args env) ->
   getConfig args env
   = Throw (Error "Tenant ID is required. Set VELOCITY_TENANT_ID environment variable or use --tenant-id argument.")) /\
  (~ unset (resolved "--url" args env) -> ~ unset (resolved "--token" args env) ->
   ~ unset (resolved "--tenant-id" args env) ->
   exists cfg, getConfig args env = Return cfg).
Proof.
  unfold unset, resolved, getConfig, cli_option, variable_of.
  simpl. set (c := parse_args args _).
  destruct (or_string (cli_url c) _) as [[|c1 u]|];
    destruct (or_string (cli_token c) _) as [[|c2 k]|];
    destruct (or_string (cli_tenantId c) _) as [[|c3 t]|];
    repeat split; intros;
    first [ reflexivity
          | eexists; reflexivity
          | match goal with
            | H : ~ (_ \/ _) |- _ => solve [exfalso; apply H; auto]
            | H : _ \/ _ |- _ => solve [destruct H; discriminate]
            end ].
Qed.

(** * Session cookies *)









Lemma append_empty (s : string) : s ++ EmptyString = s.
Proof. induction s; simpl; congruence. Qed.

(** The loop keeps, in order, the first parts that name a session. *)
Lemma collect_cookies_spec (cookieStrings cookies : list string) :
  collect_cookies cookieStrings cookies
  = (cookies ++ List.filter is_session_cookie
                  (map (fun cookieString => hd EmptyString (split ";" (trim cookieString)))
                       cookieStrings))%list.
Proof.
  revert cookies. induction cookieStrings as [|x rest IH]; intros cookies; simpl.
  - now rewrite app_nil_r.
  - destruct (is_session_cookie _); rewrite IH; [now rewrite <- app_assoc | reflexivity].
Qed.



Lemma occurs_trans (m p s x y : string) :
  includes p m = true -> s = x ++ p ++ y -> includes s m = true.
Proof.
  intros [a [b ->]]%includes_spec ->. apply includes_spec.
  exists (x ++ a), (b ++ y). now rewrite !append_assoc.
Qed.

Lemma split_first_is_prefix (separator : ascii) (s : string) :
  exists y, s = hd EmptyString (split separator s) ++ y.
Proof.
  induction s as [|c s [y IH]]; simpl.
  - now exists EmptyString.
  - destruct (Ascii.eqb c separator); [now exists (String c s)|].
    destruct (split separator s) as [|piece pieces]; simpl in *.
    + exists s. reflexivity.
    + exists y. now rewrite IH at 1.
Qed.

Lemma split_pieces_occur (separator : ascii) (s piece : string) :
  In piece (split separator s) -> exists x y, s = x ++ piece ++ y.
Proof.
  revert piece. induction s as [|c s IH]; intros piece; simpl.
  - intros [<- | []]. now exists EmptyString, EmptyString.
  - destruct (Ascii.eqb c separator).
    + intros [<- | Hin].
      * now exists EmptyString, (String c s).
      * destruct (IH _ Hin) as (x & y & ->). now exists (String c x), y.
    + pose proof (split_first_is_prefix separator s) as [y Hy].
      destruct (split separator s) as [|first others].
      * intros [<- | []]. now exists EmptyString, s.
      * intros [<- | Hin].
        -- exists EmptyString, y. simpl in *. now rewrite Hy at 1.
        -- destruct (IH _ (or_intror Hin)) as (x & z & ->). now exists (String c x), z.
Qed.

Lemma trimStart_is_suffix (s : string) : exists x, s = x ++ trimStart s.
Proof.
  induction s as [|c s [x IH]]; simpl.
  - now exists EmptyString.
  - destruct (is_white_space c).
    + exists (String c x). simpl. now rewrite <- IH.
    + now exists EmptyString.
Qed.

Lemma trimEnd_is_prefix (s : string) : exists y, s = trimEnd s ++ y.
Proof.
  induction s as [|c s [y IH]]; simpl.
  - now exists EmptyString.
  - destruct (trimEnd s) as [|d r].
    + destruct (is_white_space c).
      * now exists (String c s).
      * exists s. reflexivity.
    + exists y. simpl in *. now rewrite IH at 1.
Qed.

(** What the loop reads from a piece of the header occurs in the header. *)
Lemma cookie_occurs (setCookieHeader cookieString : string) :
  In cookieString (split "," setCookieHeader) ->
  exists x y,
    setCookieHeader = x ++ hd EmptyString (split ";" (trim cookieString)) ++ y.
Proof.
  intros (x & y & ->)%split_pieces_occur.
  destruct (trimStart_is_suffix cookieString) as [a Ha].
  destruct (trimEnd_is_prefix (trimStart cookieString)) as [b Hb].
  destruct (split_first_is_prefix ";" (trim cookieString)) as [c Hc].
  unfold trim in *.
  exists (x ++ a), (c ++ b ++ y).
  rewrite Ha at 1. rewrite Hb at 1. rewrite Hc at 1.
  now rewrite !append_assoc.
Qed.

(** A header that names neither session gives [null]: the helper never
    makes a session cookie out of a header that holds none. *)
Theorem header_without_session_gives_null (setCookieHeader : string) :
  includes setCookieHeader "VelocitySession=" = false ->
  includes setCookieHeader "SecurityApiSession=" = false ->
  extractSessionCookies setCookieHeader = None.
Proof.
  intros Hv Hs. unfold extractSessionCookies.
  rewrite collect_cookies_spec. simpl app.
  replace (List.filter _ _) with (@nil string); [reflexivity|].
  symmetry.
  assert (H : forall pieces, (forall p, In p pieces -> In p (split "," setCookieHeader)) ->
              List.filter is_session_cookie
                (map (fun cookieString => hd EmptyString (split ";" (trim cookieString)))
                     pieces) = []).
  { induction pieces as [|p pieces IH]; intros Hin; [reflexivity|]. simpl.
    destruct (cookie_occurs setCookieHeader p (Hin p (or_introl eq_refl))) as (x & y & E).
    destruct (is_session_cookie _) eqn:K.
    - apply orb_true_iff in K as [K | K];
        pose proof (occurs_trans _ _ _ _ _ K E) as T; congruence.
    - apply IH. intros q Hq. apply Hin. now right. }
  apply H. auto.
Qed.

Lemma join_starts_with (separator first : string) (others : list string) :
  exists y, join separator (first :: others) = first ++ y.
Proof.
  destruct others as [|next others].
  - exists EmptyString. simpl. now rewrite append_empty.
  - now exists (separator ++ join separator (next :: others)).
Qed.

(** What the helper returns names a session. *)
Lemma extracted_names_a_session (setCookieHeader cookie : string) :
  extractSessionCookies setCookieHeader = Some cookie ->
  is_session_cookie cookie = true.
Proof.
  unfold extractSessionCookies. rewrite collect_cookies_spec. simpl app.
  destruct (List.filter _ _) as [|first others] eqn:E; [discriminate|].
  simpl Nat.ltb. cbv iota. intros [= <-].
  assert (K : is_session_cookie first = true).
  { assert (I : In first (List.filter is_session_cookie
                     (map (fun cookieString => hd EmptyString (split ";" (trim cookieString)))
                          (split "," setCookieHeader))))
      by (rewrite E; now left).
    now apply filter_In in I. }
  destruct (join_starts_with "; " first others) as [y Hy].
  change (is_session_cookie (join "; " (first :: others)) = true). rewrite Hy.
  unfold is_session_cookie in *.
  apply orb_true_iff in K as [K | K]; apply orb_true_iff; [left | right];
    apply (occurs_trans _ first _ EmptyString y K); reflexivity.
Qed.

Section Session.

Context {Cfg : Config}.

(** The helper and the executor agree on what a session cookie is: when the
    credential is what [extractSessionCookies] returned for some header,
    every request carries it in a [Cookie] header and carries no
    [Authorization] header. *)
Theorem extracted_cookies_are_sent_as_a_cookie
        (setCookieHeader : string) (query : string) (variables : value) (w : world) :
  extractSessionCookies setCookieHeader = Some accessToken ->
  exists init,
    sends (executeGraphQL query variables) w [(graphqlUrl, init)] /\
    headers init = [("Content-Type", "application/json");
                    ("Accept", "*/*");
                    ("User-Agent", "MCP-Velocity-Client/1.0.0");
                    ("Cookie", accessToken)].
Proof.
  intros H%extracted_names_a_session.
  exists (snd (graphql_request query variables)).
  split; [apply executeGraphQL_sends|].
  simpl. unfold isSessionCookie. unfold is_session_cookie in H. now rewrite H.
Qed.

End Session.

End Properties.

(** * Concrete runs *)

Import Example.

Lemma validation_failure_sends_nothing_witness :
  fails_validation group_only /\
  exists m,
    In m validation_messages /\
    add_pipeline_gate_try group_only (start []) = (Throw (Error m), start []) /\
    add_pipeline_gate group_only (start [])
    = (Return (text_content ("Error adding gate: " ++ m)), start []) /\
    sends (add_pipeline_gate group_only) (start []) [].
Proof.
  assert (F : fails_validation group_only) by (apply manual_no_user; reflexivity).
  split; [exact F|].
  apply (validation_failure_sends_nothing group_only (start []) F).
  intros l E; inversion E; repeat constructor.
Defined.

Lemma create_rule_failure_stops_witness :
  fst (add_pipeline_gate two_approvers (start [response 500 VNull]))
  = Return (text_content "Error adding gate: HTTP 500: body") /\
  sends (add_pipeline_gate two_approvers) (start [response 500 VNull])
        [graphql_request AddManualVersionSignOffRule_mutation
                         (manual_rule_variables two_approvers [user_u1])].
Proof.
  destruct (create_rule_failure_stops
              two_approvers (start [response 500 VNull])
              AddManualVersionSignOffRule_mutation
              (manual_rule_variables two_approvers [user_u1])
              "addManualVersionSignOffRule"
              (Error "HTTP 500: body")) as [_ [T [S _]]].
  - intros l E; inversion E; repeat constructor.
  - reflexivity.
  - reflexivity.
  - split; [exact T | exact S].
Defined.

Lemma created_rule_is_attached_witness :
  sends (add_pipeline_gate two_approvers)
        (start [response 200 rule_created; response 200 gate_attached])
        [graphql_request AddManualVersionSignOffRule_mutation
                         (manual_rule_variables two_approvers [user_u1]);
         graphql_request upsertMutation
                         (VObj [("pipelineId", VStr "p1");
                                ("stageId", VStr "s1");
                                ("ruleIds", VArr [VStr "r1"]);
                                ("manualGateNotification", VBool true)])] /\
  fst (add_pipeline_gate two_approvers
                         (start [response 200 rule_created; response 200 gate_attached]))
  = Return (text_content
              ("Gate added to pipeline stage: "
               ++ interpolate
                    (JSON_stringify (VObj [("_id", VStr "g7"); ("stageId", VStr "s1")]) 2))).
Proof.
  destruct (created_rule_is_attached
              two_approvers
              (start [response 200 rule_created; response 200 gate_attached])
              (snd (executeGraphQL AddManualVersionSignOffRule_mutation
                                   (manual_rule_variables two_approvers [user_u1])
                                   (start [response 200 rule_created;
                                           response 200 gate_attached])))
              AddManualVersionSignOffRule_mutation
              (manual_rule_variables two_approvers [user_u1])
              "addManualVersionSignOffRule"
              (own_property rule_created "data")
              (VStr "r1")) as [S F].
  - intros l E; inversion E; repeat constructor.
  - reflexivity.
  - reflexivity.
  - reflexivity.
  - split; [exact S|].
    edestruct F as (t & R & E); [reflexivity|].
    rewrite R, E. reflexivity.
Defined.

(** C3, a counterexample to the claim as stated.  The attach call succeeds
    with [null], the [data] of the body, and the handler returns an error
    text; and when the attach call succeeds with a gate, what the handler
    returns is a text that holds the JSON text of the gate after a label,
    not the gate. *)
Lemma attach_result_is_not_returned :
  fst (executeGraphQL upsertMutation (attach_variables two_approvers (VStr "r1"))
         (snd (executeGraphQL AddManualVersionSignOffRule_mutation
                              (manual_rule_variables two_approvers [user_u1])
                              (start [response 200 rule_created;
                                      response 200 (VObj [("data", VNull)])]))))
  = Return VNull /\
  fst (add_pipeline_gate two_approvers
         (start [response 200 rule_created; response 200 (VObj [("data", VNull)])]))
  = Return (VObj [("content",
                   VArr [VObj [("type", VStr "text");
                               ("text",
                                VStr "Error adding gate: Cannot read properties of null (reading 'upsertPipelineGate')")]])]) /\
  fst (executeGraphQL upsertMutation (attach_variables two_approvers (VStr "r1"))
         (snd (executeGraphQL AddManualVersionSignOffRule_mutation
                              (manual_rule_variables two_approvers [user_u1])
                              (start [response 200 rule_created;
                                      response 200 gate_attached]))))
  = Return (VObj [("upsertPipelineGate",
                   VObj [("_id", VStr "g7"); ("stageId", VStr "s1")])]) /\
  fst (add_pipeline_gate two_approvers
         (start [response 200 rule_created; response 200 gate_attached]))
  <> Return (VObj [("_id", VStr "g7"); ("stageId", VStr "s1")]) /\
  fst (add_pipeline_gate two_approvers
         (start [response 200 rule_created; response 200 gate_attached]))
  <> Return (VObj [("upsertPipelineGate",
                    VObj [("_id", VStr "g7"); ("stageId", VStr "s1")])]).
Proof.
  split; [reflexivity|]. split; [reflexivity|]. split; [reflexivity|].
  split; discriminate.
Qed.

Lemma only_user_approvers_are_sent_witness :
  exists later,
    sends (add_pipeline_gate two_approvers) (start [])
          (graphql_request AddManualVersionSignOffRule_mutation
                           (manual_rule_variables two_approvers [user_u1]) :: later).
Proof.
  destruct (only_user_approvers_are_sent two_approvers (start []) [user_u1; group_g1])
    as [_ [[B _] | [_ [later [S _]]]]].
  - reflexivity.
  - reflexivity.
  - repeat constructor.
  - discriminate.
  - discriminate.
  - exists later. exact S.
Defined.

(** C5, a counterexample to the claim as stated: for the errors
    [[{ message: 'bad field' }]] what the call throws is an [Error] object
    whose [message] is a string that holds the JSON text of the collection;
    the failure holds the collection nowhere else. *)
Lemma graphql_error_detail_is_text :
  fst (executeGraphQL "query" VUndefined
                      (start [response 200 (VObj [("errors", bad_field_errors)])]))
  = Throw {| name := "Error";
             message := "GraphQL errors: [{" ++ QuoteJSONString "message" ++ ":"
                        ++ QuoteJSONString "bad field" ++ "}]" |}.
Proof. reflexivity. Qed.

Lemma graphql_errors_are_serialized_witness :
  fst (executeGraphQL "query" VUndefined
                      (start [response 200 (VObj [("errors", bad_field_errors)])]))
  = Throw (Error ("GraphQL errors: " ++ JSON_text bad_field_errors)) /\
  (forall other,
      is_finite_json other = true ->
      "GraphQL errors: " ++ JSON_text other
      = "GraphQL errors: " ++ JSON_text bad_field_errors ->
      same_json other bad_field_errors).
Proof.
  destruct (graphql_errors_are_serialized
              "query" VUndefined
              (start [response 200 (VObj [("errors", bad_field_errors)])])
              {| status := 200; text := "body";
                 json := Return (VObj [("errors", bad_field_errors)]) |}
              []
              [("errors", bad_field_errors)]
              (VObj [("message", VStr "bad field")]) []) as [T [_ R]].
  - reflexivity.
  - simpl; lia.
  - reflexivity.
  - reflexivity.
  - split; [exact T | exact (R eq_refl)].
Defined.

Lemma non_2xx_is_transport_error_witness :
  fst (executeGraphQL "query" VUndefined
                      (start [response 503 (VObj [("errors", bad_field_errors)])]))
  = Throw (Error "HTTP 503: body").
Proof.
  apply (non_2xx_is_transport_error
           "query" VUndefined
           (start [response 503 (VObj [("errors", bad_field_errors)])])
           {| status := 503; text := "body";
              json := Return (VObj [("errors", bad_field_errors)]) |}
           []).
  - reflexivity.
  - simpl; lia.
Defined.

(** C7, a counterexample to the claim as stated: a body whose [errors] is
    the empty collection makes the call fail instead of returning [data]. *)
Lemma empty_errors_array_still_fails :
  own_property empty_errors_body "errors" = VArr [] /\
  fst (executeGraphQL "query" VUndefined (start [response 200 empty_errors_body]))
  = Throw (Error "GraphQL errors: []") /\
  fst (executeGraphQL "query" VUndefined (start [response 200 empty_errors_body]))
  <> Return (own_property empty_errors_body "data").
Proof.
  split; [reflexivity|]. split; [reflexivity | discriminate].
Qed.

Lemma success_returns_data_witness :
  fst (executeGraphQL "query" VUndefined (start [response 200 rule_created]))
  = Return (own_property rule_created "data").
Proof.
  apply (success_returns_data
           "query" VUndefined (start [response 200 rule_created])
           {| status := 200; text := "body"; json := Return rule_created |} []).
  - reflexivity.
  - simpl; lia.
  - reflexivity.
  - reflexivity.
  - reflexivity.
Defined.

Lemma falsy_tenant_falls_back_witness :
  exists query variables,
    sends (get_issues (VStr EmptyString) VUndefined VUndefined VUndefined) (start [])
          [graphql_request query variables] /\
    own_property (own_property variables "filter") "tenantId" = VStr "tenant-1".
Proof.
  apply (falsy_tenant_falls_back
           ["--url"; "https://velocity.example/graphql"; "--token"; "key123"]
           (fun k => if String.eqb k "VELOCITY_TENANT_ID" then Some "tenant-1" else None)
           access_key
           (call_get_issues (VStr EmptyString) VUndefined VUndefined VUndefined)
           (VStr EmptyString) (start [])).
  - reflexivity.
  - reflexivity.
  - reflexivity.
Defined.

(** ** Runs of the further properties *)

Lemma fetch_rejection_is_rethrown_witness :
  executeGraphQL "query" VUndefined (start [])
  = (Throw (TypeError "fetch failed"),
     {| service := ([] : @remote _ scripted); sent := [graphql_request "query" VUndefined] |}).
Proof.
  apply (fetch_rejection_is_rethrown "query" VUndefined (start [])
                                     (TypeError "fetch failed") []).
  reflexivity.
Defined.

Lemma invalid_JSON_is_rethrown_witness :
  fst (executeGraphQL "query" VUndefined
         (start [Return {| status := 200; text := "<html>";
                           json := Throw (Error "Unexpected token <") |}]))
  = Throw (Error "Unexpected token <").
Proof.
  apply (invalid_JSON_is_rethrown
           "query" VUndefined
           (start [Return {| status := 200; text := "<html>";
                             json := Throw (Error "Unexpected token <") |}])
           {| status := 200; text := "<html>"; json := Throw (Error "Unexpected token <") |}
           (Error "Unexpected token <") []).
  - reflexivity.
  - simpl; lia.
  - reflexivity.
Defined.

Lemma null_body_is_a_TypeError_witness :
  fst (executeGraphQL "query" VUndefined (start [response 200 VNull]))
  = Throw (TypeError "Cannot convert undefined or null to object").
Proof.
  apply (null_body_is_a_TypeError
           "query" VUndefined (start [response 200 VNull])
           {| status := 200; text := "body"; json := Return VNull |} []).
  - reflexivity.
  - simpl; lia.
  - reflexivity.
Defined.

Lemma errors_take_precedence_over_data_witness :
  fst (executeGraphQL "query" VUndefined (start [response 200 empty_errors_body]))
  = Throw (Error ("GraphQL errors: " ++ JSON_text (VArr []))).
Proof.
  apply (errors_take_precedence_over_data
           "query" VUndefined (start [response 200 empty_errors_body])
           {| status := 200; text := "body"; json := Return empty_errors_body |} []
           [("data", VObj [("ok", VBool true)]); ("errors", VArr [])]
           (VArr [])).
  - reflexivity.
  - simpl; lia.
  - reflexivity.
  - reflexivity.
  - reflexivity.
Defined.

Lemma attach_failure_leaves_the_rule_witness :
  fst (add_pipeline_gate two_approvers
         (start [response 200 rule_created; response 500 VNull]))
  = Return (text_content "Error adding gate: HTTP 500: body") /\
  sends (add_pipeline_gate two_approvers)
        (start [response 200 rule_created; response 500 VNull])
        [graphql_request AddManualVersionSignOffRule_mutation
                         (manual_rule_variables two_approvers [user_u1]);
         graphql_request upsertMutation (attach_variables two_approvers (VStr "r1"))].
Proof.
  apply (attach_failure_leaves_the_rule
           two_approvers
           (start [response 200 rule_created; response 500 VNull])
           (snd (executeGraphQL AddManualVersionSignOffRule_mutation
                                (manual_rule_variables two_approvers [user_u1])
                                (start [response 200 rule_created; response 500 VNull])))
           AddManualVersionSignOffRule_mutation
           (manual_rule_variables two_approvers [user_u1])
           "addManualVersionSignOffRule"
           (own_property rule_created "data")
           (VStr "r1")
           (Error "HTTP 500: body")).
  - intros l E; inversion E; repeat constructor.
  - reflexivity.
  - reflexivity.
  - reflexivity.
  - reflexivity.
Defined.

Lemma missing_rule_stops_before_attach_witness :
  fst (add_pipeline_gate two_approvers
         (start [response 200 (VObj [("data", VObj [])]); response 200 gate_attached]))
  = Return (text_content
              "Error adding gate: Cannot read properties of undefined (reading '_id')") /\
  sends (add_pipeline_gate two_approvers)
        (start [response 200 (VObj [("data", VObj [])]); response 200 gate_attached])
        [graphql_request AddManualVersionSignOffRule_mutation
                         (manual_rule_variables two_approvers [user_u1])].
Proof.
  apply (missing_rule_stops_before_attach
           two_approvers
           (start [response 200 (VObj [("data", VObj [])]); response 200 gate_attached])
           (snd (executeGraphQL AddManualVersionSignOffRule_mutation
                                (manual_rule_variables two_approvers [user_u1])
                                (start [response 200 (VObj [("data", VObj [])]);
                                        response 200 gate_attached])))
           AddManualVersionSignOffRule_mutation
           (manual_rule_variables two_approvers [user_u1])
           "addManualVersionSignOffRule"
           (VObj [])).
  - intros l E; inversion E; repeat constructor.
  - reflexivity.
  - reflexivity.
  - reflexivity.
  - reflexivity.
Defined.

Lemma missing_rule_id_is_sent_as_null_witness :
  sends (add_pipeline_gate two_approvers)
        (start [response 200
                  (VObj [("data", VObj [("addManualVersionSignOffRule", VObj [])])]);
                response 200 gate_attached])
        [graphql_request AddManualVersionSignOffRule_mutation
                         (manual_rule_variables two_approvers [user_u1]);
         graphql_request upsertMutation (attach_variables two_approvers VNull)].
Proof.
  apply (missing_rule_id_is_sent_as_null
           two_approvers
           (start [response 200
                     (VObj [("data", VObj [("addManualVersionSignOffRule", VObj [])])]);
                   response 200 gate_attached])
           (snd (executeGraphQL AddManualVersionSignOffRule_mutation
                                (manual_rule_variables two_approvers [user_u1])
                                (start [response 200
                                          (VObj [("data",
                                                  VObj [("addManualVersionSignOffRule",
                                                         VObj [])])]);
                                        response 200 gate_attached])))
           AddManualVersionSignOffRule_mutation
           (manual_rule_variables two_approvers [user_u1])
           "addManualVersionSignOffRule"
           (VObj [("addManualVersionSignOffRule", VObj [])])).
  - intros l E; inversion E; repeat constructor.
  - reflexivity.
  - reflexivity.
  - reflexivity.
  - reflexivity.
  - reflexivity.
Defined.

Lemma empty_required_field_is_rejected_witness :
  exists m,
    In m validation_messages /\
    add_pipeline_gate empty_status (start [response 200 rule_created])
    = (Return (text_content ("Error adding gate: " ++ m)), start [response 200 rule_created]).
Proof.
  apply (empty_required_field_is_rejected empty_status (start [response 200 rule_created])).
  right. split; reflexivity.
Defined.

Lemma only_the_rule_of_the_gate_type_matters_witness :
  add_pipeline_gate two_approvers
                    (start [response 200 rule_created; response 200 gate_attached])
  = add_pipeline_gate two_approvers_and_metric
                      (start [response 200 rule_created; response 200 gate_attached]).
Proof.
  apply (only_the_rule_of_the_gate_type_matters
           two_approvers two_approvers_and_metric
           (start [response 200 rule_created; response 200 gate_attached])).
  repeat split; try reflexivity; discriminate.
Defined.

Lemma provided_tenant_is_sent_witness :
  exists query variables,
    sends (get_teams_by_tenant (VStr "tenant-9") VUndefined) (start [])
          [graphql_request query variables] /\
    own_property variables "tenantId" = VStr "tenant-9".
Proof.
  apply (provided_tenant_is_sent
           (call_get_teams_by_tenant (VStr "tenant-9") VUndefined) (VStr "tenant-9") (start [])).
  - reflexivity.
  - reflexivity.
Defined.

Lemma connection_test_counts_types_witness :
  test_graphql_connection
    (start [response 200
              (VObj [("data",
                      VObj [("__schema",
                             VObj [("types", VArr [VObj [("name", VStr "Query")];
                                                   VObj [("name", VStr "Mutation")]])])])])])
  = (Return (text_content "GraphQL connection test successful: Found 2 schema types"),
     {| service := ([] : @remote _ scripted); sent := [graphql_request TestConnection_query (VObj [])] |}).
Proof.
  apply (connection_test_counts_types
           (start [response 200
                     (VObj [("data",
                             VObj [("__schema",
                                    VObj [("types", VArr [VObj [("name", VStr "Query")];
                                                          VObj [("name", VStr "Mutation")]])])])])])
           {| service := ([] : @remote _ scripted); sent := [graphql_request TestConnection_query (VObj [])] |}
           (VObj [("__schema",
                   VObj [("types", VArr [VObj [("name", VStr "Query")];
                                         VObj [("name", VStr "Mutation")]])])])
           (VObj [("types", VArr [VObj [("name", VStr "Query")];
                                  VObj [("name", VStr "Mutation")]])])
           [VObj [("name", VStr "Query")]; VObj [("name", VStr "Mutation")]]).
  - reflexivity.
  - reflexivity.
  - reflexivity.
  - reflexivity.
  - reflexivity.
  - reflexivity.
Defined.

Lemma tools_without_tenant_argument_use_the_configured_tenant_witness :
  exists query variables,
    sends (upload_issue_data (VStr "jira") (VStr "t1") (VStr "https://jira.example")
                             (VArr [VObj [("id", VStr "I-1")]]))
          (start [])
          [graphql_request query variables] /\
    own_property (own_property variables "data") "tenantId" = VStr "tenant-1".
Proof.
  exact (tools_without_tenant_argument_use_the_configured_tenant
           (also_upload_issue_data (VStr "jira") (VStr "t1") (VStr "https://jira.example")
                                   (VArr [VObj [("id", VStr "I-1")]]))
           ["data"; "tenantId"] (start []) eq_refl eq_refl).
Defined.

Lemma create_pipeline_fills_required_fields_witness :
  exists variables description,
    sends (create_pipeline (VStr "web") VUndefined (VStr "team-1") (VStr "Web") VUndefined)
          (start [])
          [graphql_request ComposeNewPipeline_mutation variables] /\
    own_property variables "pipelineDesc" = VStr description /\
    description = EmptyString /\
    own_property variables "pipelineId" = VNull /\
    own_property variables "defaultEnvironments" = VNull.
Proof.
  destruct (create_pipeline_fills_required_fields
              (VStr "web") VUndefined (VStr "team-1") (VStr "Web") VUndefined (start []))
    as (variables & description & S & D & E & _ & P & [(b & B & _) | (_ & N)]).
  - left. reflexivity.
  - discriminate B.
  - exists variables, description. repeat split; try assumption. now apply E.
Defined.

Lemma command_line_beats_environment_witness :
  setting "--tenant-id"
          {| graphqlUrl := "https://velocity.example/graphql";
             accessToken := "key123";
             tenantId := "tenant-cli" |}
  = "tenant-cli" /\
  getConfig ["--url"; "https://velocity.example/graphql"; "--token"; "key123";
             "--verbose"; "--tenant-id"; "tenant-cli"]
            (fun k => if String.eqb k "VELOCITY_TENANT_ID" then Some "tenant-env" else None)
  = Return {| graphqlUrl := "https://velocity.example/graphql";
              accessToken := "key123";
              tenantId := "tenant-env" |} /\
  (if String.eqb (variable_of "--tenant-id") "VELOCITY_TENANT_ID"
   then Some "tenant-env" else None)
  = Some (setting "--tenant-id"
                  {| graphqlUrl := "https://velocity.example/graphql";
                     accessToken := "key123";
                     tenantId := "tenant-env" |}).
Proof.
  split; [| split].
  - apply (command_line_beats_environment
             ["--url"; "https://velocity.example/graphql";
              "--tenant-id"; "tenant-cli"; "--token"; "key123"]
             "--tenant-id"
             (fun k => if String.eqb k "VELOCITY_TENANT_ID" then Some "tenant-env" else None)
             {| graphqlUrl := "https://velocity.example/graphql";
                accessToken := "key123";
                tenantId := "tenant-cli" |}
             ltac:(simpl; auto) eq_refl)
      with (before := ["--url"; "https://velocity.example/graphql"])
           (rest := ["--token"; "key123"]).
    + reflexivity.
    + reflexivity.
    + discriminate.
    + intros [E | []]. discriminate E.
  - reflexivity.
  - apply (command_line_beats_environment
             ["--url"; "https://velocity.example/graphql"; "--token"; "key123";
              "--verbose"; "--tenant-id"; "tenant-cli"]
             "--tenant-id"
             (fun k => if String.eqb k "VELOCITY_TENANT_ID" then Some "tenant-env" else None)
             {| graphqlUrl := "https://velocity.example/graphql";
                accessToken := "key123";
                tenantId := "tenant-env" |}
             ltac:(simpl; auto) eq_refl).
    intros [E | [E | [E | [E | []]]]]; discriminate E.
Defined.

Lemma environment_is_the_fallback_witness :
  (if String.eqb (variable_of "--tenant-id") "VELOCITY_TENANT_ID"
   then Some "tenant-env" else None)
  = Some (setting "--tenant-id"
                  {| graphqlUrl := "https://velocity.example/graphql";
                     accessToken := "key123";
                     tenantId := "tenant-env" |}).
Proof.
  apply (environment_is_the_fallback
           [("--url", "https://velocity.example/graphql"); ("--token", "key123")]
           ["--tenant-id"; EmptyString]
           "--tenant-id"
           (fun k => if String.eqb k "VELOCITY_TENANT_ID" then Some "tenant-env" else None)).
  - simpl; auto.
  - intros value [E | [E | []]]; discriminate E.
  - right; right; reflexivity.
  - reflexivity.
Defined.


Lemma header_without_session_gives_null_witness :
  extractSessionCookies "theme=dark; Path=/, lang=en" = None.
Proof.
  apply (header_without_session_gives_null "theme=dark; Path=/, lang=en"); reflexivity.
Defined.

Lemma extracted_cookies_are_sent_as_a_cookie_witness :
  exists init,
    sends (@executeGraphQL _ _ session_login "query" VUndefined) (start [])
          [("https://velocity.example/graphql", init)] /\
    headers init = [("Content-Type", "application/json");
                    ("Accept", "*/*");
                    ("User-Agent", "MCP-Velocity-Client/1.0.0");
                    ("Cookie", "VelocitySession=abc; SecurityApiSession=xyz")].
Proof.
  apply (@extracted_cookies_are_sent_as_a_cookie
           _ _ session_login
           "VelocitySession=abc; Path=/; HttpOnly, theme=dark, SecurityApiSession=xyz; Secure"
           "query" VUndefined (start [])).
  reflexivity.
Defined.

Lemma first_missing_setting_is_reported_witness :
  getConfig ["--url"; "https://velocity.example/graphql"; "--token"]
            (fun k => if String.eqb k "VELOCITY_TENANT_ID" then Some "tenant-1" else None)
  = Throw (Error "Access token is required. Set VELOCITY_ACCESS_TOKEN environment variable or use --token argument.").
Proof.
  apply (first_missing_setting_is_reported
           ["--url"; "https://velocity.example/graphql"; "--token"]
           (fun k => if String.eqb k "VELOCITY_TENANT_ID" then Some "tenant-1" else None)).
  - intros [E | E]; discriminate E.
  - left. reflexivity.
Defined.

Lemma particle_paging_witness :
  sends (get_particles_by_stage (VStr "w1") (VStr "Build") VUndefined
                                (VNum (number_of_nat 0)) VUndefined)
        (start [])
        [graphql_request GetParticlesByStage_query
           (VObj [("workflowId", VStr "w1");
                  ("stageName", VStr "Build");
                  ("particleIds", VUndefined);
                  ("pagination", VObj [("skip", VNum (number_of_nat 0))])])].
Proof.
  destruct (particle_paging (VStr "w1") (VStr "Build") VUndefined
                            (VNum (number_of_nat 0)) VUndefined (start []))
    as (_ & _ & H & _).
  apply H; [discriminate | reflexivity].
Defined.
